(** * Notebooks and manifests of the workshop repository, as interaction trees

    The repository consists of linear notebook scripts that talk to managed
    services, and of one static job manifest.  A notebook cell is embedded
    as an interaction tree over the events a cell can perform: reading and
    binding a name of the kernel namespace, calling an SDK operation,
    running a shell escape, sleeping, printing and displaying.  A handler
    gives the events their meaning over an explicit world (the kernel
    namespace, the stores that outlive a kernel, the trace of what was
    observable), and [exec] runs a tree against an environment that stands
    for the remote platform. *)

From stdpp Require Import gmap strings list pretty.
From ITree Require Import ITree Eq.Shallow.
From Stdlib Require Import ZArith Ascii String Floats.

Local Open Scope string_scope.
Local Open Scope Z_scope.
Local Open Scope list_scope.

(** ** Python exceptions and fallible pure code *)

Inductive exn : Type :=
| NameError (name : string)
| IndexError
| TypeError
| ValueError
| OverflowError
| SyntaxError
| AttributeError (name : string)
| KeyError (key : string)
| ClientError (code : string)
| UnexpectedStatusException (status : string).

Inductive result (A : Type) : Type :=
| Ok (a : A)
| Raise (e : exn).
Arguments Ok {A} a.
Arguments Raise {A} e.

#[global] Instance result_ret : MRet result := fun _ a => Ok a.
#[global] Instance result_bind : MBind result :=
  fun _ _ k r => match r with Ok a => k a | Raise e => Raise e end.

(** ** Strings: the [str] methods the notebooks use (ASCII) *)

Definition lower_ascii (c : ascii) : ascii :=
  let n := nat_of_ascii c in
  if ((65 <=? n) && (n <=? 90))%nat then ascii_of_nat (n + 32) else c.

Fixpoint lower (s : string) : string :=
  match s with
  | EmptyString => EmptyString
  | String c s' => String (lower_ascii c) (lower s')
  end.

Definition endswith (s suffix : string) : bool :=
  let n := String.length s in
  let m := String.length suffix in
  (m <=? n)%nat && String.eqb (substring (n - m) m s) suffix.

Definition startswith (s pre : string) : bool := String.prefix pre s.

(** [os.path.basename]: what follows the last slash. *)
Fixpoint basename_go (s acc : string) : string :=
  match s with
  | EmptyString => acc
  | String c s' =>
      if Ascii.eqb c "/"%char then basename_go s' EmptyString
      else basename_go s' (acc +:+ String c EmptyString)
  end.

Definition basename (path : string) : string := basename_go path EmptyString.

(** [template.format(args)] for positional [{}] / [{0}] fields whose
    arguments are already strings; a field beyond the arguments raises. *)
Fixpoint format_go (fuel : nat) (template : string) (args : list string)
    (all : list string) : result string :=
  match fuel with
  | O => Ok EmptyString
  | S fuel' =>
      match template with
      | EmptyString => Ok EmptyString
      | String "{" (String "}" rest) =>
          match args with
          | a :: args' => r ← format_go fuel' rest args' all; Ok (a +:+ r)
          | [] => Raise IndexError
          end
      | String "{" (String d (String "}" rest)) =>
          let i := (nat_of_ascii d - 48)%nat in
          match all !! i with
          | Some a => r ← format_go fuel' rest args all; Ok (a +:+ r)
          | None => Raise IndexError
          end
      | String c rest => r ← format_go fuel' rest args all; Ok (String c r)
      end
  end.

Definition format (template : string) (args : list string) : result string :=
  format_go (S (String.length template)) template args args.

(** ** Floats: [int(x)] and the int-to-float coercion of [x * width] *)

(** [int] truncates towards zero and raises on infinities and NaN. *)
Definition int_of_float (x : float) : result Z :=
  match Prim2SF x with
  | S754_zero _ => Ok 0
  | S754_finite s m e =>
      let v := if 0 <=? e then Z.pos m * 2 ^ e else Z.pos m / 2 ^ (- e) in
      Ok (if s then - v else v)
  | S754_infinity _ => Raise OverflowError
  | S754_nan => Raise ValueError
  end.

Definition float_of_int (z : Z) : float :=
  SF2Prim (binary_normalize prec emax z 0 false).

(** ** Rekognition response shapes *)

Module BoundingBox.
Record t : Type := { Width : float; Height : float; Left : float; Top : float }.
End BoundingBox.

Module ComparedFace.
Record t : Type := { BoundingBox : BoundingBox.t; Confidence : float }.
End ComparedFace.

(** An entry of [CelebrityFaces] in the image response. *)
Module Celebrity.
Record t : Type :=
  { Urls : list string; Name : string; Id : string;
    Face : ComparedFace.t; MatchConfidence : float }.
End Celebrity.

Module RecognizeCelebritiesResponse.
Record t : Type :=
  { CelebrityFaces : list Celebrity.t;
    UnrecognizedFaces : list ComparedFace.t }.
End RecognizeCelebritiesResponse.

(** The value under the ['Celebrity'] key of a video detection. *)
Module CelebrityDetail.
Record t : Type :=
  { Urls : list string; Name : string; Id : string;
    Confidence : float; BoundingBox : BoundingBox.t }.
End CelebrityDetail.

(** An entry of [Celebrities] in the video response; the ['Celebrity'] key
    may be absent, which the notebook tests with [in]. *)
Module CelebrityRecognition.
Record t : Type := { Timestamp : Z; Celebrity : option CelebrityDetail.t }.
End CelebrityRecognition.

Module StartCelebrityRecognitionResponse.
Record t : Type := { JobId : string }.
End StartCelebrityRecognitionResponse.

Module GetCelebrityRecognitionResponse.
Record t : Type :=
  { JobStatus : string; StatusMessage : string;
    Celebrities : list CelebrityRecognition.t }.
End GetCelebrityRecognitionResponse.

(** ** Values bound in a kernel namespace *)

#[warnings="-register-all"]
Inductive pyval : Type :=
| VNone
| VBool (b : bool)
| VInt (z : Z)
| VFloat (f : float)
| VStr (s : string)
| VList (l : list pyval)
| VDict (d : list (string * pyval))
| VObj (cls : string) (args : list (string * pyval))
| VRecognize (r : RecognizeCelebritiesResponse.t)
| VStartJob (r : StartCelebrityRecognitionResponse.t)
| VGetJob (r : GetCelebrityRecognitionResponse.t)
| VBoxes (boxes : list (string * BoundingBox.t)).

(** What [ImageDraw] is asked to draw, in order. *)
Inductive draw_op : Type :=
| DrawText (xy : Z * Z) (text : string) (fill : Z * Z * Z)
| DrawRectangle (xy : Z * Z * Z * Z) (outline : Z * Z * Z).

(** Builtins of the Python runtime whose results the notebooks only
    display: [round(x, n)], [str(x)] of a float and [format(x, spec)]. *)
Record python : Type :=
  { py_round : float -> Z -> float;
    py_str_float : float -> string;
    py_format_float : float -> string -> string }.

(** ** Stores that outlive a kernel *)

(** The places a script can leave a value for a later reader: the
    [%store] database of IPython, objects of the object store (by URI),
    files relative to the working directory of a notebook, files named
    by an absolute path, and the listing of a working directory. *)
Inductive loc : Type :=
| StoreVar (name : string)
| S3Uri (uri : string)
| File (cwd path : string)
| AbsFile (path : string)
| Listing (cwd : string).

#[global] Instance loc_eq_dec : EqDecision loc.
Proof. solve_decision. Defined.

Definition loc_encode (l : loc) : string + (string + (string * string + (string + string))) :=
  match l with
  | StoreVar x => inl x
  | S3Uri u => inr (inl u)
  | File d p => inr (inr (inl (d, p)))
  | AbsFile p => inr (inr (inr (inl p)))
  | Listing d => inr (inr (inr (inr d)))
  end.

Definition loc_decode (x : string + (string + (string * string + (string + string)))) : loc :=
  match x with
  | inl x => StoreVar x
  | inr (inl u) => S3Uri u
  | inr (inr (inl (d, p))) => File d p
  | inr (inr (inr (inl p))) => AbsFile p
  | inr (inr (inr (inr d))) => Listing d
  end.

#[global] Instance loc_countable : Countable loc.
Proof. apply (inj_countable' loc_encode loc_decode). by intros []. Defined.

Definition s3_uri (bucket key : string) : string :=
  "s3://" +:+ bucket +:+ "/" +:+ key.

(** A path as a shell command or a file API resolves it. *)
Definition path_loc (cwd path : string) : loc :=
  if startswith path "s3://" then S3Uri path
  else if startswith path "/" then AbsFile path
  else File cwd path.

(** ** Operations of the platform *)

(** The SDK operations the notebooks call, with the arguments the code
    passes.  Each is answered by the environment and may raise. *)
Inductive call : Type :=
| sagemaker_Session_default_bucket
| sagemaker_get_execution_role
| boto3_Session_region_name
| sts_get_caller_identity_Account
| time_time
| s3_generate_presigned_url (Bucket Key : string)
| s3_download_file (Bucket Key Filename : string)
| rekognition_recognize_celebrities (Bucket Name : string)
| rekognition_start_celebrity_recognition (Bucket Name : string)
| rekognition_get_celebrity_recognition (JobId SortBy : string)
| Image_open (fp : string)
| Image_save (fp format : string) (ops : list draw_op)
| Experiment_create (experiment_name description : string)
| Trial_create (trial_name experiment_name : string)
| Estimator_fit (source_dir : string) (inputs : list (string * string))
    (estimator : pyval) (experiment_config : list (string * pyval)) (wait : bool)
| TrainingJob_wait (job_name : string) (logs : bool)
| ExperimentAnalytics_dataframe (experiment_name : string)
    (metric_names : list string) (sort_by sort_order : string)
| sagemaker_describe_trial_component (TrialComponentName : string)
| components_load_component_from_url (url : string)
| component_op (component : pyval) (kwargs : list (string * pyval))
| ContainerOp_after (op dependency : pyval)
| Compiler_write_package (package_path : string)
| Client_create_experiment (name : string)
| Client_run_pipeline (experiment_id job_name pipeline_package_path : string)
| tfds_load (name split : string)
| Dataset_vocabularies
| Model_fit (use_timestamps : bool) (optimizer : string) (epochs : Z)
| Model_evaluate (use_timestamps : bool) (dataset metric : string).

Definition answer (c : call) : Type :=
  match c with
  | sagemaker_Session_default_bucket | sagemaker_get_execution_role
  | boto3_Session_region_name | sts_get_caller_identity_Account => string
  | time_time => Z
  | s3_generate_presigned_url _ _ => string
  | s3_download_file _ _ _ => unit
  | rekognition_recognize_celebrities _ _ => RecognizeCelebritiesResponse.t
  | rekognition_start_celebrity_recognition _ _ => StartCelebrityRecognitionResponse.t
  | rekognition_get_celebrity_recognition _ _ => GetCelebrityRecognitionResponse.t
  | Image_open _ => Z * Z
  | Image_save _ _ _ => unit
  | Experiment_create _ _ | Trial_create _ _ => string
  | Estimator_fit _ _ _ _ _ => string
  | TrainingJob_wait _ _ => unit
  | ExperimentAnalytics_dataframe _ _ _ _ => list string
  | sagemaker_describe_trial_component _ => pyval
  | components_load_component_from_url _ => pyval
  | component_op _ _ | ContainerOp_after _ _ => pyval
  | Compiler_write_package _ => unit
  | Client_create_experiment _ => string
  | Client_run_pipeline _ _ _ => pyval
  | tfds_load _ _ => pyval
  | Dataset_vocabularies => pyval
  | Model_fit _ _ _ => unit
  | Model_evaluate _ _ _ => float
  end.

(** Shell escapes ([!cmd]); IPython runs them in the working directory,
    shows their output and never raises for a failing status. *)
Inductive shell : Type :=
| sh_pip_install (args : string)
| sh_ls (path : string)
| sh_mkdir_p (path : string)
| sh_pygmentize (path : string)
| sh_aws_s3_cp (src dst : string)
| sh_tar_x (archive dir : string)
| sh_tar_c (archive dir : string)
| sh_saved_model_cli_show (dir : string)
| sh_saved_model_cli_run (input_exprs tag_set signature_def dir : string)
| sh_curl (url filter : string)
| sh_unzip (archive : string)
| sh_cat (path : string).

(** The destination of [aws s3 cp]: a prefix ending in a slash receives
    the source's base name. *)
Definition cp_target (src dst : string) : string :=
  if endswith dst "/" then dst +:+ basename src else dst.

(** What an operation reads from, and writes to, the stores that outlive
    the kernel, as its arguments name them.  What a managed service does
    on its own side is the environment's business. *)
Definition call_reads (cwd : string) (c : call) : list loc :=
  match c with
  | s3_download_file b k _ => [S3Uri (s3_uri b k)]
  | rekognition_recognize_celebrities b n => [S3Uri (s3_uri b n)]
  | rekognition_start_celebrity_recognition b n => [S3Uri (s3_uri b n)]
  | Image_open fp => [path_loc cwd fp]
  | Estimator_fit source_dir inputs _ _ _ =>
      path_loc cwd source_dir :: ((fun kv : string * string => S3Uri kv.2) <$> inputs)
  | Client_run_pipeline _ _ p => [path_loc cwd p]
  | tfds_load _ _ => [AbsFile "~/tensorflow_datasets"]
  | _ => []
  end.

Definition call_writes (cwd : string) (c : call) : list loc :=
  match c with
  | s3_download_file _ _ f => [path_loc cwd f; Listing cwd]
  | Image_save fp _ _ => [path_loc cwd fp; Listing cwd]
  | Compiler_write_package p => [path_loc cwd p; Listing cwd]
  | tfds_load _ _ => [AbsFile "~/tensorflow_datasets"]
  | _ => []
  end.

Definition shell_reads (cwd : string) (c : shell) : list loc :=
  match c with
  | sh_ls p => [if String.eqb p "." then Listing cwd else path_loc cwd p]
  | sh_pygmentize p => [path_loc cwd p]
  | sh_aws_s3_cp src _ => [path_loc cwd src]
  | sh_tar_x archive _ => [path_loc cwd archive]
  | sh_tar_c _ dir => [path_loc cwd dir]
  | sh_saved_model_cli_show dir => [path_loc cwd dir]
  | sh_saved_model_cli_run _ _ _ dir => [path_loc cwd dir]
  | sh_unzip archive => [path_loc cwd archive]
  | sh_cat p => [path_loc cwd p]
  | _ => []
  end.

Definition shell_writes (cwd : string) (c : shell) : list loc :=
  match c with
  | sh_mkdir_p p => [path_loc cwd p; Listing cwd]
  | sh_aws_s3_cp src dst =>
      let l := path_loc cwd (cp_target src dst) in
      match l with S3Uri _ => [l] | _ => [l; Listing cwd] end
  | sh_tar_x _ dir => [path_loc cwd dir; Listing cwd]
  | sh_tar_c archive _ => [path_loc cwd archive; Listing cwd]
  | sh_unzip _ => [File cwd "pipeline.yaml"; Listing cwd]
  | _ => []
  end.

(** ** Events of a cell, worlds, and the executor *)

Variant nbE : Type -> Type :=
| LoadName (x : string) : nbE pyval
| PeekName (x : string) : nbE (option pyval)
| StoreName (x : string) (v : pyval) : nbE unit
| Throw (e : exn) : nbE Empty_set
| Sdk (c : call) : nbE (answer c)
| Bang (c : shell) : nbE (list string)
| StoreMagic (x : string) : nbE unit
| Sleep (secs : Z) : nbE unit
| Print (v : pyval) : nbE unit
| Display (v : pyval) : nbE unit.

(** What an observer of a run sees, in order. *)
Inductive event : Type :=
| EvCall (c : call)
| EvShell (c : shell) (output : list string)
| EvStore (x : string)
| EvSleep (secs : Z)
| EvPrint (v : pyval)
| EvDisplay (v : pyval).

Record world : Type :=
  { ns : gmap string pyval;
    cwd : string;
    shared : gmap loc pyval;
    calls : nat;
    trace : list event }.

(** The remote platform and the operating system: the [n]-th request of a
    run is answered from the request and from what it reads, with a
    result or an exception, and with the contents it writes. *)
Record environment : Type :=
  { sdk_answer : nat -> forall c : call, list (option pyval) ->
                 result (answer c * list pyval);
    shell_answer : nat -> shell -> list (option pyval) ->
                   list string * list pyval }.

Definition write_all (ls : list loc) (vs : list pyval)
    (m : gmap loc pyval) : gmap loc pyval :=
  foldr (fun lv acc => <[lv.1 := lv.2]> acc) m (zip ls vs).

Definition read_all (ls : list loc) (m : gmap loc pyval) : list (option pyval) :=
  (fun l => m !! l) <$> ls.

Definition handle (env : environment) {T : Type} (e : nbE T) (w : world)
    : result T * world :=
  match e in nbE T return result T * world with
  | LoadName x =>
      match ns w !! x with
      | Some v => (Ok v, w)
      | None => (Raise (NameError x), w)
      end
  | PeekName x => (Ok (ns w !! x), w)
  | StoreName x v =>
      (Ok tt, {| ns := <[x := v]> (ns w); cwd := cwd w; shared := shared w;
                 calls := calls w; trace := trace w |})
  | Throw e => (Raise e, w)
  | Sdk c =>
      match sdk_answer env (calls w) c (read_all (call_reads (cwd w) c) (shared w)) with
      | Ok (a, outs) =>
          (Ok a, {| ns := ns w; cwd := cwd w;
                    shared := write_all (call_writes (cwd w) c) outs (shared w);
                    calls := S (calls w); trace := trace w ++ [EvCall c] |})
      | Raise e =>
          (Raise e, {| ns := ns w; cwd := cwd w; shared := shared w;
                       calls := S (calls w); trace := trace w ++ [EvCall c] |})
      end
  | Bang c =>
      let '(out, outs) :=
        shell_answer env (calls w) c (read_all (shell_reads (cwd w) c) (shared w)) in
      (Ok out, {| ns := ns w; cwd := cwd w;
                  shared := write_all (shell_writes (cwd w) c) outs (shared w);
                  calls := S (calls w); trace := trace w ++ [EvShell c out] |})
  | StoreMagic x =>
      match ns w !! x with
      | Some v =>
          (Ok tt, {| ns := ns w; cwd := cwd w;
                     shared := <[StoreVar x := v]> (shared w);
                     calls := calls w; trace := trace w ++ [EvStore x] |})
      | None => (Ok tt, w)
      end
  | Sleep secs =>
      (Ok tt, {| ns := ns w; cwd := cwd w; shared := shared w;
                 calls := calls w; trace := trace w ++ [EvSleep secs] |})
  | Print v =>
      (Ok tt, {| ns := ns w; cwd := cwd w; shared := shared w;
                 calls := calls w; trace := trace w ++ [EvPrint v] |})
  | Display v =>
      (Ok tt, {| ns := ns w; cwd := cwd w; shared := shared w;
                 calls := calls w; trace := trace w ++ [EvDisplay v] |})
  end.

Inductive outcome (R : Type) : Type :=
| Done (r : R) (w : world)
| Raised (e : exn) (w : world)
| OutOfFuel.
Arguments Done {R} r w.
Arguments Raised {R} e w.
Arguments OutOfFuel {R}.

(** Run a cell: one unit of fuel per node of the tree. *)
Fixpoint exec (env : environment) {R : Type} (fuel : nat) (t : itree nbE R)
    (w : world) : outcome R :=
  match fuel with
  | O => OutOfFuel
  | S fuel' =>
      match observe t with
      | RetF r => Done r w
      | TauF t' => exec env fuel' t' w
      | VisF e k =>
          match handle env e w with
          | (Ok x, w') => exec env fuel' (k x) w'
          | (Raise ex, w') => Raised ex w'
          end
      end
  end.

(** The world in which a run stands when it stops: returned, raised, or
    out of fuel. *)
Fixpoint final_world (env : environment) {R : Type} (fuel : nat)
    (t : itree nbE R) (w : world) : world :=
  match fuel with
  | O => w
  | S fuel' =>
      match observe t with
      | RetF _ => w
      | TauF t' => final_world env fuel' t' w
      | VisF e k =>
          match handle env e w with
          | (Ok x, w') => final_world env fuel' (k x) w'
          | (Raise _, w') => w'
          end
      end
  end.

(** The world in which a run issues its [k]-th request, with the request,
    when that request is an SDK call. *)
Fixpoint before_request (env : environment) (k : nat) {R : Type} (fuel : nat)
    (t : itree nbE R) (w : world) : option (world * call) :=
  match fuel with
  | O => None
  | S fuel' =>
      match observe t with
      | RetF _ => None
      | TauF t' => before_request env k fuel' t' w
      | VisF e h =>
          match (match e with
                 | Sdk c => if (calls w =? k)%nat then Some c else None
                 | _ => None
                 end) with
          | Some c => Some (w, c)
          | None =>
              match handle env e w with
              | (Ok x, w') => before_request env k fuel' (h x) w'
              | (Raise _, _) => None
              end
          end
      end
  end.

(** The platform [env], except that the [k]-th request fails with [e]. *)
Definition fail_at (env : environment) (k : nat) (e : exn) : environment :=
  {| sdk_answer := fun n c inputs =>
       if (n =? k)%nat then Raise e else sdk_answer env n c inputs;
     shell_answer := shell_answer env |}.

(** The world [w] after the SDK call [c] issued in it has failed: the
    call was made and counted, nothing else changed. *)
Definition failed (w : world) (c : call) : world :=
  {| ns := ns w; cwd := cwd w; shared := shared w;
     calls := S (calls w); trace := trace w ++ [EvCall c] |}.

(** A program logic for cells.  [wp env K Q X fuel t w]: in the run of [t]
    from [w], as far as [fuel] reaches, every event satisfies the guard
    [K] in the world in which it is performed, a result satisfies [Q] and
    an exception satisfies [X] with the world they are reached in. *)
Fixpoint wp (env : environment) (K : forall T : Type, nbE T -> world -> Prop)
    {R : Type} (Q : R -> world -> Prop) (X : exn -> world -> Prop)
    (fuel : nat) (t : itree nbE R) (w : world) : Prop :=
  match fuel with
  | O => True
  | S fuel' =>
      match observe t with
      | RetF r => Q r w
      | TauF t' => wp env K Q X fuel' t' w
      | VisF e k =>
          K _ e w /\
          match handle env e w with
          | (Ok x, w') => wp env K Q X fuel' (k x) w'
          | (Raise ex, w') => X ex w'
          end
      end
  end.

Definition wpa (env : environment) (K : forall T : Type, nbE T -> world -> Prop)
    {R : Type} (t : itree nbE R) (Q : R -> world -> Prop)
    (X : exn -> world -> Prop) (w : world) : Prop :=
  forall fuel : nat, wp env K Q X fuel t w.

(** No guard on the events. *)
Definition unguarded : forall T : Type, nbE T -> world -> Prop :=
  fun _ _ _ => True.

(** The worlds the events lead to. *)
Definition bind_name (x : string) (v : pyval) (w : world) : world :=
  {| ns := <[x := v]> (ns w); cwd := cwd w; shared := shared w;
     calls := calls w; trace := trace w |}.

Definition emit (ev : event) (w : world) : world :=
  {| ns := ns w; cwd := cwd w; shared := shared w;
     calls := calls w; trace := trace w ++ [ev] |}.

Definition answered (c : call) (outs : list pyval) (w : world) : world :=
  {| ns := ns w; cwd := cwd w;
     shared := write_all (call_writes (cwd w) c) outs (shared w);
     calls := S (calls w); trace := trace w ++ [EvCall c] |}.

Definition shelled (c : shell) (out : list string) (outs : list pyval)
    (w : world) : world :=
  {| ns := ns w; cwd := cwd w;
     shared := write_all (shell_writes (cwd w) c) outs (shared w);
     calls := S (calls w); trace := trace w ++ [EvShell c out] |}.

Definition stored (x : string) (v : pyval) (w : world) : world :=
  {| ns := ns w; cwd := cwd w; shared := <[StoreVar x := v]> (shared w);
     calls := calls w; trace := trace w ++ [EvStore x] |}.

(** A name is bound in the kernel. *)
Definition bound (x : string) (w : world) : Prop := is_Some (ns w !! x).

(** The requests of a trace: what was asked of the platform and of the
    shell, without what was only shown. *)
Definition is_request (ev : event) : bool :=
  match ev with
  | EvCall _ | EvShell _ _ => true
  | _ => false
  end.

Definition requests (tr : list event) : list event := List.filter is_request tr.

(** [runs env t w o]: with enough fuel the run of [t] from [w] ends in
    [o].  For [o = OutOfFuel] this says that no amount of fuel is enough:
    the cell never returns. *)
Definition runs (env : environment) {R : Type} (t : itree nbE R) (w : world)
    (o : outcome R) : Prop :=
  exists n : nat, forall fuel : nat, (n <= fuel)%nat -> exec env fuel t w = o.

(** A kernel started in a working directory over given stores. *)
Definition fresh_kernel (dir : string) (stores : gmap loc pyval) : world :=
  {| ns := ∅; cwd := dir; shared := stores; calls := O; trace := [] |}.

(** ** Cell syntax *)

#[global] Instance itree_ret {E} : MRet (itree E) := fun _ r => Ret r.
#[global] Instance itree_bind {E} : MBind (itree E) :=
  fun _ _ k t => ITree.bind t k.

Definition load (x : string) : itree nbE pyval := ITree.trigger (LoadName x).
Definition store (x : string) (v : pyval) : itree nbE unit :=
  ITree.trigger (StoreName x v).
Definition sdk (c : call) : itree nbE (answer c) := ITree.trigger (Sdk c).
Definition bang (c : shell) : itree nbE (list string) := ITree.trigger (Bang c).
Definition sleep (secs : Z) : itree nbE unit := ITree.trigger (Sleep secs).
Definition print (v : pyval) : itree nbE unit := ITree.trigger (Print v).
Definition display (v : pyval) : itree nbE unit := ITree.trigger (Display v).
Definition throw {A : Type} (e : exn) : itree nbE A :=
  ITree.bind (ITree.trigger (Throw e)) (fun x : Empty_set => match x with end).

Definition lift {A : Type} (r : result A) : itree nbE A :=
  match r with Ok a => Ret a | Raise e => throw e end.

Definition load_str (x : string) : itree nbE string :=
  v ← load x; match v with VStr s => Ret s | _ => throw TypeError end.

(** The arguments of a [format] call, loaded left to right. *)
Fixpoint load_strs (names : list string) : itree nbE (list string) :=
  match names with
  | [] => Ret []
  | x :: names' => a ← load_str x; rest ← load_strs names'; Ret (a :: rest)
  end.

(** [$name] in a shell escape: the value if the name is bound, the
    text as written otherwise. *)
Definition expand (x : string) : itree nbE string :=
  v ← ITree.trigger (PeekName x);
  match v with
  | Some (VStr s) => Ret s
  | _ => Ret ("$" +:+ x)
  end.

(** A double quote, for the HTML and JSON texts of the sources. *)
Definition dq : string := String (ascii_of_nat 34) EmptyString.

(** [str(v)] for the values the notebooks format. *)
Definition str_of (v : pyval) : result string :=
  match v with
  | VStr s => Ok s
  | VInt z => Ok (pretty z)
  | VBool true => Ok "True"
  | VBool false => Ok "False"
  | VNone => Ok "None"
  | _ => Raise TypeError
  end.

Fixpoint assoc (k : string) (kvs : list (string * pyval)) : option pyval :=
  match kvs with
  | [] => None
  | (k', v) :: kvs' => if String.eqb k' k then Some v else assoc k kvs'
  end.

(** [obj.name] *)
Definition getattr (obj : pyval) (name : string) : result pyval :=
  match obj with
  | VObj _ fields =>
      match assoc name fields with
      | Some v => Ok v
      | None => Raise (AttributeError name)
      end
  | _ => Raise (AttributeError name)
  end.

Definition setattr (obj : pyval) (name : string) (v : pyval) : pyval :=
  match obj with
  | VObj cls fields => VObj cls (fields ++ [(name, v)])
  | _ => obj
  end.

Definition as_str (v : pyval) : result string :=
  match v with VStr s => Ok s | _ => Raise TypeError end.

(** A notebook run top to bottom stops at the first cell that raises. *)
Fixpoint run_all (cells : list (itree nbE unit)) : itree nbE unit :=
  match cells with
  | [] => Ret tt
  | c :: cells' => c;; run_all cells'
  end.

(** ** The celebrity-recognition notebook *)

Module Rekognition.

Definition module (name : string) : pyval := VObj "module" [("name", VStr name)].

Definition cell_imports : itree nbE unit :=
  store "boto3" (module "boto3");;
  store "HTML" (module "IPython.display.HTML");;
  store "display" (module "IPython.display.display");;
  store "IImage" (module "IPython.display.Image");;
  store "Image" (module "PIL.Image");;
  store "ImageDraw" (module "PIL.ImageDraw");;
  store "ImageFont" (module "PIL.ImageFont");;
  store "time" (module "time");;
  store "os" (module "os").

Definition cell_session : itree nbE unit :=
  store "sagemaker" (module "sagemaker");;
  store "sagemaker_session" (VObj "sagemaker.Session" []);;
  role ← sdk sagemaker_get_execution_role;
  store "role" (VStr role);;
  _ ← load "sagemaker_session";
  bucket ← sdk sagemaker_Session_default_bucket;
  store "bucket" (VStr bucket).

Definition cell_region : itree nbE unit :=
  _ ← load "boto3";
  store "mySession" (VObj "boto3.session.Session" []);;
  _ ← load "mySession";
  awsRegion ← sdk boto3_Session_region_name;
  store "awsRegion" (VStr awsRegion).

Definition cell_clients : itree nbE unit :=
  _ ← load "boto3";
  store "rekognition" (VObj "boto3.client" [("service", VStr "rekognition")]);;
  _ ← load "boto3";
  store "s3" (VObj "boto3.client" [("service", VStr "s3")]).

Definition cell_bucketName : itree nbE unit :=
  bucket ← load "bucket";
  store "bucketName" bucket.

Definition cell_tempFolder : itree nbE unit :=
  bang (sh_mkdir_p "m1tmp");;
  store "tempFolder" (VStr "m1tmp/").

Definition cell_imageName : itree nbE unit :=
  store "imageName" (VStr "content-moderation/media/GrandTourjc.png").

(** [display(IImage(url=s3.generate_presigned_url('get_object', ...)))] *)
Definition show_image (key_var : string) : itree nbE unit :=
  _ ← load "display";
  _ ← load "IImage";
  _ ← load "s3";
  bucketName ← load_str "bucketName";
  key ← load_str key_var;
  url ← sdk (s3_generate_presigned_url bucketName key);
  display (VObj "IPython.display.Image" [("url", VStr url)]).

(** [response = rekognition.recognize_celebrities(Image={'S3Object': ...})] *)
Definition recognize (target key_var : string) : itree nbE unit :=
  _ ← load "rekognition";
  bucketName ← load_str "bucketName";
  key ← load_str key_var;
  response ← sdk (rekognition_recognize_celebrities bucketName key);
  store target (VRecognize response).

Definition cell_recognize : itree nbE unit :=
  recognize "recognizeCelebritiesResponse" "imageName".

Definition show_value (x : string) : itree nbE unit :=
  _ ← load "display";
  v ← load x;
  display v.

(** *** [drawBoundingBoxes] *)

Definition colors : list (Z * Z * Z) :=
  [(255, 255, 255); (255, 255, 255); (76, 182, 252); (52, 194, 123)].

Definition line : nat := 3.

(** The body of [for box in boxes], for the box drawn with [colors[col]]:
    the label, then [line] rectangles growing by one pixel. *)
Definition draw_box (width height : Z) (box : string * BoundingBox.t)
    (color : Z * Z * Z) : result (list draw_op) :=
  let w := float_of_int width in
  let h := float_of_int height in
  x1 ← int_of_float (BoundingBox.Left box.2 * w)%float;
  y1 ← int_of_float (BoundingBox.Top box.2 * h)%float;
  x2 ← int_of_float (BoundingBox.Left box.2 * w + BoundingBox.Width box.2 * w)%float;
  y2 ← int_of_float (BoundingBox.Top box.2 * h + BoundingBox.Height box.2 * h)%float;
  Ok (DrawText (x1, y1) box.1 color
        :: ((fun l : nat =>
               DrawRectangle (x1 - Z.of_nat l, y1 - Z.of_nat l,
                              x2 + Z.of_nat l, y2 + Z.of_nat l) color)
              <$> seq 0 line)).

(** The loop, threading [col]; [col = (col+1) % maxcol] after each box. *)
Fixpoint draw_boxes (width height : Z) (boxes : list (string * BoundingBox.t))
    (col : nat) : result (list (list draw_op)) :=
  match boxes with
  | [] => Ok []
  | box :: boxes' =>
      color ← match colors !! col with
              | Some c => Ok c
              | None => Raise IndexError
              end;
      ops ← draw_box width height box color;
      rest ← draw_boxes width height boxes' ((col + 1) mod List.length colors)%nat;
      Ok (ops :: rest)
  end.

Definition imageFormat (sourceImage : string) : string :=
  let ext := lower sourceImage in
  if endswith ext "jpg" || endswith ext "jpeg" then "JPEG" else "PNG".

Definition drawBoundingBoxes (sourceImage : string)
    (boxes : list (string * BoundingBox.t)) : itree nbE unit :=
  tempFolder ← load_str "tempFolder";
  _ ← load "os";
  let imageLocation := tempFolder +:+ basename sourceImage in
  _ ← load "s3";
  bucketName ← load_str "bucketName";
  sdk (s3_download_file bucketName sourceImage imageLocation);;
  _ ← load "Image";
  size ← sdk (Image_open imageLocation);
  _ ← load "ImageDraw";
  let '(width, height) := size in
  drawn ← lift (draw_boxes width height boxes 0);
  sdk (Image_save imageLocation (imageFormat sourceImage) (List.concat drawn));;
  _ ← load "display";
  display (VObj "PIL.Image" [("fp", VStr imageLocation)]).

Definition cell_def_drawBoundingBoxes : itree nbE unit :=
  store "drawBoundingBoxes" (VObj "function" [("name", VStr "drawBoundingBoxes")]).

Definition celebrity_boxes (celebrities : list Celebrity.t)
    : list (string * BoundingBox.t) :=
  (fun celebrity =>
     (Celebrity.Name celebrity,
      ComparedFace.BoundingBox (Celebrity.Face celebrity))) <$> celebrities.

Definition cell_draw_celebrities : itree nbE unit :=
  store "boxes" (VBoxes []);;
  response ← load "recognizeCelebritiesResponse";
  match response with
  | VRecognize r =>
      let celebrities := RecognizeCelebritiesResponse.CelebrityFaces r in
      let boxes := celebrity_boxes celebrities in
      store "boxes" (VBoxes boxes);;
      _ ← load "drawBoundingBoxes";
      imageName ← load_str "imageName";
      drawBoundingBoxes imageName boxes
  | _ => throw TypeError
  end.

(** *** Celebrities in a video: start, poll, report *)

Definition cell_videoName : itree nbE unit :=
  store "videoName" (VStr "content-moderation/media/GrandTour720.mp4").

Definition cell_start : itree nbE unit :=
  _ ← load "rekognition";
  bucketName ← load_str "bucketName";
  videoName ← load_str "videoName";
  r ← sdk (rekognition_start_celebrity_recognition bucketName videoName);
  store "startCelebrityRekognition" (VStartJob r);;
  store "celebrityJobId" (VStr (StartCelebrityRecognitionResponse.JobId r));;
  _ ← load "display";
  celebrityJobId ← load_str "celebrityJobId";
  text ← lift (format "Job Id: {0}" [celebrityJobId]);
  display (VStr text).

Definition load_job (x : string) : itree nbE GetCelebrityRecognitionResponse.t :=
  v ← load x; match v with VGetJob r => Ret r | _ => throw TypeError end.

(** [getCelebrityRecognition = rekognition.get_celebrity_recognition(
      JobId=celebrityJobId, SortBy='TIMESTAMP')] *)
Definition poll : itree nbE unit :=
  _ ← load "rekognition";
  celebrityJobId ← load_str "celebrityJobId";
  r ← sdk (rekognition_get_celebrity_recognition celebrityJobId "TIMESTAMP");
  store "getCelebrityRecognition" (VGetJob r).

(** One test of the [while] condition and, when it holds, one body. *)
Definition wait_step (_ : unit) : itree nbE (unit + unit) :=
  r ← load_job "getCelebrityRecognition";
  if String.eqb (GetCelebrityRecognitionResponse.JobStatus r) "IN_PROGRESS"
  then
    _ ← load "time";
    sleep 5;;
    print (VStr ".");;
    poll;;
    Ret (inl tt)
  else Ret (inr tt).

Definition cell_wait : itree nbE unit :=
  poll;;
  ITree.iter wait_step tt;;
  _ ← load "display";
  r ← load_job "getCelebrityRecognition";
  display (VStr (GetCelebrityRecognitionResponse.JobStatus r)).

(** What a run of [cell_wait] with [k] further polls leaves behind: the
    requests it made, in order, and the world after the last poll and
    after the final [display]. *)
Definition get_job (jid : string) : call :=
  rekognition_get_celebrity_recognition jid "TIMESTAMP".

Definition poll_trace (jid : string) (k : nat) : list event :=
  EvCall (get_job jid)
    :: List.concat (replicate k [EvSleep 5; EvPrint (VStr "."); EvCall (get_job jid)]).

Definition polled (w : world) (jid : string) (k : nat)
    (r : GetCelebrityRecognitionResponse.t) : world :=
  {| ns := <["getCelebrityRecognition" := VGetJob r]> (ns w);
     cwd := cwd w; shared := shared w; calls := calls w + S k;
     trace := trace w ++ poll_trace jid k |}.

Definition after_wait (w : world) (jid : string) (k : nat)
    (r : GetCelebrityRecognitionResponse.t) : world :=
  {| ns := <["getCelebrityRecognition" := VGetJob r]> (ns w);
     cwd := cwd w; shared := shared w; calls := calls w + S k;
     trace := trace w ++ poll_trace jid k
                ++ [EvDisplay (VStr (GetCelebrityRecognitionResponse.JobStatus r))] |}.

(** A Python [dict] keeps its keys in insertion order. *)
Definition dict_contains (k : string) (d : list (string * pyval)) : bool :=
  existsb (fun kv => String.eqb kv.1 k) d.

Definition dict_setitem (k : string) (v : pyval) (d : list (string * pyval))
    : list (string * pyval) :=
  if dict_contains k d
  then (fun kv => if String.eqb kv.1 k then (k, v) else kv) <$> d
  else d ++ [(k, v)].

Definition dict_keys (d : list (string * pyval)) : list string := fst <$> d.

Definition strDetail_header : string :=
  "Celebrites detected in video<br>=======================================<br>".
Definition strOverall_header : string :=
  "Celebrities in the overall video:<br>=======================================<br>".

(** The body of [for celebrity in getCelebrityRecognition['Celebrities']],
    on the pair [(theCelebs, strDetail)]. *)
Definition detection_step (py : python)
    (acc : list (string * pyval) * string)
    (celebrity : CelebrityRecognition.t)
    : result (list (string * pyval) * string) :=
  let '(theCelebs, strDetail) := acc in
  match CelebrityRecognition.Celebrity celebrity with
  | Some detail =>
      let cconfidence := CelebrityDetail.Confidence detail in
      if (95 <? cconfidence)%float then
        let ts := CelebrityRecognition.Timestamp celebrity in
        let cname := CelebrityDetail.Name detail in
        entry ← format "At {} ms: {} (Confidence: {})<br>"
                  [pretty ts; cname; py_str_float py (py_round py cconfidence 2)];
        let strDetail := strDetail +:+ entry in
        if negb (dict_contains cname theCelebs)
        then Ok (dict_setitem cname (VStr cname) theCelebs, strDetail)
        else Ok (theCelebs, strDetail)
      else Ok acc
  | None => Ok acc
  end.

Fixpoint detection_loop (py : python)
    (celebrities : list CelebrityRecognition.t)
    (acc : list (string * pyval) * string)
    : result (list (string * pyval) * string) :=
  match celebrities with
  | [] => Ok acc
  | celebrity :: rest =>
      acc' ← detection_step py acc celebrity;
      detection_loop py rest acc'
  end.

(** [for theCeleb in theCelebs: strOverall = strOverall + ...] *)
Fixpoint overall_loop (keys : list string) (strOverall : string) : result string :=
  match keys with
  | [] => Ok strOverall
  | theCeleb :: rest =>
      entry ← format "Name: {}<br>" [theCeleb];
      overall_loop rest (strOverall +:+ entry)
  end.

(** A detection counts for the name [x] when it carries a celebrity of
    that name with a confidence above 95. *)
Definition qualifies (x : string) (d : CelebrityRecognition.t) : Prop :=
  exists detail, CelebrityRecognition.Celebrity d = Some detail
                 /\ CelebrityDetail.Name detail = x
                 /\ (95 <? CelebrityDetail.Confidence detail)%float = true.

(** The text under 'Celebrities in the overall video' that lists [names]. *)
Definition overall_text (names : list string) : string :=
  strOverall_header
    +:+ String.concat "" ((fun n => "Name: " +:+ n +:+ "<br>") <$> names).

Definition cell_celebrity_names (py : python) : itree nbE unit :=
  store "theCelebs" (VDict []);;
  store "strDetail" (VStr strDetail_header);;
  store "strOverall" (VStr strOverall_header);;
  r ← load_job "getCelebrityRecognition";
  acc ← lift (detection_loop py (GetCelebrityRecognitionResponse.Celebrities r)
                ([], strDetail_header));
  store "theCelebs" (VDict acc.1);;
  store "strDetail" (VStr acc.2);;
  strOverall ← lift (overall_loop (dict_keys acc.1) strOverall_header);
  store "strOverall" (VStr strOverall);;
  _ ← load "display";
  _ ← load "HTML";
  display (VObj "IPython.display.HTML" [("data", VStr strOverall)]).

Definition cell_video_player : itree nbE unit :=
  store "s3FilePrefix" (VStr "https://s3.amazonaws.com");;
  awsRegion ← load_str "awsRegion";
  (if negb (String.eqb awsRegion "us-east-1")
   then
     prefix ← lift (format "https://s3-{}.amazonaws.com" [awsRegion]);
     store "s3FilePrefix" (VStr prefix)
   else Ret tt);;
  s3FilePrefix ← load_str "s3FilePrefix";
  bucketName ← load_str "bucketName";
  videoName ← load_str "videoName";
  s3VideoUrl ← lift (format "{0}/{1}/{2}" [s3FilePrefix; bucketName; videoName]);
  store "s3VideoUrl" (VStr s3VideoUrl);;
  videoTag ← lift (format
    "<video controls='controls' autoplay width='640' height='360' name='Video' src='{0}'></video>"
    [s3VideoUrl]);
  store "videoTag" (VStr videoTag);;
  strDetail ← load_str "strDetail";
  videoui ← lift (format
    "<table><tr><td style='vertical-align: top'>{}</td><td>{}</td></tr></table>"
    [videoTag; strDetail]);
  store "videoui" (VStr videoui);;
  _ ← load "display";
  _ ← load "HTML";
  display (VObj "IPython.display.HTML" [("data", VStr videoui)]).

(** *** An image without celebrities *)

Definition cell_customCelebrityImageName : itree nbE unit :=
  store "customCelebrityImageName"
    (VStr "content-moderation/media/serverless-bytes.png").

Definition cell_recognize_custom : itree nbE unit :=
  recognize "customCelebrityResponse" "customCelebrityImageName".

Definition face_boxes (faces : list ComparedFace.t) : list (string * BoundingBox.t) :=
  (fun face => ("Unrecognized Face", ComparedFace.BoundingBox face)) <$> faces.

Definition cell_draw_faces : itree nbE unit :=
  store "cboxes" (VBoxes []);;
  response ← load "customCelebrityResponse";
  match response with
  | VRecognize r =>
      let faces := RecognizeCelebritiesResponse.UnrecognizedFaces r in
      let cboxes := face_boxes faces in
      store "cboxes" (VBoxes cboxes);;
      _ ← load "drawBoundingBoxes";
      name ← load_str "customCelebrityImageName";
      drawBoundingBoxes name cboxes
  | _ => throw TypeError
  end.

Definition cells (py : python) : list (itree nbE unit) :=
  [ cell_imports; cell_session; cell_region; cell_clients; cell_bucketName;
    cell_tempFolder; cell_imageName; show_image "imageName"; cell_recognize;
    show_value "recognizeCelebritiesResponse"; cell_def_drawBoundingBoxes;
    cell_draw_celebrities; cell_videoName; cell_start; cell_wait;
    show_value "getCelebrityRecognition"; cell_celebrity_names py;
    cell_video_player; cell_customCelebrityImageName;
    show_image "customCelebrityImageName"; cell_recognize_custom;
    show_value "customCelebrityResponse"; cell_draw_faces ].

Definition notebook (py : python) : itree nbE unit := run_all (cells py).

End Rekognition.

(** ** The training-submission notebook *)

Module Training.

Definition cell_pip : itree nbE unit :=
  bang (sh_pip_install "-q sagemaker==2.9.2");;
  bang (sh_pip_install "-q sagemaker-experiments==0.1.24");;
  bang (sh_pip_install "-q tensorflow==2.3.0");;
  bang (sh_pip_install "-q tensorflow-recommenders==0.2.0");;
  bang (sh_pip_install "-q tensorflow-datasets==4.0.0");;
  Ret tt.

Definition cell_ls : itree nbE unit := bang (sh_ls ".");; Ret tt.

Definition cell_session : itree nbE unit :=
  store "boto3" (VObj "module" [("name", VStr "boto3")]);;
  store "sagemaker" (VObj "module" [("name", VStr "sagemaker")]);;
  store "pd" (VObj "module" [("name", VStr "pandas")]);;
  store "sess" (VObj "sagemaker.Session" []);;
  _ ← load "sess";
  bucket ← sdk sagemaker_Session_default_bucket;
  store "bucket" (VStr bucket);;
  role ← sdk sagemaker_get_execution_role;
  store "role" (VStr role);;
  region ← sdk boto3_Session_region_name;
  store "region" (VStr region);;
  region ← load "region";
  store "sm" (VObj "boto3.client" [("service_name", VStr "sagemaker");
                                   ("region_name", region)]).

Definition input_train_data_s3_uri : string :=
  "s3://sagemaker-us-east-1-835319576252/tensorflow_datasets/train/".

Definition cell_input : itree nbE unit :=
  store "TrainingInput" (VObj "module" [("name", VStr "sagemaker.inputs.TrainingInput")]);;
  store "input_train_data_s3_uri" (VStr input_train_data_s3_uri);;
  uri ← load "input_train_data_s3_uri";
  store "s3_input_train_data"
    (VObj "TrainingInput" [("s3_data", uri);
                           ("distribution", VStr "ShardedByS3Key")]);;
  _ ← load "s3_input_train_data";
  print (VDict [("DataSource",
           VDict [("S3DataSource",
             VDict [("S3DataType", VStr "S3Prefix"); ("S3Uri", uri);
                    ("S3DataDistributionType", VStr "ShardedByS3Key")])])]).

(** The [Name] and [Regex] of each entry, in order. *)
Definition metrics_definitions : list (string * string) :=
  [ ("root_mean_squared_error", "root_mean_squared_error: ([0-9\.]+)");
    ("top_10_categorical_accuracy",
     "factorized_top_k/top_10_categorical_accuracy: ([0-9\.]+)");
    ("top_50_categorical_accuracy",
     "factorized_top_k/top_50_categorical_accuracy: ([0-9\.]+)");
    ("top_100_categorical_accuracy",
     "factorized_top_k/top_100_categorical_accuracy: ([0-9\.]+)") ].

(** The sample log line the notebook gives for them. *)
Definition sample_log_line : string :=
  "499/500 [=====>..] - ETA: 3s - root_mean_squared_error: 1.1198 - factorized_top_k/top_10_categorical_accuracy: 0.481 - factorized_top_k/top_50_categorical_accuracy: 0.607 - factorized_top_k/top_100_categorical_accuracy: 0.885".

Definition cell_metrics : itree nbE unit :=
  store "metrics_definitions"
    (VList ((fun m => VDict [("Name", VStr m.1); ("Regex", VStr m.2)])
              <$> metrics_definitions)).

Definition cell_hyperparameters : itree nbE unit :=
  store "epochs" (VInt 10);;
  store "learning_rate" (VFloat 0.5);;
  store "dataset_variant" (VStr "100k");;
  store "embedding_dimension" (VInt 32);;
  store "enable_tensorboard" (VBool true);;
  store "train_instance_count" (VInt 1);;
  store "train_instance_type" (VStr "ml.p3.2xlarge").

Definition source_dir : string :=
  "/root/workshop/02_usecases/sagemaker_recommendations/src".

Definition cell_pygmentize : itree nbE unit :=
  bang (sh_pygmentize (source_dir +:+ "/train_multitask.py"));; Ret tt.

(** The names of the [hyperparameters] argument, in order. *)
Definition hyperparameter_names : list string :=
  ["epochs"; "learning_rate"; "dataset_variant"; "embedding_dimension";
   "enable_tensorboard"].

Definition cell_estimator : itree nbE unit :=
  store "TensorFlow" (VObj "module" [("name", VStr "sagemaker.tensorflow.TensorFlow")]);;
  _ ← load "TensorFlow";
  role ← load "role";
  train_instance_count ← load "train_instance_count";
  train_instance_type ← load "train_instance_type";
  epochs ← load "epochs";
  learning_rate ← load "learning_rate";
  dataset_variant ← load "dataset_variant";
  embedding_dimension ← load "embedding_dimension";
  enable_tensorboard ← load "enable_tensorboard";
  metrics ← load "metrics_definitions";
  store "estimator"
    (VObj "TensorFlow"
       [("entry_point", VStr "train_multitask.py");
        ("source_dir", VStr source_dir);
        ("role", role);
        ("instance_count", train_instance_count);
        ("instance_type", train_instance_type);
        ("py_version", VStr "py37");
        ("framework_version", VStr "2.3.0");
        ("hyperparameters",
         VDict (zip hyperparameter_names
                  [epochs; learning_rate; dataset_variant;
                   embedding_dimension; enable_tensorboard]));
        ("metric_definitions", metrics);
        ("debugger_hook_config", VBool false)]).

Definition cell_experiment : itree nbE unit :=
  store "time" (VObj "module" [("name", VStr "time")]);;
  store "Experiment" (VObj "module" [("name", VStr "smexperiments.experiment.Experiment")]);;
  _ ← load "time";
  now ← sdk time_time;
  store "timestamp" (VInt now);;
  _ ← load "Experiment";
  timestamp ← load "timestamp";
  stamp ← lift (str_of timestamp);
  name ← lift (format "MovieLens-Recommender-{}" [stamp]);
  _ ← load "sm";
  created ← sdk (Experiment_create name "MovieLens Recommender");
  store "recommender_experiment" (VObj "Experiment" [("experiment_name", VStr created)]);;
  experiment ← load "recommender_experiment";
  experiment_name ← lift (getattr experiment "experiment_name");
  store "recommender_experiment_name" experiment_name;;
  experiment_name ← load_str "recommender_experiment_name";
  text ← lift (format "Experiment name: {}" [experiment_name]);
  print (VStr text).

Definition cell_trial : itree nbE unit :=
  store "time" (VObj "module" [("name", VStr "time")]);;
  store "Trial" (VObj "module" [("name", VStr "smexperiments.trial.Trial")]);;
  _ ← load "time";
  now ← sdk time_time;
  store "timestamp" (VInt now);;
  timestamp ← load "timestamp";
  epochs ← load "epochs";
  dataset_variant ← load "dataset_variant";
  embedding_dimension ← load "embedding_dimension";
  a ← lift (str_of timestamp);
  b ← lift (str_of epochs);
  c ← lift (str_of dataset_variant);
  d ← lift (str_of embedding_dimension);
  trial_name ← lift (format "trial-{}-{}-{}-{}" [a; b; c; d]);
  store "trial_name" (VStr trial_name);;
  _ ← load "Trial";
  trial_name ← load_str "trial_name";
  experiment_name ← load_str "recommender_experiment_name";
  _ ← load "sm";
  created ← sdk (Trial_create trial_name experiment_name);
  store "trial" (VObj "Trial" [("trial_name", VStr created)]);;
  trial ← load "trial";
  trial_name ← lift (getattr trial "trial_name");
  store "trial_name" trial_name;;
  trial_name ← load_str "trial_name";
  text ← lift (format "Trial name: {}" [trial_name]);
  print (VStr text).

Definition cell_experiment_config : itree nbE unit :=
  experiment_name ← load "recommender_experiment_name";
  trial ← load "trial";
  trial_name ← lift (getattr trial "trial_name");
  store "recommender_experiment_config"
    (VDict [("ExperimentName", experiment_name);
            ("TrialName", trial_name);
            ("TrialComponentDisplayName", VStr "train")]).

(** [estimator.fit(inputs={'train': s3_input_train_data},
      experiment_config=recommender_experiment_config, wait=False)];
    the job started is kept as [estimator.latest_training_job]. *)
Definition cell_fit : itree nbE unit :=
  estimator ← load "estimator";
  input ← load "s3_input_train_data";
  config ← load "recommender_experiment_config";
  dir ← lift (getattr estimator "source_dir" ≫= as_str);
  s3_data ← lift (getattr input "s3_data" ≫= as_str);
  job ← sdk (Estimator_fit dir [("train", s3_data)] estimator
               match config with VDict d => d | _ => [] end false);
  store "estimator"
    (setattr estimator "latest_training_job" (VObj "_TrainingJob" [("name", VStr job)])).

Definition cell_job_name : itree nbE unit :=
  estimator ← load "estimator";
  job ← lift (getattr estimator "latest_training_job");
  name ← lift (getattr job "name");
  store "recommender_training_job_name" name;;
  name ← load_str "recommender_training_job_name";
  text ← lift (format "Training Job Name:  {}" [name]);
  print (VStr text).

Definition review_link (href label : string) : string :=
  "<b>Review <a target=" +:+ dq +:+ "blank" +:+ dq +:+ " href=" +:+ dq
    +:+ href +:+ dq +:+ ">" +:+ label.

Definition show_html (template : string) (names : list string) : itree nbE unit :=
  store "display" (VObj "module" [("name", VStr "IPython.core.display.display")]);;
  store "HTML" (VObj "module" [("name", VStr "IPython.core.display.HTML")]);;
  _ ← load "display";
  _ ← load "HTML";
  args ← load_strs names;
  text ← lift (format template args);
  display (VObj "IPython.display.HTML" [("data", VStr text)]).

Definition cell_review_job : itree nbE unit :=
  show_html
    (review_link "https://console.aws.amazon.com/sagemaker/home?region={}#/jobs/{}"
       "Training Job</a></b>")
    ["region"; "recommender_training_job_name"].

Definition cell_review_logs : itree nbE unit :=
  show_html
    (review_link
       "https://console.aws.amazon.com/cloudwatch/home?region={}#logStream:group=/aws/sagemaker/TrainingJobs;prefix={};streamFilter=typeLogStreamPrefix"
       "CloudWatch Logs</a></b>")
    ["region"; "recommender_training_job_name"].

Definition cell_review_output : itree nbE unit :=
  show_html
    (review_link
       "https://s3.console.aws.amazon.com/s3/buckets/{}/{}/?region={}&tab=overview"
       "S3 Output Data</a> After The Training Job Has Completed</b>")
    ["bucket"; "recommender_training_job_name"; "region"].

(** [estimator.latest_training_job.wait(logs=False)] *)
Definition cell_wait : itree nbE unit :=
  estimator ← load "estimator";
  job ← lift (getattr estimator "latest_training_job");
  name ← lift (getattr job "name" ≫= as_str);
  sdk (TrainingJob_wait name false).

(** [!aws s3 cp s3://$bucket/$recommender_training_job_name/output/model.tar.gz
      ./model.tar.gz] *)
Definition cell_copy_model : itree nbE unit :=
  bucket ← expand "bucket";
  job ← expand "recommender_training_job_name";
  bang (sh_aws_s3_cp ("s3://" +:+ bucket +:+ "/" +:+ job +:+ "/output/model.tar.gz")
          "./model.tar.gz");;
  Ret tt.

Definition cell_extract : itree nbE unit :=
  bang (sh_mkdir_p "./model/");;
  bang (sh_tar_x "./model.tar.gz" "./model/");;
  Ret tt.

Definition cell_inspect : itree nbE unit :=
  bang (sh_saved_model_cli_show "./model/tensorflow/saved_model/0/");; Ret tt.

Definition cell_user_id : itree nbE unit := store "user_id" (VStr "42").

Definition cell_predict : itree nbE unit :=
  user_id ← expand "user_id";
  bang (sh_saved_model_cli_run
          ("input_1=np.array([" +:+ dq +:+ user_id +:+ dq +:+ "])")
          "serve" "serving_default" "./model/tensorflow/saved_model/0");;
  Ret tt.

Definition metric_names : list string :=
  ["root_mean_squared_error"; "top_10_categorical_accuracy";
   "top_50_categorical_accuracy"; "top_100_categorical_accuracy"].

Definition cell_lineage : itree nbE unit :=
  store "ExperimentAnalytics" (VObj "module" [("name", VStr "sagemaker.analytics.ExperimentAnalytics")]);;
  _ ← load "ExperimentAnalytics";
  _ ← load "sess";
  experiment_name ← load_str "recommender_experiment_name";
  store "lineage_table"
    (VObj "ExperimentAnalytics" [("experiment_name", VStr experiment_name)]);;
  _ ← load "lineage_table";
  rows ← sdk (ExperimentAnalytics_dataframe experiment_name metric_names
                "CreationTime" "Ascending");
  store "lineage_df" (VList (VStr <$> rows));;
  _ ← load "lineage_df";
  display (VObj "shape" [("rows", VInt (Z.of_nat (List.length rows)))]).

Definition cell_lineage_show (what : string) : itree nbE unit :=
  df ← load "lineage_df";
  display (VObj what [("of", df)]).

Definition cell_describe : itree nbE unit :=
  _ ← load "sm";
  df ← load "lineage_df";
  match df with
  | VList (VStr name :: _) =>
      description ← sdk (sagemaker_describe_trial_component name);
      display description
  | VList _ => throw (KeyError "0")
  | _ => throw TypeError
  end.

(** [%store recommender_training_job_name] *)
Definition cell_store : itree nbE unit :=
  ITree.trigger (StoreMagic "recommender_training_job_name").

Definition cells : list (itree nbE unit) :=
  [ cell_pip; cell_ls; cell_session; cell_input; cell_metrics;
    cell_hyperparameters; cell_ls; cell_pygmentize; cell_estimator;
    cell_experiment; cell_trial; cell_experiment_config; cell_fit;
    cell_job_name; cell_review_job; cell_review_logs; cell_review_output;
    cell_wait; cell_copy_model; cell_extract; cell_inspect; cell_user_id;
    cell_predict; cell_lineage; cell_lineage_show "columns";
    cell_lineage_show "frame"; cell_describe; cell_store ].

Definition notebook : itree nbE unit := run_all cells.

End Training.

(** ** The pipeline-definition notebook *)

Module Pipeline.

Definition component_base : string :=
  "https://raw.githubusercontent.com/kubeflow/pipelines/3ebd075212e0a761b982880707ec497c36a99d80/components/aws/sagemaker/".

Definition cell_pip_boto3 : itree nbE unit :=
  bang (sh_pip_install "boto3");; Ret tt.

Definition cell_pip_kfp : itree nbE unit :=
  bang (sh_pip_install
          "https://storage.googleapis.com/ml-pipeline/release/0.1.29/kfp.tar.gz --upgrade");;
  Ret tt.

(** The script it displays asks the browser to restart the kernel. *)
Definition cell_restart : itree nbE unit :=
  store "HTML" (VObj "module" [("name", VStr "IPython.core.display.HTML")]);;
  _ ← load "HTML";
  display (VObj "IPython.display.HTML"
             [("data", VStr "<script>Jupyter.notebook.kernel.restart()</script>")]).

Definition cell_account : itree nbE unit :=
  store "boto3" (VObj "module" [("name", VStr "boto3")]);;
  lines ← bang (sh_curl "-s http://169.254.169.254/latest/meta-data/placement/availability-zone"
                  "sed 's/\(.*\)[a-z]/\1/'");
  store "AWS_REGION_AS_SLIST" (VList (VStr <$> lines));;
  _ ← load "AWS_REGION_AS_SLIST";
  store "AWS_REGION" (VStr (String.concat " " lines));;
  region ← load_str "AWS_REGION";
  text ← lift (format "Region: {}" [region]);
  print (VStr text);;
  _ ← load "boto3";
  account ← sdk sts_get_caller_identity_Account;
  store "AWS_ACCOUNT_ID" (VStr account);;
  account ← load_str "AWS_ACCOUNT_ID";
  text ← lift (format "Account ID: {}" [account]);
  print (VStr text);;
  region ← load_str "AWS_REGION";
  account ← load_str "AWS_ACCOUNT_ID";
  bucket ← lift (format "sagemaker-{}-{}" [region; account]);
  store "S3_BUCKET" (VStr bucket);;
  bucket ← load_str "S3_BUCKET";
  text ← lift (format "S3 Bucket: {}" [bucket]);
  print (VStr text).

Definition cell_copy_data : itree nbE unit :=
  bucket ← expand "S3_BUCKET";
  bang (sh_aws_s3_cp "s3://kubeflow-pipeline-data/mnist_kmeans_example/data"
          ("s3://" +:+ bucket +:+ "/mnist_kmeans_example/data"));;
  bucket ← expand "S3_BUCKET";
  bang (sh_aws_s3_cp "s3://kubeflow-pipeline-data/mnist_kmeans_example/input/valid_data.csv"
          ("s3://" +:+ bucket +:+ "/mnist_kmeans_example/input/"));;
  Ret tt.

Definition cell_import_kfp : itree nbE unit :=
  store "kfp" (VObj "module" [("name", VStr "kfp")]);;
  store "components" (VObj "module" [("name", VStr "kfp.components")]);;
  store "dsl" (VObj "module" [("name", VStr "kfp.dsl")]);;
  store "use_aws_secret" (VObj "module" [("name", VStr "kfp.aws.use_aws_secret")]).

(** [name = components.load_component_from_url(url)] *)
Definition load_component (name path : string) : itree nbE unit :=
  _ ← load "components";
  op ← sdk (components_load_component_from_url (component_base +:+ path));
  store name op.

Definition cell_registry : itree nbE unit :=
  account ← load_str "AWS_ACCOUNT_ID";
  arn ← lift (format "arn:aws:iam::{}:role/TeamRole" [account]);
  store "SAGEMAKER_ROLE_ARN" (VStr arn);;
  bucket ← load_str "S3_BUCKET";
  path ← lift (format "s3://{}/bert-kubeflow-pipeline" [bucket]);
  store "S3_PIPELINE_PATH" (VStr path);;
  region ← load_str "AWS_REGION";
  (if String.eqb region "us-west-2"
   then store "AWS_ECR_REGISTRY" (VStr "174872318107.dkr.ecr.us-west-2.amazonaws.com")
   else Ret tt);;
  region ← load_str "AWS_REGION";
  (if String.eqb region "us-east-1"
   then store "AWS_ECR_REGISTRY" (VStr "382416733822.dkr.ecr.us-east-1.amazonaws.com")
   else Ret tt).

Definition cell_processing_code : itree nbE unit :=
  bucket ← load_str "S3_BUCKET";
  uri ← lift (format "s3://{}/processing_code/kmeans_preprocessing.py" [bucket]);
  store "processing_code_s3_uri" (VStr uri);;
  uri ← load "processing_code_s3_uri";
  print uri;;
  uri ← expand "processing_code_s3_uri";
  bang (sh_aws_s3_cp "./kmeans_preprocessing.py" uri);;
  Ret tt.

Definition cell_tar : itree nbE unit :=
  bang (sh_tar_c "sourcedir.tar.gz" "code");; Ret tt.

Definition cell_training_code : itree nbE unit :=
  bucket ← load_str "S3_BUCKET";
  uri ← lift (format "s3://{}/training_code/" [bucket]);
  store "training_code_s3_uri" (VStr uri);;
  uri ← load "training_code_s3_uri";
  print uri;;
  uri ← expand "training_code_s3_uri";
  bang (sh_aws_s3_cp "sourcedir.tar.gz" uri);;
  Ret tt.

Definition processing_input (input_name s3_uri local_path : string) : pyval :=
  VDict [("InputName", VStr input_name);
         ("S3Input", VDict [("S3Uri", VStr s3_uri);
                            ("LocalPath", VStr local_path);
                            ("S3DataType", VStr "S3Prefix");
                            ("S3InputMode", VStr "File")])].

Definition processing_output (output_name s3_uri local_path : string) : pyval :=
  VDict [("OutputName", VStr output_name);
         ("S3Output", VDict [("S3Uri", VStr s3_uri);
                             ("LocalPath", VStr local_path);
                             ("S3UploadMode", VStr "EndOfJob")])].

Definition training_input (input_name s3_uri : string) : pyval :=
  VDict [("ChannelName", VStr input_name);
         ("DataSource",
          VDict [("S3DataSource",
                  VDict [("S3Uri", VStr s3_uri); ("S3DataType", VStr "S3Prefix")])])].

Definition def_function (name : string) : itree nbE unit :=
  store name (VObj "function" [("name", VStr name)]).

Definition cell_def_processing : itree nbE unit :=
  def_function "processing_input";; def_function "processing_output".

Definition cell_def_training_input : itree nbE unit :=
  def_function "training_input".

(** [op.outputs[name]] and [op.output] of a pipeline step. *)
Definition output_of (op : pyval) (name : string) : pyval :=
  VObj "PipelineParam" [("op", op); ("name", VStr name)].

(** The body of [mnist_classification].  Names assigned in the body are
    locals; every other name is looked up in the kernel namespace when
    the expression that mentions it is evaluated, the callee first and the
    keyword arguments left to right. *)
Definition mnist_classification (role_arn bucket_name : pyval) : itree nbE pyval :=
  let region := VStr "us-east-1" in
  let processing_instance_type := VStr "ml.c5.2xlarge" in
  let processing_instance_count := VInt 2 in
  let training_instance_type := VStr "ml.c5.4xlarge" in
  let training_instance_count := VInt 1 in
  let deploy_instance_type := VStr "ml.m5.4xlarge" in
  let deploy_instance_count := VInt 1 in
  let processing_image :=
    VStr "763104351884.dkr.ecr.us-east-1.amazonaws.com/pytorch-training:1.5.0-cpu-py36-ubuntu16.04" in
  let training_image := VStr "382416733822.dkr.ecr.us-east-1.amazonaws.com/kmeans:1" in
  sagemaker_process_op ← load "sagemaker_process_op";
  instance_type ← load "instance_type";
  _ ← load "processing_input";
  let mnist_tar :=
    processing_input "mnist_tar"
      "s3://sagemaker-sample-data-us-east-1/algorithms/kmeans/mnist/mnist.pkl.gz"
      "/opt/ml/processing/input" in
  _ ← load "processing_input";
  processing_code_s3_uri ← load_str "processing_code_s3_uri";
  code_uri ← lift (format "{}" [processing_code_s3_uri]);
  let source_code := processing_input "source_code" code_uri "/opt/ml/processing/code" in
  bucket ← lift (str_of bucket_name);
  _ ← load "processing_output";
  let train_data :=
    processing_output "train_data" ("s3://" +:+ bucket +:+ "/mnist_kmeans_example/")
      "/opt/ml/processing/output_train/" in
  _ ← load "processing_output";
  let test_data :=
    processing_output "test_data" ("s3://" +:+ bucket +:+ "/mnist_kmeans_example/")
      "/opt/ml/processing/output_test/" in
  _ ← load "processing_output";
  let valid_data :=
    processing_output "valid_data" ("s3://" +:+ bucket +:+ "/mnist_kmeans_example/input/")
      "/opt/ml/processing/output_valid/" in
  process ← sdk (component_op sagemaker_process_op
    [("role", role_arn); ("region", region); ("image", processing_image);
     ("instance_type", instance_type);
     ("container_entrypoint",
      VList [VStr "python"; VStr "/opt/ml/processing/code/kmeans_preprocessing.py"]);
     ("input_config", VList [mnist_tar; source_code]);
     ("output_config", VList [train_data; test_data; valid_data])]);
  _ ← load "training_input";
  let train_channels :=
    VList [training_input "train"
             ("s3://" +:+ bucket +:+ "/mnist_kmeans_example/train_data")] in
  let train_output_location :=
    VStr ("s3://" +:+ bucket +:+ "/mnist_kmeans_example/output") in
  sagemaker_train_op ← load "sagemaker_train_op";
  instance_type ← load "instance_type";
  step ← sdk (component_op sagemaker_train_op
    [("region", region); ("image", training_image);
     ("hyperparameters",
      VDict [("k", VStr "10"); ("feature_dim", VStr "784");
             ("mini_batch_size", VStr "500"); ("extra_center_factor", VStr "10");
             ("init_method", VStr "random")]);
     ("channels", train_channels); ("instance_type", instance_type);
     ("model_artifact_path", train_output_location); ("role", role_arn)]);
  training ← sdk (ContainerOp_after step process);
  sagemaker_model_op ← load "sagemaker_model_op";
  serving_image ← load "serving_image";
  create_model ← sdk (component_op sagemaker_model_op
    [("region", region); ("model_name", output_of training "job_name");
     ("image", serving_image);
     ("model_artifact_url", output_of training "model_artifact_url");
     ("role", role_arn)]);
  sagemaker_deploy_op ← load "sagemaker_deploy_op";
  sdk (component_op sagemaker_deploy_op
    [("region", region); ("model_name_1", output_of create_model "output");
     ("instance_type", deploy_instance_type)]);;
  Ret VNone.

(** [@dsl.pipeline(...) def mnist_classification(role_arn=SAGEMAKER_ROLE_ARN,
    bucket_name=S3_BUCKET)]: the decorator and the defaults are evaluated,
    the body is not. *)
Definition cell_def_pipeline : itree nbE unit :=
  _ ← load "dsl";
  role ← load "SAGEMAKER_ROLE_ARN";
  bucket ← load "S3_BUCKET";
  store "mnist_classification"
    (VObj "function" [("name", VStr "mnist_classification");
                      ("role_arn", role); ("bucket_name", bucket)]).

(** The text a pipeline parameter formats to while the graph is built. *)
Definition pipeline_param (name : string) : pyval :=
  VStr ("{{pipelineparam:op=;name=" +:+ name +:+ "}}").

(** [kfp.compiler.Compiler().compile(mnist_classification, package_path)]:
    the compiler calls the function on one parameter per argument to
    record the graph, then writes the archive. *)
Definition compile (package_path : string) : itree nbE unit :=
  _ ← load "kfp";
  _ ← load "mnist_classification";
  mnist_classification (pipeline_param "role_arn") (pipeline_param "bucket_name");;
  sdk (Compiler_write_package package_path).

Definition cell_compile : itree nbE unit :=
  compile "mnist-classification-pipeline.zip".

Definition cell_ls_package : itree nbE unit :=
  bang (sh_ls "./mnist-classification-pipeline.zip");; Ret tt.

Definition cell_unzip : itree nbE unit :=
  bang (sh_unzip "./mnist-classification-pipeline.zip");; Ret tt.

Definition cell_cat : itree nbE unit :=
  bang (sh_cat "pipeline.yaml");; Ret tt.

Definition cell_deploy : itree nbE unit :=
  _ ← load "kfp";
  store "client" (VObj "kfp.Client" []);;
  _ ← load "client";
  id ← sdk (Client_create_experiment "aws");
  store "aws_experiment" (VObj "Experiment" [("id", VStr id)]);;
  _ ← load "client";
  experiment ← load "aws_experiment";
  id ← lift (getattr experiment "id" ≫= as_str);
  run ← sdk (Client_run_pipeline id "mnist-classification-pipeline"
               "mnist-classification-pipeline.zip");
  store "my_run" run.

(** The last code cell assigns nothing to [ENDPOINT_NAME]: it does not
    parse, so none of its statements runs. *)
Definition cell_predict : itree nbE unit := throw SyntaxError.

Definition cells : list (itree nbE unit) :=
  [ cell_pip_boto3; cell_pip_kfp; cell_restart; cell_account; cell_copy_data;
    cell_import_kfp;
    load_component "sagemaker_hpo_op" "hyperparameter_tuning/component.yaml";
    load_component "sagemaker_process_op" "process/component.yaml";
    load_component "sagemaker_train_op" "train/component.yaml";
    load_component "sagemaker_model_op" "model/component.yaml";
    load_component "sagemaker_deploy_op" "deploy/component.yaml";
    cell_registry; cell_processing_code; cell_tar; cell_training_code;
    cell_def_processing; cell_def_training_input; cell_def_pipeline;
    cell_compile; cell_ls_package; cell_unzip; cell_cat; cell_deploy;
    cell_predict ].

Definition notebook : itree nbE unit := run_all cells.

End Pipeline.

(** ** The feature-experimentation notebook *)

Module Features.

Definition cell_imports : itree nbE unit :=
  store "os" (VObj "module" [("name", VStr "os")]);;
  store "tempfile" (VObj "module" [("name", VStr "tempfile")]);;
  store "np" (VObj "module" [("name", VStr "numpy")]);;
  store "tf" (VObj "module" [("name", VStr "tensorflow")]);;
  store "tfds" (VObj "module" [("name", VStr "tensorflow_datasets")]);;
  store "tfrs" (VObj "module" [("name", VStr "tensorflow_recommenders")]).

Definition cell_load : itree nbE unit :=
  _ ← load "tfds";
  ratings ← sdk (tfds_load "movie_lens/100k-ratings" "train");
  store "ratings" ratings;;
  _ ← load "tfds";
  movies ← sdk (tfds_load "movie_lens/100k-movies" "train");
  store "movies" movies;;
  ratings ← load "ratings";
  store "ratings"
    (VObj "MapDataset"
       [("of", ratings);
        ("keys", VList [VStr "movie_title"; VStr "user_id"; VStr "timestamp"])]);;
  movies ← load "movies";
  store "movies" (VObj "MapDataset" [("of", movies); ("keys", VList [VStr "movie_title"])]).

Definition cell_vocabularies : itree nbE unit :=
  _ ← load "np";
  _ ← load "ratings";
  vocabularies ← sdk Dataset_vocabularies;
  store "timestamps" (VObj "timestamps" [("of", vocabularies)]);;
  store "max_timestamp" (VObj "max_timestamp" [("of", vocabularies)]);;
  store "min_timestamp" (VObj "min_timestamp" [("of", vocabularies)]);;
  store "timestamp_buckets" (VObj "timestamp_buckets" [("of", vocabularies); ("num", VInt 1000)]);;
  _ ← load "movies";
  store "unique_movie_titles" (VObj "unique_movie_titles" [("of", vocabularies)]);;
  store "unique_user_ids" (VObj "unique_user_ids" [("of", vocabularies)]).

Definition def_class (name : string) : itree nbE unit :=
  _ ← load "tf";
  store name (VObj "class" [("name", VStr name)]).

Definition cell_split : itree nbE unit :=
  _ ← load "tf";
  ratings ← load "ratings";
  store "shuffled" (VObj "shuffle" [("of", ratings); ("seed", VInt 42)]);;
  shuffled ← load "shuffled";
  store "train" (VObj "take" [("of", shuffled); ("count", VInt 80000)]);;
  shuffled ← load "shuffled";
  store "test" (VObj "take" [("of", VObj "skip" [("of", shuffled); ("count", VInt 80000)]);
                             ("count", VInt 20000)]);;
  train ← load "train";
  store "cached_train" (VObj "batch" [("of", train); ("size", VInt 2048)]);;
  test ← load "test";
  store "cached_test" (VObj "batch" [("of", test); ("size", VInt 4096)]).

Definition metric : string := "factorized_top_k/top_100_categorical_accuracy".

(** [model = MovielensModel(use_timestamps=...)], compiled, fitted for
    three epochs and evaluated on both splits. *)
Definition cell_experiment (py : python) (use_timestamps : bool) : itree nbE unit :=
  _ ← load "MovielensModel";
  store "model" (VObj "MovielensModel" [("use_timestamps", VBool use_timestamps)]);;
  _ ← load "model";
  _ ← load "tf";
  _ ← load "model";
  _ ← load "cached_train";
  sdk (Model_fit use_timestamps "Adagrad(0.1)" 3);;
  _ ← load "model";
  _ ← load "cached_train";
  train_accuracy ← sdk (Model_evaluate use_timestamps "cached_train" metric);
  store "train_accuracy" (VFloat train_accuracy);;
  _ ← load "model";
  _ ← load "cached_test";
  test_accuracy ← sdk (Model_evaluate use_timestamps "cached_test" metric);
  store "test_accuracy" (VFloat test_accuracy);;
  print (VStr ("Top-100 accuracy (train): " +:+ py_format_float py train_accuracy ".2f" +:+ "."));;
  print (VStr ("Top-100 accuracy (test): " +:+ py_format_float py test_accuracy ".2f" +:+ ".")).

Definition cells (py : python) : list (itree nbE unit) :=
  [ cell_imports; cell_load; cell_vocabularies; def_class "UserModel";
    def_class "MovieModel"; def_class "MovielensModel"; cell_split;
    cell_experiment py false; cell_experiment py true ].

Definition notebook (py : python) : itree nbE unit := run_all (cells py).

End Features.

(** ** The job manifest *)

Module Manifest.

Record EnvVar : Type := { env_name : string; env_value : string }.

Record VolumeMount : Type := { mountPath : string; mount_name : string }.

Record Volume : Type := { volume_name : string; claimName : string }.

Record Container : Type :=
  { container_name : string;
    command : list string;
    image : string;
    imagePullPolicy : string;
    env : list EnvVar;
    privileged : bool;
    volumeMounts : list VolumeMount }.

Record Pod : Type :=
  { apiVersion : string;
    kind : string;
    metadata_name : string;
    volumes : list Volume;
    containers : list Container;
    restartPolicy : string }.

Definition bert : Container :=
  {| container_name := "bert";
     command :=
       [ "python"; "/opt/ml/code/train.py";
         "--train_steps_per_epoch=1"; "--epochs=1"; "--learning_rate=0.00001";
         "--epsilon=0.00000001"; "--train_batch_size=36";
         "--validation_batch_size=18"; "--test_batch_size=18";
         "--train_steps_per_epoch=1"; "--validation_steps=1"; "--test_steps=1";
         "--use_xla=True"; "--use_amp=False"; "--max_seq_length=64";
         "--freeze_bert_layer=True"; "--enable_sagemaker_debugger=False";
         "--enable_checkpointing=False"; "--enable_tensorboard=False";
         "--run_validation=True"; "--run_test=False";
         "--run_sample_predictions=False" ];
     image := "763104351884.dkr.ecr.us-west-2.amazonaws.com/tensorflow-training:2.1.0-cpu-py36-ubuntu18.04";
     imagePullPolicy := "Always";
     env :=
       [ {| env_name := "SM_TRAINING_ENV";
            env_value := "{" +:+ dq +:+ "is_master" +:+ dq +:+ ":true}" |};
         {| env_name := "SAGEMAKER_JOB_NAME"; env_value := "tf-bert-training-eks" |};
         {| env_name := "SM_CURRENT_HOST"; env_value := "localhost" |};
         {| env_name := "SM_NUM_GPUS"; env_value := "0" |};
         {| env_name := "SM_HOSTS";
            env_value := "{" +:+ dq +:+ "hosts" +:+ dq +:+ ":" +:+ dq
                           +:+ "localhost" +:+ dq +:+ "}" |};
         {| env_name := "SM_MODEL_DIR"; env_value := "/opt/ml/model/" |};
         {| env_name := "SM_OUTPUT_DIR"; env_value := "/opt/ml/output/" |};
         {| env_name := "SM_OUTPUT_DATA_DIR"; env_value := "/opt/ml/output/data/" |};
         {| env_name := "SM_CHANNEL_TRAIN"; env_value := "/opt/ml/input/data/train" |};
         {| env_name := "SM_CHANNEL_VALIDATION";
            env_value := "/opt/ml/input/data/validation" |};
         {| env_name := "SM_CHANNEL_TEST"; env_value := "/opt/ml/input/data/test" |};
         {| env_name := "HDF5_USE_FILE_LOCKING"; env_value := "FALSE" |} ];
     privileged := true;
     volumeMounts := [ {| mountPath := "/opt/ml/"; mount_name := "fsx-opt-ml" |} ] |}.

Definition bert_csi_fsx : Pod :=
  {| apiVersion := "v1";
     kind := "Pod";
     metadata_name := "bert-csi-fsx";
     volumes := [ {| volume_name := "fsx-opt-ml"; claimName := "fsx-claim" |} ];
     containers := [ bert ];
     restartPolicy := "Never" |}.

(** The documents of [bert-csi-fsx.yaml]. *)
Definition documents : list Pod := [ bert_csi_fsx ].

(** The name of a [--name=value] argument. *)
Fixpoint until_equals (s : string) : option string :=
  match s with
  | EmptyString => None
  | String c s' =>
      if Ascii.eqb c "="%char then Some EmptyString
      else String c <$> until_equals s'
  end.

Definition flag_name (arg : string) : option string :=
  match arg with
  | String "-" (String "-" rest) => until_equals rest
  | _ => None
  end.

(** The value of a [--name=value] argument. *)
Fixpoint after_equals (s : string) : option string :=
  match s with
  | EmptyString => None
  | String c s' => if Ascii.eqb c "="%char then Some s' else after_equals s'
  end.

Definition flag_names (c : Container) : list string :=
  omap flag_name (command c).

(** The values given for the flag [name], in order. *)
Definition flag_values (name : string) (c : Container) : list string :=
  omap (fun arg => if decide (flag_name arg = Some name) then after_equals arg else None)
    (command c).

Definition env_names (c : Container) : list string := env_name <$> env c.

(** How often a configuration name is given to the container, as a flag
    or as an environment variable. *)
Definition occurrences (name : string) (c : Container) : nat :=
  List.length (filter (fun n => n = name) (flag_names c ++ env_names c)).

End Manifest.

(** ** Log-scraping regular expressions *)

Module Regex.

Inductive re : Type :=
| Lit (c : ascii)
| Any
| Class (negated : bool) (ranges : list (ascii * ascii))
| Cat (r1 r2 : re)
| Star (r : re)
| Plus (r : re)
| Opt (r : re)
| Group (index : nat) (r : re)
| Eps.

Definition is_alnum (c : ascii) : bool :=
  let n := nat_of_ascii c in
  ((48 <=? n) && (n <=? 57) || (65 <=? n) && (n <=? 90) || (97 <=? n) && (n <=? 122))%nat.

(** The items of a bracket expression, up to the closing bracket. *)
Fixpoint parse_class (s : list ascii) (acc : list (ascii * ascii))
    : option (list (ascii * ascii) * list ascii) :=
  match s with
  | [] => None
  | c :: rest =>
      if Ascii.eqb c "]" then Some (acc, rest)
      else if Ascii.eqb c "\" then
        match rest with
        | e :: rest' => if is_alnum e then None else parse_class rest' (acc ++ [(e, e)])
        | [] => None
        end
      else
        match rest with
        | "-"%char :: b :: rest' =>
            if Ascii.eqb b "]" then Some (acc ++ [(c, c); ("-"%char, "-"%char)], rest')
            else parse_class rest' (acc ++ [(c, b)])
        | _ => parse_class rest (acc ++ [(c, c)])
        end
  end.

Definition postfix (r : re) (s : list ascii) : re * list ascii :=
  match s with
  | "+"%char :: rest => (Plus r, rest)
  | "*"%char :: rest => (Star r, rest)
  | "?"%char :: rest => (Opt r, rest)
  | _ => (r, s)
  end.

(** A sequence of atoms up to a closing parenthesis or the end; [next] is
    the index of the next group to open.  Alternation, anchors and the
    letter escapes are outside the fragment and make the parse fail. *)
Fixpoint parse_seq (fuel : nat) (s : list ascii) (next : nat)
    : option (re * list ascii * nat) :=
  match fuel with
  | O => None
  | S fuel' =>
      match s with
      | [] => Some (Eps, [], next)
      | ")"%char :: _ => Some (Eps, s, next)
      | "|"%char :: _ | "^"%char :: _ | "$"%char :: _ | "{"%char :: _ => None
      | "("%char :: rest =>
          '(body, rest1, next1) ← parse_seq fuel' rest (S next);
          match rest1 with
          | ")"%char :: rest2 =>
              let '(atom, rest3) := postfix (Group next body) rest2 in
              '(tail, rest4, next2) ← parse_seq fuel' rest3 next1;
              Some (Cat atom tail, rest4, next2)
          | _ => None
          end
      | "["%char :: "^"%char :: rest =>
          '(ranges, rest1) ← parse_class rest [];
          let '(atom, rest2) := postfix (Class true ranges) rest1 in
          '(tail, rest3, next1) ← parse_seq fuel' rest2 next;
          Some (Cat atom tail, rest3, next1)
      | "["%char :: rest =>
          '(ranges, rest1) ← parse_class rest [];
          let '(atom, rest2) := postfix (Class false ranges) rest1 in
          '(tail, rest3, next1) ← parse_seq fuel' rest2 next;
          Some (Cat atom tail, rest3, next1)
      | "\"%char :: c :: rest =>
          if is_alnum c then None
          else
            let '(atom, rest1) := postfix (Lit c) rest in
            '(tail, rest2, next1) ← parse_seq fuel' rest1 next;
            Some (Cat atom tail, rest2, next1)
      | "."%char :: rest =>
          let '(atom, rest1) := postfix Any rest in
          '(tail, rest2, next1) ← parse_seq fuel' rest1 next;
          Some (Cat atom tail, rest2, next1)
      | c :: rest =>
          let '(atom, rest1) := postfix (Lit c) rest in
          '(tail, rest2, next1) ← parse_seq fuel' rest1 next;
          Some (Cat atom tail, rest2, next1)
      end
  end.

(** The expression and its number of capture groups. *)
Definition parse (pattern : string) : option (re * nat) :=
  let s := list_ascii_of_string pattern in
  '(r, rest, next) ← parse_seq (S (List.length s)) s 1%nat;
  match rest with [] => Some (r, (next - 1)%nat) | _ => None end.

Definition in_class (negated : bool) (ranges : list (ascii * ascii)) (c : ascii) : bool :=
  xorb negated
    (existsb (fun ab : ascii * ascii =>
                (nat_of_ascii ab.1 <=? nat_of_ascii c)%nat
                && (nat_of_ascii c <=? nat_of_ascii ab.2)%nat) ranges).

(** Backtracking match of [r] at the head of [s], greedy, with the
    captured groups threaded to the continuation. *)
Fixpoint run (fuel : nat) (r : re) (s : list ascii) (caps : list (option string))
    (k : list ascii -> list (option string) -> option (list (option string)))
    : option (list (option string)) :=
  match fuel with
  | O => None
  | S fuel' =>
      match r with
      | Eps => k s caps
      | Lit c =>
          match s with
          | c' :: s' => if Ascii.eqb c c' then k s' caps else None
          | [] => None
          end
      | Any =>
          match s with
          | c' :: s' => if Ascii.eqb c' "010" then None else k s' caps
          | [] => None
          end
      | Class negated ranges =>
          match s with
          | c' :: s' => if in_class negated ranges c' then k s' caps else None
          | [] => None
          end
      | Cat r1 r2 => run fuel' r1 s caps (fun s' caps' => run fuel' r2 s' caps' k)
      | Star r1 =>
          match run fuel' r1 s caps
                  (fun s' caps' =>
                     if (List.length s' <? List.length s)%nat
                     then run fuel' (Star r1) s' caps' k else None) with
          | Some result => Some result
          | None => k s caps
          end
      | Plus r1 => run fuel' (Cat r1 (Star r1)) s caps k
      | Opt r1 =>
          match run fuel' r1 s caps k with
          | Some result => Some result
          | None => k s caps
          end
      | Group i r1 =>
          run fuel' r1 s caps
            (fun s' caps' =>
               k s' (<[i := Some (string_of_list_ascii
                                    (take (List.length s - List.length s') s))]> caps'))
      end
  end.

(** [re.search]: the leftmost position at which the expression matches. *)
Fixpoint search_from (fuel : nat) (r : re) (groups : nat) (s : list ascii)
    : option (list (option string)) :=
  match run fuel r s (replicate (S groups) None) (fun _ caps => Some caps) with
  | Some caps => Some caps
  | None =>
      match s with
      | [] => None
      | _ :: s' => search_from fuel r groups s'
      end
  end.

Definition search (pattern line : string) : option (list (option string)) :=
  '(r, groups) ← parse pattern;
  let s := list_ascii_of_string line in
  search_from (4 * (String.length pattern + List.length s) + 4) r groups s.

(** [re.search(pattern, line).group(1)] *)
Definition group1 (pattern line : string) : option string :=
  caps ← search pattern line;
  mjoin (caps !! 1%nat).

End Regex.

(** ** The five scripts *)

Inductive script : Type :=
| training_submission
| feature_experimentation
| celebrity_client
| pipeline_definition
| job_manifest.

(** What running a script executes: a notebook top to bottom; the
    manifest is data, and executes nothing in this repository. *)
Definition program (py : python) (s : script) : itree nbE unit :=
  match s with
  | training_submission => Training.notebook
  | feature_experimentation => Features.notebook py
  | celebrity_client => Rekognition.notebook py
  | pipeline_definition => Pipeline.notebook
  | job_manifest => Ret tt
  end.

(** ** The steps of the training notebook *)

(** Submitting the job, waiting for it, and downloading the model. *)
Inductive step : Type := Submitted | Waited | Downloaded.

(** The step an event of the trace stands for, if any. *)
Definition step_of (ev : event) : option step :=
  match ev with
  | EvCall (Estimator_fit _ _ _ _ _) => Some Submitted
  | EvCall (TrainingJob_wait _ _) => Some Waited
  | EvShell (sh_aws_s3_cp _ _) _ => Some Downloaded
  | _ => None
  end.

Definition steps (tr : list event) : list step := omap step_of tr.

(** The step a cell is about to take. *)
Definition request_step {T : Type} (e : nbE T) : option step :=
  match e with
  | Sdk (Estimator_fit _ _ _ _ _) => Some Submitted
  | Sdk (TrainingJob_wait _ _) => Some Waited
  | Bang (sh_aws_s3_cp _ _) => Some Downloaded
  | _ => None
  end.

(** The steps that must have been taken when [s] is. *)
Definition expected (s : step) : list step :=
  match s with
  | Submitted => []
  | Waited => [Submitted]
  | Downloaded => [Submitted; Waited]
  end.

(** The guard of the order: a step is taken only after those before it,
    and not twice. *)
Definition in_order : forall T : Type, nbE T -> world -> Prop :=
  fun T e w =>
    match request_step e with
    | Some s => steps (trace w) = expected s
    | None => True
    end.

(** The steps taken when the first [i] cells of [Training.cells] have
    run. *)
Definition phase (i : nat) : list step :=
  if (i <=? 12)%nat then []
  else if (i <=? 17)%nat then [Submitted]
  else if (i <=? 18)%nat then [Submitted; Waited]
  else [Submitted; Waited; Downloaded].

(** ** Footprints: what the scripts read and write *)

(** A region of the stores. *)
Definition region : Type := loc -> bool.

(** The guard of a footprint: what a request reads lies in [R] and what
    it writes lies in [W], in the working directory it is issued in. *)
Definition within (R W : region) : forall T : Type, nbE T -> world -> Prop :=
  fun T e w =>
    match e with
    | Sdk c => forallb R (call_reads (cwd w) c) && forallb W (call_writes (cwd w) c) = true
    | Bang c => forallb R (shell_reads (cwd w) c) && forallb W (shell_writes (cwd w) c) = true
    | StoreMagic x => W (StoreVar x) = true
    | _ => True
    end.

(** Two worlds that differ at most in the stores outside [R]. *)
Definition agree (R : region) (w1 w2 : world) : Prop :=
  ns w1 = ns w2 /\ cwd w1 = cwd w2 /\ calls w1 = calls w2 /\ trace w1 = trace w2
  /\ forall l, R l = true -> shared w1 !! l = shared w2 !! l.

(** What a run shows: how it ended, with which names bound, after which
    events. *)
Definition shown {R : Type} (o : outcome R)
    : option ((R + exn) * gmap string pyval * list event) :=
  match o with
  | Done r w => Some (inl r, ns w, trace w)
  | Raised e w => Some (inr e, ns w, trace w)
  | OutOfFuel => None
  end.

(** What each script reads from the stores, run in [dir]. *)
Definition reads (s : script) (dir : string) : region :=
  fun l =>
    match s, l with
    | training_submission, (File d _ | Listing d) => String.eqb d dir
    | training_submission, AbsFile p => startswith p Training.source_dir
    | training_submission, S3Uri u =>
        String.eqb u Training.input_train_data_s3_uri
        || endswith u "/output/model.tar.gz"
    | feature_experimentation, AbsFile p => String.eqb p "~/tensorflow_datasets"
    | celebrity_client, File d _ => String.eqb d dir
    | celebrity_client, S3Uri u =>
        endswith u "/content-moderation/media/GrandTourjc.png"
        || endswith u "/content-moderation/media/GrandTour720.mp4"
        || endswith u "/content-moderation/media/serverless-bytes.png"
    | pipeline_definition, (File d _ | Listing d) => String.eqb d dir
    | pipeline_definition, S3Uri u =>
        String.eqb u "s3://kubeflow-pipeline-data/mnist_kmeans_example/data"
        || String.eqb u "s3://kubeflow-pipeline-data/mnist_kmeans_example/input/valid_data.csv"
    | _, _ => false
    end.

(** What each script writes to the stores, run in [dir]. *)
Definition writes (s : script) (dir : string) : region :=
  fun l =>
    match s, l with
    | training_submission, (File d _ | Listing d) => String.eqb d dir
    | training_submission, StoreVar x => String.eqb x "recommender_training_job_name"
    | feature_experimentation, AbsFile p => String.eqb p "~/tensorflow_datasets"
    | celebrity_client, (File d _ | Listing d) => String.eqb d dir
    | pipeline_definition, (File d _ | Listing d) => String.eqb d dir
    | pipeline_definition, S3Uri u =>
        endswith u "/mnist_kmeans_example/data"
        || endswith u "/mnist_kmeans_example/input/valid_data.csv"
        || endswith u "/processing_code/kmeans_preprocessing.py"
        || endswith u "/training_code/sourcedir.tar.gz"
    | _, _ => false
    end.

(** An attribute of the object bound to a name. *)
Definition attr_of (w : world) (x a : string) : option pyval :=
  match ns w !! x with
  | Some v => match getattr v a with Ok r => Some r | Raise _ => None end
  | None => None
  end.

(** What the cells of the training notebook rely on when the first [j]
    of them have run in [dir]. *)
Definition training_phase (dir : string) (j : nat) (w : world) : Prop :=
  cwd w = dir
  /\ (if (4 <=? j)%nat && (j <=? 12)%nat
      then attr_of w "s3_input_train_data" "s3_data"
           = Some (VStr Training.input_train_data_s3_uri)
      else True)
  /\ (if (9 <=? j)%nat && (j <=? 12)%nat
      then attr_of w "estimator" "source_dir" = Some (VStr Training.source_dir)
      else True).


(** The cells of the other notebooks rely on the working directory only. *)
Definition plain_phase (dir : string) (j : nat) (w : world) : Prop := cwd w = dir.

(** What the cells of the celebrity notebook rely on when the first [j]
    of them have run in [dir]. *)
Definition celebrity_phase (dir : string) (j : nat) (w : world) : Prop :=
  cwd w = dir
  /\ (if (6 <=? j)%nat then ns w !! "tempFolder" = Some (VStr "m1tmp/") else True)
  /\ (if (7 <=? j)%nat
      then ns w !! "imageName" = Some (VStr "content-moderation/media/GrandTourjc.png")
      else True)
  /\ (if (13 <=? j)%nat
      then ns w !! "videoName" = Some (VStr "content-moderation/media/GrandTour720.mp4")
      else True)
  /\ (if (19 <=? j)%nat
      then ns w !! "customCelebrityImageName"
           = Some (VStr "content-moderation/media/serverless-bytes.png")
      else True).

(** ** Requests, outcomes, and the scripts the notebooks follow *)

(** What a run asks of the platform and of the shell. *)
Inductive request : Type :=
| Called (c : call)
| Ran (c : shell).

Definition asked (ev : event) : option request :=
  match ev with
  | EvCall c => Some (Called c)
  | EvShell c _ => Some (Ran c)
  | _ => None
  end.

Definition asks (tr : list event) : list request := omap asked tr.

(** The request a cell is about to make. *)
Definition asking {T : Type} (e : nbE T) : option request :=
  match e with
  | Sdk c => Some (Called c)
  | Bang c => Some (Ran c)
  | _ => None
  end.

(** The guard that admits the requests in [G] only. *)
Definition only_asks (G : request -> Prop) : forall T : Type, nbE T -> world -> Prop :=
  fun T e w => match asking e with Some r => G r | None => True end.

(** Writing the pipeline package, and running it. *)
Definition deploys (r : request) : bool :=
  match r with
  | Called (Compiler_write_package _)
  | Called (Client_create_experiment _)
  | Called (Client_run_pipeline _ _ _) => true
  | _ => false
  end.

(** What the cells of the pipeline notebook rely on: [instance_type] is
    unbound as long as the pipeline has not been compiled, and no cell
    runs after that. *)
Definition pipeline_phase (j : nat) (w : world) : Prop :=
  if (j <=? 18)%nat then ns w !! "instance_type" = None else False.

(** What a run has printed, in order. *)
Definition printed (tr : list event) : list pyval :=
  omap (fun ev => match ev with EvPrint v => Some v | _ => None end) tr.

Definition is_done {R : Type} (o : outcome R) : bool :=
  match o with Done _ _ => true | _ => false end.

(** The exception a run ended with. *)
Definition raised {R : Type} (o : outcome R) : option exn :=
  match o with Raised e _ => Some e | _ => None end.

(** A run that the platform ended: its last event is the call that failed. *)
Definition platform_failed (env : environment) (e : exn) (w : world) : Prop :=
  exists w0 c,
    w = failed w0 c
    /\ sdk_answer env (calls w0) c (read_all (call_reads (cwd w0) c) (shared w0))
       = Raise e.

(** [ends env t Q X w]: the run of [t] from [w] stops, with a result that
    satisfies [Q] or an exception that satisfies [X]. *)
Definition ends (env : environment) {R : Type} (t : itree nbE R)
    (Q : R -> world -> Prop) (X : exn -> world -> Prop) (w : world) : Prop :=
  exists o, runs env t w o
            /\ match o with
               | Done r w' => Q r w'
               | Raised e w' => X e w'
               | OutOfFuel => False
               end.

Definition since (j k : nat) (P : Prop) : Prop := if (j <=? k)%nat then P else True.
Definition during (i j k : nat) (P : Prop) : Prop :=
  if (i <=? k)%nat && (k <=? j)%nat then P else True.

(** *** The training notebook *)

(** What the platform answers in a run of the training notebook. *)
Record training_answers : Type :=
  { ta_bucket : string;
    ta_role : string;
    ta_time1 : Z;
    ta_experiment : string;
    ta_time2 : Z;
    ta_trial : string;
    ta_job : string;
    ta_rows : list string }.

(** The estimator the notebook builds for the role [role]. *)
Definition training_estimator (role : string) : pyval :=
  VObj "TensorFlow"
    [("entry_point", VStr "train_multitask.py");
     ("source_dir", VStr Training.source_dir);
     ("role", VStr role);
     ("instance_count", VInt 1);
     ("instance_type", VStr "ml.p3.2xlarge");
     ("py_version", VStr "py37");
     ("framework_version", VStr "2.3.0");
     ("hyperparameters",
      VDict [("epochs", VInt 10); ("learning_rate", VFloat 0.5);
             ("dataset_variant", VStr "100k"); ("embedding_dimension", VInt 32);
             ("enable_tensorboard", VBool true)]);
     ("metric_definitions",
      VList ((fun m : string * string => VDict [("Name", VStr m.1); ("Regex", VStr m.2)])
               <$> Training.metrics_definitions));
     ("debugger_hook_config", VBool false)].

(** The requests of a run of the training notebook in which nothing
    fails, given what the platform answers. *)
Definition training_script (a : training_answers) : list request :=
  [ Ran (sh_pip_install "-q sagemaker==2.9.2");
    Ran (sh_pip_install "-q sagemaker-experiments==0.1.24");
    Ran (sh_pip_install "-q tensorflow==2.3.0");
    Ran (sh_pip_install "-q tensorflow-recommenders==0.2.0");
    Ran (sh_pip_install "-q tensorflow-datasets==4.0.0");
    Ran (sh_ls ".");
    Called sagemaker_Session_default_bucket;
    Called sagemaker_get_execution_role;
    Called boto3_Session_region_name;
    Ran (sh_ls ".");
    Ran (sh_pygmentize (Training.source_dir +:+ "/train_multitask.py"));
    Called time_time;
    Called (Experiment_create ("MovieLens-Recommender-" +:+ pretty (ta_time1 a))
              "MovieLens Recommender");
    Called time_time;
    Called (Trial_create ("trial-" +:+ pretty (ta_time2 a) +:+ "-10-100k-32")
              (ta_experiment a));
    Called (Estimator_fit Training.source_dir
              [("train", Training.input_train_data_s3_uri)]
              (training_estimator (ta_role a))
              [("ExperimentName", VStr (ta_experiment a));
               ("TrialName", VStr (ta_trial a));
               ("TrialComponentDisplayName", VStr "train")]
              false);
    Called (TrainingJob_wait (ta_job a) false);
    Ran (sh_aws_s3_cp
           ("s3://" +:+ ta_bucket a +:+ "/" +:+ ta_job a +:+ "/output/model.tar.gz")
           "./model.tar.gz");
    Ran (sh_mkdir_p "./model/");
    Ran (sh_tar_x "./model.tar.gz" "./model/");
    Ran (sh_saved_model_cli_show "./model/tensorflow/saved_model/0/");
    Ran (sh_saved_model_cli_run ("input_1=np.array([" +:+ dq +:+ "42" +:+ dq +:+ "])")
           "serve" "serving_default" "./model/tensorflow/saved_model/0");
    Called (ExperimentAnalytics_dataframe (ta_experiment a) Training.metric_names
              "CreationTime" "Ascending") ]
  ++ match ta_rows a with
     | name :: _ => [Called (sagemaker_describe_trial_component name)]
     | [] => []
     end.

(** The number of requests made when the first [j] cells have run. *)
Definition training_count (j : nat) : nat :=
  nth j [0; 5; 6; 9; 9; 9; 9; 10; 11; 11; 13; 15; 15; 16; 16; 16; 16; 16; 17; 18;
         20; 21; 21; 22; 23; 23; 23; 24; 24]%nat 24%nat.

(** What holds for the answers [a] when the first [j] cells of the
    training notebook have run without failing. *)
Definition training_story (a : training_answers) (j : nat) (w : world) : Prop :=
  asks (trace w) = take (training_count j) (training_script a)
  /\ since 3 j (ns w !! "bucket" = Some (VStr (ta_bucket a)))
  /\ since 3 j (ns w !! "role" = Some (VStr (ta_role a)))
  /\ since 4 j (ns w !! "s3_input_train_data"
                = Some (VObj "TrainingInput"
                          [("s3_data", VStr Training.input_train_data_s3_uri);
                           ("distribution", VStr "ShardedByS3Key")]))
  /\ since 5 j (ns w !! "metrics_definitions"
                = Some (VList ((fun m : string * string =>
                                  VDict [("Name", VStr m.1); ("Regex", VStr m.2)])
                                 <$> Training.metrics_definitions)))
  /\ since 6 j (ns w !! "epochs" = Some (VInt 10)
                /\ ns w !! "learning_rate" = Some (VFloat 0.5)
                /\ ns w !! "dataset_variant" = Some (VStr "100k")
                /\ ns w !! "embedding_dimension" = Some (VInt 32)
                /\ ns w !! "enable_tensorboard" = Some (VBool true)
                /\ ns w !! "train_instance_count" = Some (VInt 1)
                /\ ns w !! "train_instance_type" = Some (VStr "ml.p3.2xlarge"))
  /\ during 9 12 j (ns w !! "estimator" = Some (training_estimator (ta_role a)))
  /\ since 10 j (ns w !! "recommender_experiment_name" = Some (VStr (ta_experiment a)))
  /\ since 11 j (ns w !! "trial" = Some (VObj "Trial" [("trial_name", VStr (ta_trial a))]))
  /\ since 12 j (ns w !! "recommender_experiment_config"
                 = Some (VDict [("ExperimentName", VStr (ta_experiment a));
                                ("TrialName", VStr (ta_trial a));
                                ("TrialComponentDisplayName", VStr "train")]))
  /\ since 13 j (ns w !! "estimator"
                 = Some (setattr (training_estimator (ta_role a)) "latest_training_job"
                           (VObj "_TrainingJob" [("name", VStr (ta_job a))])))
  /\ since 14 j (ns w !! "recommender_training_job_name" = Some (VStr (ta_job a)))
  /\ since 22 j (ns w !! "user_id" = Some (VStr "42"))
  /\ since 24 j (ns w !! "lineage_df" = Some (VList (VStr <$> ta_rows a)))
  /\ since 27 j (ta_rows a <> [])
  /\ since 28 j (shared w !! StoreVar "recommender_training_job_name"
                 = Some (VStr (ta_job a))).

(** Every location but the variables of [%store]. *)
Definition files_only : region :=
  fun l => match l with StoreVar _ => false | _ => true end.

Definition anything : region := fun _ => true.

(** The guard of a cell that leaves the [%store] variables alone. *)
Definition keeps_stores : forall T : Type, nbE T -> world -> Prop :=
  within anything files_only.

Definition same_stores (w w' : world) : Prop :=
  forall x, shared w' !! StoreVar x = shared w !! StoreVar x.

(** *** The pipeline notebook *)

(** What the instance metadata and the platform answer in a run of the
    pipeline notebook: the lines of the region and the account. *)
Record pipeline_answers : Type :=
  { pa_region : list string;
    pa_account : string }.

Definition pipeline_region (a : pipeline_answers) : string :=
  String.concat " " (pa_region a).

(** The bucket the notebook works in. *)
Definition pipeline_bucket (a : pipeline_answers) : string :=
  "sagemaker-" +:+ pipeline_region a +:+ "-" +:+ pa_account a.

(** The requests of the pipeline notebook up to the cell that compiles
    the pipeline, given those answers. *)
Definition pipeline_script (a : pipeline_answers) : list request :=
  [ Ran (sh_pip_install "boto3");
    Ran (sh_pip_install
           "https://storage.googleapis.com/ml-pipeline/release/0.1.29/kfp.tar.gz --upgrade");
    Ran (sh_curl "-s http://169.254.169.254/latest/meta-data/placement/availability-zone"
           "sed 's/\(.*\)[a-z]/\1/'");
    Called sts_get_caller_identity_Account;
    Ran (sh_aws_s3_cp "s3://kubeflow-pipeline-data/mnist_kmeans_example/data"
           ("s3://" +:+ pipeline_bucket a +:+ "/mnist_kmeans_example/data"));
    Ran (sh_aws_s3_cp
           "s3://kubeflow-pipeline-data/mnist_kmeans_example/input/valid_data.csv"
           ("s3://" +:+ pipeline_bucket a +:+ "/mnist_kmeans_example/input/"));
    Called (components_load_component_from_url
              (Pipeline.component_base +:+ "hyperparameter_tuning/component.yaml"));
    Called (components_load_component_from_url
              (Pipeline.component_base +:+ "process/component.yaml"));
    Called (components_load_component_from_url
              (Pipeline.component_base +:+ "train/component.yaml"));
    Called (components_load_component_from_url
              (Pipeline.component_base +:+ "model/component.yaml"));
    Called (components_load_component_from_url
              (Pipeline.component_base +:+ "deploy/component.yaml"));
    Ran (sh_aws_s3_cp "./kmeans_preprocessing.py"
           ("s3://" +:+ pipeline_bucket a +:+ "/processing_code/kmeans_preprocessing.py"));
    Ran (sh_tar_c "sourcedir.tar.gz" "code");
    Ran (sh_aws_s3_cp "sourcedir.tar.gz"
           ("s3://" +:+ pipeline_bucket a +:+ "/training_code/")) ].

(** The number of requests made when the first [j] cells have run. *)
Definition pipeline_count (j : nat) : nat :=
  nth j [0; 1; 2; 2; 4; 6; 6; 7; 8; 9; 10; 11; 11; 12; 13; 14; 14; 14; 14]%nat 14%nat.

(** What holds for the answers [a] when the first [j] cells of the
    pipeline notebook, [j <= 18], have run without failing. *)
Definition pipeline_story (a : pipeline_answers) (j : nat) (w : world) : Prop :=
  asks (trace w) = take (pipeline_count j) (pipeline_script a)
  /\ since 4 j (ns w !! "AWS_REGION" = Some (VStr (pipeline_region a))
                /\ ns w !! "AWS_ACCOUNT_ID" = Some (VStr (pa_account a))
                /\ ns w !! "S3_BUCKET" = Some (VStr (pipeline_bucket a)))
  /\ since 12 j (ns w !! "SAGEMAKER_ROLE_ARN"
                 = Some (VStr ("arn:aws:iam::" +:+ pa_account a +:+ ":role/TeamRole")))
  /\ since 13 j (ns w !! "processing_code_s3_uri"
                 = Some (VStr ("s3://" +:+ pipeline_bucket a
                                 +:+ "/processing_code/kmeans_preprocessing.py")))
  /\ since 18 j (ns w !! "mnist_classification"
                 = Some (VObj "function"
                           [("name", VStr "mnist_classification");
                            ("role_arn",
                             VStr ("arn:aws:iam::" +:+ pa_account a +:+ ":role/TeamRole"));
                            ("bucket_name", VStr (pipeline_bucket a))])).

(** *** The feature notebook *)

(** The accuracies the platform reports for the two experiments of the
    feature notebook. *)
Record features_answers : Type :=
  { fa_train_plain : float;
    fa_test_plain : float;
    fa_train_timestamps : float;
    fa_test_timestamps : float }.

(** One experiment: fit, then evaluate on the training and on the test
    split. *)
Definition experiment_requests (use_timestamps : bool) : list request :=
  [ Called (Model_fit use_timestamps "Adagrad(0.1)" 3);
    Called (Model_evaluate use_timestamps "cached_train" Features.metric);
    Called (Model_evaluate use_timestamps "cached_test" Features.metric) ].

Definition experiment_report (py : python) (train test : float) : list pyval :=
  [ VStr ("Top-100 accuracy (train): " +:+ py_format_float py train ".2f" +:+ ".");
    VStr ("Top-100 accuracy (test): " +:+ py_format_float py test ".2f" +:+ ".") ].

(** The requests of the feature notebook. *)
Definition features_script : list request :=
  [ Called (tfds_load "movie_lens/100k-ratings" "train");
    Called (tfds_load "movie_lens/100k-movies" "train");
    Called Dataset_vocabularies ]
  ++ experiment_requests false ++ experiment_requests true.

Definition features_report (py : python) (a : features_answers) : list pyval :=
  experiment_report py (fa_train_plain a) (fa_test_plain a)
  ++ experiment_report py (fa_train_timestamps a) (fa_test_timestamps a).

Definition features_count (j : nat) : nat :=
  nth j [0; 0; 2; 3; 3; 3; 3; 3; 6; 9]%nat 9%nat.

Definition features_lines (j : nat) : nat :=
  nth j [0; 0; 0; 0; 0; 0; 0; 0; 2; 4]%nat 4%nat.

(** What holds when the first [j] cells of the feature notebook have run
    without failing. *)
Definition features_story (py : python) (a : features_answers) (j : nat) (w : world)
    : Prop :=
  asks (trace w) = take (features_count j) features_script
  /\ printed (trace w) = take (features_lines j) (features_report py a)
  /\ since 9 j (ns w !! "train_accuracy" = Some (VFloat (fa_train_timestamps a))
                /\ ns w !! "test_accuracy" = Some (VFloat (fa_test_timestamps a))).

(** *** The video player of the celebrity notebook *)

(** The address the video is played from. *)
Definition video_url (region bucket video : string) : string :=
  (if String.eqb region "us-east-1" then "https://s3.amazonaws.com"
   else "https://s3-" +:+ region +:+ ".amazonaws.com")
  +:+ "/" +:+ bucket +:+ "/" +:+ video.

(** The player shown beside the report of the celebrities. *)
Definition video_player (url detail : string) : string :=
  "<table><tr><td style='vertical-align: top'>"
  +:+ "<video controls='controls' autoplay width='640' height='360' name='Video' src='"
  +:+ url +:+ "'></video>"
  +:+ "</td><td>" +:+ detail +:+ "</td></tr></table>".

(** *** The celebrity notebook *)

(** What the platform answers in a run of the celebrity notebook, and
    what the notebook draws from it. *)
Record celebrity_answers : Type :=
  { ca_bucket : string;
    ca_image : RecognizeCelebritiesResponse.t;
    ca_image_size : Z * Z;
    ca_image_drawn : list (list draw_op);
    ca_start : StartCelebrityRecognitionResponse.t;
    ca_polls : nat;
    ca_custom : RecognizeCelebritiesResponse.t;
    ca_custom_size : Z * Z;
    ca_custom_drawn : list (list draw_op) }.

(** The job the notebook polls. *)
Definition ca_job (a : celebrity_answers) : string :=
  StartCelebrityRecognitionResponse.JobId (ca_start a).

Definition celebrity_image : string := "content-moderation/media/GrandTourjc.png".
Definition celebrity_video : string := "content-moderation/media/GrandTour720.mp4".
Definition celebrity_custom_image : string :=
  "content-moderation/media/serverless-bytes.png".

(** The requests of one call of [drawBoundingBoxes]. *)
Definition drawing_requests (bucket image : string) (drawn : list (list draw_op))
    : list request :=
  [ Called (s3_download_file bucket image ("m1tmp/" +:+ basename image));
    Called (Image_open ("m1tmp/" +:+ basename image));
    Called (Image_save ("m1tmp/" +:+ basename image) (Rekognition.imageFormat image)
              (List.concat drawn)) ].

(** The requests up to the start of the video job. *)
Definition celebrity_head (a : celebrity_answers) : list request :=
  [ Called sagemaker_get_execution_role;
    Called sagemaker_Session_default_bucket;
    Called boto3_Session_region_name;
    Ran (sh_mkdir_p "m1tmp");
    Called (s3_generate_presigned_url (ca_bucket a) celebrity_image);
    Called (rekognition_recognize_celebrities (ca_bucket a) celebrity_image) ]
  ++ drawing_requests (ca_bucket a) celebrity_image (ca_image_drawn a)
  ++ [ Called (rekognition_start_celebrity_recognition (ca_bucket a) celebrity_video) ].

(** The polls of the video job: one, and [ca_polls] more. *)
Definition celebrity_polls (a : celebrity_answers) : list request :=
  replicate (S (ca_polls a)) (Called (Rekognition.get_job (ca_job a))).

(** The requests for the image without celebrities. *)
Definition celebrity_tail (a : celebrity_answers) : list request :=
  [ Called (s3_generate_presigned_url (ca_bucket a) celebrity_custom_image);
    Called (rekognition_recognize_celebrities (ca_bucket a) celebrity_custom_image) ]
  ++ drawing_requests (ca_bucket a) celebrity_custom_image (ca_custom_drawn a).

Definition celebrity_script (a : celebrity_answers) : list request :=
  celebrity_head a ++ celebrity_polls a ++ celebrity_tail a.

Definition celebrity_head_count (j : nat) : nat :=
  nth j [0; 0; 2; 3; 3; 3; 4; 4; 5; 6; 6; 6; 9; 9; 10]%nat 10%nat.

Definition celebrity_tail_count (j : nat) : nat :=
  nth (j - 15) [0; 0; 0; 0; 0; 1; 2; 2; 5]%nat 5%nat.

(** What holds for the answers [a] when the first [j] cells of the
    celebrity notebook have run without failing. *)
Definition celebrity_story (a : celebrity_answers) (j : nat) (w : world) : Prop :=
  asks (trace w)
  = take (celebrity_head_count j) (celebrity_head a)
      ++ (if (15 <=? j)%nat
          then celebrity_polls a ++ take (celebrity_tail_count j) (celebrity_tail a)
          else [])
  /\ since 2 j (ns w !! "bucket" = Some (VStr (ca_bucket a)))
  /\ since 5 j (ns w !! "bucketName" = Some (VStr (ca_bucket a)))
  /\ since 6 j (ns w !! "tempFolder" = Some (VStr "m1tmp/"))
  /\ since 7 j (ns w !! "imageName" = Some (VStr celebrity_image))
  /\ since 9 j (ns w !! "recognizeCelebritiesResponse" = Some (VRecognize (ca_image a)))
  /\ since 12 j (Rekognition.draw_boxes (ca_image_size a).1 (ca_image_size a).2
                   (Rekognition.celebrity_boxes
                      (RecognizeCelebritiesResponse.CelebrityFaces (ca_image a))) 0
                 = Ok (ca_image_drawn a))
  /\ since 13 j (ns w !! "videoName" = Some (VStr celebrity_video))
  /\ since 14 j (ns w !! "startCelebrityRekognition" = Some (VStartJob (ca_start a)))
  /\ since 14 j (ns w !! "celebrityJobId" = Some (VStr (ca_job a)))
  /\ since 19 j (ns w !! "customCelebrityImageName" = Some (VStr celebrity_custom_image))
  /\ since 21 j (ns w !! "customCelebrityResponse" = Some (VRecognize (ca_custom a)))
  /\ since 23 j (Rekognition.draw_boxes (ca_custom_size a).1 (ca_custom_size a).2
                   (Rekognition.face_boxes
                      (RecognizeCelebritiesResponse.UnrecognizedFaces (ca_custom a))) 0
                 = Ok (ca_custom_drawn a)).

(** The celebrity of a detection that counts: present, with a confidence
    above 95. *)
Definition confident (c : CelebrityRecognition.t) : option CelebrityDetail.t :=
  match CelebrityRecognition.Celebrity c with
  | Some detail =>
      if (95 <? CelebrityDetail.Confidence detail)%float then Some detail else None
  | None => None
  end.

(** The line of the report for a detection that counts. *)
Definition detail_line (py : python) (c : CelebrityRecognition.t) : option string :=
  detail ← confident c;
  Some ("At " +:+ pretty (CelebrityRecognition.Timestamp c) +:+ " ms: "
          +:+ CelebrityDetail.Name detail +:+ " (Confidence: "
          +:+ py_str_float py (py_round py (CelebrityDetail.Confidence detail) 2)
          +:+ ")<br>").

(** The report per timestamp: one line for each detection that counts,
    in the order of the response. *)
Definition detail_text (py : python) (cs : list CelebrityRecognition.t) : string :=
  foldr String.append "" (omap (detail_line py) cs).

(** The elements of a list, each once, in the order of their first
    occurrence. *)
Definition first_seen (l : list string) : list string :=
  reverse (remove_dups (reverse l)).

(** The names of the detections that count, in the order of the
    response. *)
Definition confident_names (cs : list CelebrityRecognition.t) : list string :=
  CelebrityDetail.Name <$> omap confident cs.

(** ** A concrete platform, to run the scripts on *)

Module Demo.

Definition py : python :=
  {| py_round := fun x _ => x;
     py_str_float := fun x =>
       match int_of_float x with Ok z => pretty z | Raise _ => "nan" end;
     py_format_float := fun x _ =>
       match int_of_float x with Ok z => pretty z | Raise _ => "nan" end |}.

Definition box : BoundingBox.t :=
  {| BoundingBox.Width := 0.25; BoundingBox.Height := 0.5;
     BoundingBox.Left := 0.125; BoundingBox.Top := 0.25 |}.

Definition face : ComparedFace.t :=
  {| ComparedFace.BoundingBox := box; ComparedFace.Confidence := 99.5 |}.

Definition star (name : string) : Celebrity.t :=
  {| Celebrity.Urls := []; Celebrity.Name := name; Celebrity.Id := "1";
     Celebrity.Face := face; Celebrity.MatchConfidence := 98 |}.

Definition detection (ts : Z) (name : string) (confidence : float)
    : CelebrityRecognition.t :=
  {| CelebrityRecognition.Timestamp := ts;
     CelebrityRecognition.Celebrity :=
       Some {| CelebrityDetail.Urls := []; CelebrityDetail.Name := name;
               CelebrityDetail.Id := "1";
               CelebrityDetail.Confidence := confidence;
               CelebrityDetail.BoundingBox := box |} |}.

Definition no_detection (ts : Z) : CelebrityRecognition.t :=
  {| CelebrityRecognition.Timestamp := ts;
     CelebrityRecognition.Celebrity := None |}.

Definition detections : list CelebrityRecognition.t :=
  [ detection 0 "Ada" 99.5; no_detection 40; detection 80 "Bob" 95;
    detection 120 "Ada" 97; detection 160 "Cy" 95.5; detection 200 "Bob" 60 ].

Definition job (status : string) : GetCelebrityRecognitionResponse.t :=
  {| GetCelebrityRecognitionResponse.JobStatus := status;
     GetCelebrityRecognitionResponse.StatusMessage := "";
     GetCelebrityRecognitionResponse.Celebrities :=
       if String.eqb status "SUCCEEDED" then detections else [] |}.

(** Every request succeeds; a video job is reported in progress until
    the [ready]-th request of the run. *)
Definition sdk_ok (ready : nat) (n : nat) (c : call) : answer c :=
  match c return answer c with
  | sagemaker_Session_default_bucket => "sagemaker-us-east-1-000000000000"
  | sagemaker_get_execution_role => "arn:aws:iam::000000000000:role/TeamRole"
  | boto3_Session_region_name => "us-east-1"
  | sts_get_caller_identity_Account => "000000000000"
  | time_time => 1600000000
  | s3_generate_presigned_url b k => "https://" +:+ b +:+ ".s3.amazonaws.com/" +:+ k
  | s3_download_file _ _ _ => tt
  | rekognition_recognize_celebrities _ _ =>
      {| RecognizeCelebritiesResponse.CelebrityFaces := [star "Ada"; star "Bob"];
         RecognizeCelebritiesResponse.UnrecognizedFaces := [face] |}
  | rekognition_start_celebrity_recognition _ _ =>
      {| StartCelebrityRecognitionResponse.JobId := "job-1" |}
  | rekognition_get_celebrity_recognition _ _ =>
      job (if (n <? ready)%nat then "IN_PROGRESS" else "SUCCEEDED")
  | Image_open _ => (640, 360)
  | Image_save _ _ _ => tt
  | Experiment_create name _ => name
  | Trial_create name _ => name
  | Estimator_fit _ _ _ _ _ => "tensorflow-training-2020-11-01-00-00-00-000"
  | TrainingJob_wait _ _ => tt
  | ExperimentAnalytics_dataframe _ _ _ _ => ["train-component"]
  | sagemaker_describe_trial_component name => VDict [("TrialComponentName", VStr name)]
  | components_load_component_from_url url => VObj "component" [("url", VStr url)]
  | component_op component kwargs => VObj "ContainerOp" (("component", component) :: kwargs)
  | ContainerOp_after op _ => op
  | Compiler_write_package _ => tt
  | Client_create_experiment name => name
  | Client_run_pipeline _ _ _ => VObj "run" []
  | tfds_load name split => VObj "Dataset" [("name", VStr name); ("split", VStr split)]
  | Dataset_vocabularies => VObj "vocabularies" []
  | Model_fit _ _ _ => tt
  | Model_evaluate _ _ _ => 0.25%float
  end.

Definition env_ok (ready : nat) : environment :=
  {| sdk_answer := fun n c inputs =>
       Ok (sdk_ok ready n c, (fun _ => VStr "written") <$> call_writes "" c);
     shell_answer := fun n c inputs =>
       (match c with sh_curl _ _ => ["us-east-1"] | _ => [] end,
        (fun _ => VStr "written") <$> shell_writes "" c) |}.

(** As [env_ok], but the [k]-th request of the run fails with [e]. *)
Definition env_failing (ready k : nat) (e : exn) : environment :=
  {| sdk_answer := fun n c inputs =>
       if (n =? k)%nat then Raise e else sdk_answer (env_ok ready) n c inputs;
     shell_answer := shell_answer (env_ok ready) |}.

(** As [env_ok 0], but the training job that [fit] starts is named [job]. *)
Definition env_named (job : string) : environment :=
  {| sdk_answer := fun n c inputs =>
       match c as c0 return result (answer c0 * list pyval) with
       | Estimator_fit _ _ _ _ _ => Ok (job, [])
       | c0 => sdk_answer (env_ok 0) n c0 inputs
       end;
     shell_answer := shell_answer (env_ok 0) |}.

Definition training_kernel : world :=
  fresh_kernel "/root/workshop/02_usecases/sagemaker_recommendations" ∅.

(** The requests of a run of the training notebook when the job is named
    [job]. *)
Definition training_requests (job : string) : list event :=
  requests (trace (final_world (env_named job) 2000 Training.notebook training_kernel)).

(** The training kernel before the trial is created, before the links to
    the job are shown, and when the model is about to be copied. *)
Definition before_trial : world :=
  final_world (env_ok 0) 2000 (run_all (take 10 Training.cells)) training_kernel.

Definition job_named : world :=
  final_world (env_ok 0) 2000 (run_all (take 14 Training.cells)) training_kernel.

Definition trained : world :=
  final_world (env_ok 0) 2000 (run_all (take 18 Training.cells)) training_kernel.

(** The training kernel when the notebook has run to its end. *)
Definition training_done : world :=
  final_world (env_ok 0) 2000 Training.notebook training_kernel.

(** The directory each script is run in. *)
Definition dir (s : script) : string :=
  match s with
  | training_submission => "/root/workshop/02_usecases/sagemaker_recommendations"
  | feature_experimentation => "/root/workshop/02_usecases/sagemaker_recommendations/wip"
  | celebrity_client => "/home/ec2-user/SageMaker/rekognition"
  | pipeline_definition => "/home/jovyan/pipeline"
  | job_manifest => "/root/workshop/12_pipeline/kubeflow/wip/dlc_archive"
  end.

(** The stores the training notebook leaves behind. *)
Definition after_training : gmap loc pyval :=
  shared (final_world (env_ok 0) 2000 (program py training_submission)
            (fresh_kernel (dir training_submission) ∅)).

(** The pipeline kernel when the pipeline is about to be compiled. *)
Definition pipeline_ready : world :=
  final_world (env_ok 0) 2000 (run_all (take 18 Pipeline.cells))
    (fresh_kernel "/home/jovyan/pipeline" ∅).

(** The kernel of the celebrity notebook when it asks for the celebrities
    of the image. *)
Definition before_recognize : world :=
  final_world (env_ok 12) 400 (run_all (take 8 (Rekognition.cells py)))
    (fresh_kernel "/home/ec2-user/SageMaker/rekognition" ∅).

(** The kernel before and after the celebrities of the image are boxed. *)
Definition boxes : list (string * BoundingBox.t) :=
  Rekognition.celebrity_boxes
    [star "Ada"; star "Bob"; star "Cy"; star "Di"; star "Ed"].

Definition before_draw : world :=
  final_world (env_ok 12) 400 (run_all (take 11 (Rekognition.cells py)))
    (fresh_kernel "/home/ec2-user/SageMaker/rekognition" ∅).

Definition after_draw : world :=
  final_world (env_ok 12) 100
    (Rekognition.drawBoundingBoxes "content-moderation/media/GrandTourjc.png" boxes)
    before_draw.

(** The kernel of the celebrity notebook once the video job is started,
    on a platform that reports the job in progress twice. *)
Definition started : world :=
  final_world (env_ok 12) 400 (run_all (take 14 (Rekognition.cells py)))
    (fresh_kernel "/home/ec2-user/SageMaker/rekognition" ∅).

(** The same kernel once the job has been waited for. *)
Definition waited : world :=
  final_world (env_ok 12) 400 (run_all (take 16 (Rekognition.cells py)))
    (fresh_kernel "/home/ec2-user/SageMaker/rekognition" ∅).

Definition statuses (k : nat) : GetCelebrityRecognitionResponse.t :=
  job (if (10 + k <? 12)%nat then "IN_PROGRESS" else "SUCCEEDED").

End Demo.


(** * Properties *)

(** ** The executor *)

Section Executor.
Context (env : environment).

Lemma exec_observe {R} (t1 t2 : itree nbE R) fuel w :
  observe t1 = observe t2 -> exec env fuel t1 w = exec env fuel t2 w.
Proof. intros H. destruct fuel as [|f]; [reflexivity|]. simpl. rewrite H. reflexivity. Qed.

Lemma exec_mono {R} (t : itree nbE R) fuel :
  forall fuel' w o, exec env fuel t w = o -> o <> OutOfFuel -> (fuel <= fuel')%nat ->
    exec env fuel' t w = o.
Proof.
  revert t. induction fuel as [|f IH]; intros t fuel' w o H Ho Hle.
  - simpl in H. congruence.
  - destruct fuel' as [|f']; [lia|]. simpl in *.
    destruct (observe t) as [r|t'|X e k].
    + exact H.
    + apply IH; [exact H | exact Ho | lia].
    + destruct (handle env e w) as [[x|ex] w'].
      * apply IH; [exact H | exact Ho | lia].
      * exact H.
Qed.

Lemma exec_S {R} (t : itree nbE R) f w :
  exec env (S f) t w =
  match observe t with
  | RetF r => Done r w
  | TauF t' => exec env f t' w
  | VisF e k =>
      match handle env e w with
      | (Ok x, w') => exec env f (k x) w'
      | (Raise ex, w') => Raised ex w'
      end
  end.
Proof. reflexivity. Qed.

Lemma exec_bind_cases {R B} (k : R -> itree nbE B) fuel :
  forall (t : itree nbE R) w,
    match exec env fuel t w with
    | Done r w1 => exists j, (j < fuel)%nat /\
        forall g, exec env (j + g) (ITree.bind t k) w = exec env g (k r) w1
    | Raised e w1 => exec env fuel (ITree.bind t k) w = Raised e w1
    | OutOfFuel => exec env fuel (ITree.bind t k) w = OutOfFuel
    end.
Proof.
  induction fuel as [|f IH]; intros t w; [reflexivity|].
  rewrite !exec_S, observe_bind.
  destruct (observe t) as [r|t'|X e h] eqn:Ht.
  - exists 0%nat. split; [lia|]. intros g. apply exec_observe.
    rewrite observe_bind, Ht. reflexivity.
  - cbn [observe _observe]. specialize (IH t' w).
    destruct (exec env f t' w) as [r w1|e w1|].
    + destruct IH as (j & Hj & IH). exists (S j). split; [lia|].
      intros g. change (S j + g)%nat with (S (j + g)).
      rewrite exec_S, observe_bind, Ht. apply IH.
    + exact IH.
    + exact IH.
  - cbn [observe _observe]. destruct (handle env e w) as [[x|ex] w'] eqn:Hh.
    + specialize (IH (h x) w'). destruct (exec env f (h x) w') as [r w1|e' w1|].
      * destruct IH as (j & Hj & IH). exists (S j). split; [lia|].
        intros g. change (S j + g)%nat with (S (j + g)).
        rewrite exec_S, observe_bind, Ht. cbn [observe _observe]. rewrite Hh. apply IH.
      * exact IH.
      * exact IH.
    + reflexivity.
Qed.

Lemma runs_det {R} (t : itree nbE R) w o1 o2 :
  runs env t w o1 -> runs env t w o2 -> o1 = o2.
Proof.
  intros [n1 H1] [n2 H2].
  rewrite <- (H1 (n1 + n2)%nat) by lia. apply H2. lia.
Qed.

Lemma exec_runs {R} (t : itree nbE R) w fuel o :
  exec env fuel t w = o -> o <> OutOfFuel -> runs env t w o.
Proof. intros H Ho. exists fuel. intros fuel' Hle. eapply exec_mono; eauto. Qed.

Lemma runs_exec {R} (t : itree nbE R) w fuel o :
  runs env t w o -> exec env fuel t w <> OutOfFuel -> exec env fuel t w = o.
Proof.
  intros [n H] Hf.
  rewrite <- (H (n + fuel)%nat) by lia. symmetry.
  eapply exec_mono; [reflexivity | exact Hf | lia].
Qed.

Lemma runs_ret {R} (r : R) w : runs env (Ret r) w (Done r w).
Proof. exists 1%nat. intros [|f] Hle; [lia|reflexivity]. Qed.

Lemma runs_bind {R B} (t : itree nbE R) (k : R -> itree nbE B) w r w1 o :
  runs env t w (Done r w1) -> runs env (k r) w1 o -> runs env (ITree.bind t k) w o.
Proof.
  intros [n1 H1] [n2 H2]. exists (n1 + n2)%nat. intros fuel Hle.
  pose proof (exec_bind_cases k n1 t w) as Hc. rewrite (H1 n1) in Hc by lia.
  destruct Hc as (j & Hj & Hc).
  replace fuel with (j + (fuel - j))%nat by lia. rewrite Hc. apply H2. lia.
Qed.

Lemma runs_bind_raise {R B} (t : itree nbE R) (k : R -> itree nbE B) w e w1 :
  runs env t w (Raised e w1) -> runs env (ITree.bind t k) w (Raised e w1).
Proof.
  intros [n H]. exists n. intros fuel Hle.
  pose proof (exec_bind_cases k fuel t w) as Hc. rewrite (H fuel) in Hc by lia.
  exact Hc.
Qed.

Lemma runs_bind_diverges {R B} (t : itree nbE R) (k : R -> itree nbE B) w :
  runs env t w OutOfFuel -> runs env (ITree.bind t k) w OutOfFuel.
Proof.
  intros [n H]. exists n. intros fuel Hle.
  pose proof (exec_bind_cases k fuel t w) as Hc. rewrite (H fuel) in Hc by lia.
  exact Hc.
Qed.

Lemma runs_trigger {T} (e : nbE T) w x w' :
  handle env e w = (Ok x, w') -> runs env (ITree.trigger e) w (Done x w').
Proof.
  intros H. exists 2%nat. intros [|[|f]] Hle; try lia.
  rewrite exec_S. cbn [observe _observe ITree.trigger]. rewrite H. reflexivity.
Qed.

Lemma runs_trigger_raise {T} (e : nbE T) w ex w' :
  handle env e w = (Raise ex, w') -> runs env (ITree.trigger e) w (Raised ex w').
Proof.
  intros H. exists 1%nat. intros [|f] Hle; try lia.
  rewrite exec_S. cbn [observe _observe ITree.trigger]. rewrite H. reflexivity.
Qed.

Lemma runs_iter_continue {I R} (body : I -> itree nbE (I + R)) i i' w w1 o :
  runs env (body i) w (Done (inl i') w1) ->
  runs env (ITree.iter body i') w1 o ->
  runs env (ITree.iter body i) w o.
Proof.
  intros Hb [n Hi].
  assert (Hk : runs env (Tau (ITree.iter body i')) w1 o).
  { exists (S n). intros [|f] Hle; [lia|]. rewrite exec_S. cbn [observe _observe].
    apply Hi. lia. }
  destruct (runs_bind _ (fun lr => match lr with inl l => Tau (ITree.iter body l) | inr r => Ret r end) _ _ _ _ Hb Hk) as [m Hm].
  exists m. intros fuel Hle. rewrite <- (Hm fuel Hle). apply exec_observe. reflexivity.
Qed.

Lemma runs_iter_stop {I R} (body : I -> itree nbE (I + R)) i r w w1 :
  runs env (body i) w (Done (inr r) w1) ->
  runs env (ITree.iter body i) w (Done r w1).
Proof.
  intros Hb.
  destruct (runs_bind _ (fun lr => match lr with inl l => Tau (ITree.iter body l) | inr r => Ret r end) _ _ _ _ Hb (runs_ret r w1)) as [m Hm].
  exists m. intros fuel Hle. rewrite <- (Hm fuel Hle). apply exec_observe. reflexivity.
Qed.

Lemma runs_iter_raise {I R} (body : I -> itree nbE (I + R)) i e w w1 :
  runs env (body i) w (Raised e w1) ->
  runs env (ITree.iter body i) w (Raised e w1).
Proof.
  intros Hb.
  destruct (runs_bind_raise _ (fun lr => match lr with inl l => Tau (ITree.iter body l) | inr r => Ret r end) _ _ _ Hb) as [m Hm].
  exists m. intros fuel Hle. rewrite <- (Hm fuel Hle). apply exec_observe. reflexivity.
Qed.


Lemma runs_iter_diverges {I R} (body : I -> itree nbE (I + R)) (P : I -> world -> Prop) :
  (forall i w, P i w -> exists i' w1, runs env (body i) w (Done (inl i') w1) /\ P i' w1) ->
  forall i w, P i w -> runs env (ITree.iter body i) w OutOfFuel.
Proof.
  intros Hstep i w HP. exists 0%nat. intros fuel _. revert i w HP.
  induction fuel as [fuel IH] using lt_wf_ind. intros i w HP.
  destruct fuel as [|f]; [reflexivity|].
  destruct (Hstep i w HP) as (i' & w1 & [n Hn] & HP').
  set (K := fun lr : I + R =>
              match lr with inl l => Tau (ITree.iter body l) | inr r => Ret r end).
  pose proof (exec_bind_cases K n (body i) w) as Hc.
  rewrite (Hn n) in Hc by lia. destruct Hc as (j & _ & Hc).
  specialize (Hc (S f)). rewrite (exec_S (K (inl i'))) in Hc. cbn [K observe _observe] in Hc.
  rewrite (IH f) in Hc by (lia || exact HP').
  assert (Hi : exec env (S f) (ITree.iter body i) w
               = exec env (S f) (ITree.bind (body i) K) w)
    by (apply exec_observe; reflexivity).
  rewrite Hi.
  destruct (exec env (S f) (ITree.bind (body i) K) w) as [r w2|e w2|] eqn:He;
    [| |reflexivity].
  - eapply exec_mono with (fuel' := (j + S f)%nat) in He; [congruence | discriminate | lia].
  - eapply exec_mono with (fuel' := (j + S f)%nat) in He; [congruence | discriminate | lia].
Qed.

End Executor.

(** ** Running the parts of a cell *)

Section Cells.
Context (env : environment).

Lemma runs_load x v w : ns w !! x = Some v -> runs env (load x) w (Done v w).
Proof. intros H. apply runs_trigger. cbn. rewrite H. reflexivity. Qed.

Lemma runs_load_unbound x w :
  ns w !! x = None -> runs env (load x) w (Raised (NameError x) w).
Proof. intros H. apply runs_trigger_raise. cbn. rewrite H. reflexivity. Qed.

Lemma runs_throw {A} e w : runs env (@throw A e) w (Raised e w).
Proof. apply runs_bind_raise. apply runs_trigger_raise. reflexivity. Qed.

Lemma runs_lift {A} (r : result A) w :
  runs env (lift r) w (match r with Ok a => Done a w | Raise e => Raised e w end).
Proof. destruct r; [apply runs_ret | apply runs_throw]. Qed.

Lemma runs_load_str x s w : ns w !! x = Some (VStr s) -> runs env (load_str x) w (Done s w).
Proof.
  intros H. eapply runs_bind; [apply runs_load; exact H | apply runs_ret].
Qed.

Lemma runs_load_job x r w :
  ns w !! x = Some (VGetJob r) -> runs env (Rekognition.load_job x) w (Done r w).
Proof.
  intros H. eapply runs_bind; [apply runs_load; exact H | apply runs_ret].
Qed.

Lemma runs_store x v w :
  runs env (store x v) w
    (Done tt {| ns := <[x := v]> (ns w); cwd := cwd w; shared := shared w;
                calls := calls w; trace := trace w |}).
Proof. apply runs_trigger. reflexivity. Qed.

Lemma runs_sdk c a outs w :
  sdk_answer env (calls w) c (read_all (call_reads (cwd w) c) (shared w)) = Ok (a, outs) ->
  runs env (sdk c) w
    (Done a {| ns := ns w; cwd := cwd w;
               shared := write_all (call_writes (cwd w) c) outs (shared w);
               calls := S (calls w); trace := trace w ++ [EvCall c] |}).
Proof. intros H. apply runs_trigger. cbn. rewrite H. reflexivity. Qed.

Lemma runs_sdk_raise c e w :
  sdk_answer env (calls w) c (read_all (call_reads (cwd w) c) (shared w)) = Raise e ->
  runs env (sdk c) w
    (Raised e {| ns := ns w; cwd := cwd w; shared := shared w;
                 calls := S (calls w); trace := trace w ++ [EvCall c] |}).
Proof. intros H. apply runs_trigger_raise. cbn. rewrite H. reflexivity. Qed.

Lemma runs_sleep z w :
  runs env (sleep z) w
    (Done tt {| ns := ns w; cwd := cwd w; shared := shared w;
                calls := calls w; trace := trace w ++ [EvSleep z] |}).
Proof. apply runs_trigger. reflexivity. Qed.

Lemma runs_print v w :
  runs env (print v) w
    (Done tt {| ns := ns w; cwd := cwd w; shared := shared w;
                calls := calls w; trace := trace w ++ [EvPrint v] |}).
Proof. apply runs_trigger. reflexivity. Qed.

Lemma runs_display v w :
  runs env (display v) w
    (Done tt {| ns := ns w; cwd := cwd w; shared := shared w;
                calls := calls w; trace := trace w ++ [EvDisplay v] |}).
Proof. apply runs_trigger. reflexivity. Qed.

End Cells.

(** ** A program logic for cells *)

Section Logic.
Context (env : environment) (K : forall T : Type, nbE T -> world -> Prop).

Lemma wp_S {R} (Q : R -> world -> Prop) X f (t : itree nbE R) w :
  wp env K Q X (S f) t w =
  match observe t with
  | RetF r => Q r w
  | TauF t' => wp env K Q X f t' w
  | VisF e k =>
      K _ e w /\
      match handle env e w with
      | (Ok x, w') => wp env K Q X f (k x) w'
      | (Raise ex, w') => X ex w'
      end
  end.
Proof. reflexivity. Qed.

Lemma wp_observe {R} (Q : R -> world -> Prop) X f (t1 t2 : itree nbE R) w :
  observe t1 = observe t2 -> wp env K Q X f t1 w = wp env K Q X f t2 w.
Proof. intros H. destruct f; [reflexivity|]. rewrite !wp_S, H. reflexivity. Qed.

Lemma wp_exec {R} (Q : R -> world -> Prop) X fuel : forall (t : itree nbE R) w,
  wp env K Q X fuel t w ->
  match exec env fuel t w with
  | Done r w' => Q r w'
  | Raised e w' => X e w'
  | OutOfFuel => True
  end.
Proof.
  induction fuel as [|f IH]; intros t w H; [exact I|].
  rewrite wp_S in H. rewrite exec_S.
  destruct (observe t) as [r|t'|T e k]; [exact H | apply IH, H |].
  destruct H as [_ H]. destruct (handle env e w) as [[x|ex] w']; [apply IH, H | exact H].
Qed.

Lemma wp_conseq {R} (Q Q' : R -> world -> Prop) (X X' : exn -> world -> Prop) fuel :
  (forall r w, Q r w -> Q' r w) -> (forall e w, X e w -> X' e w) ->
  forall (t : itree nbE R) w, wp env K Q X fuel t w -> wp env K Q' X' fuel t w.
Proof.
  intros HQ HX. induction fuel as [|f IH]; intros t w H; [exact I|].
  rewrite wp_S in H. rewrite wp_S.
  destruct (observe t) as [r|t'|T e h]; [apply HQ, H | apply IH, H |].
  destruct H as [HK H]. split; [exact HK|].
  destruct (handle env e w) as [[x|ex] w']; [apply IH, H | apply HX, H].
Qed.

Lemma wp_down {R} (Q : R -> world -> Prop) X f :
  forall (t : itree nbE R) w, wp env K Q X (S f) t w -> wp env K Q X f t w.
Proof.
  induction f as [|f IH]; intros t w H; [exact I|].
  rewrite wp_S in H. rewrite wp_S.
  destruct (observe t) as [r|t'|T e h]; [exact H | apply IH, H |].
  destruct H as [HK H]. split; [exact HK|].
  destruct (handle env e w) as [[x|ex] w']; [apply IH, H | exact H].
Qed.

Lemma wp_bind {R B} (k : R -> itree nbE B) (Q : B -> world -> Prop) X fuel :
  forall (t : itree nbE R) w,
    wp env K (fun r w1 => wp env K Q X fuel (k r) w1) X fuel t w ->
    wp env K Q X fuel (ITree.bind t k) w.
Proof.
  induction fuel as [|f IH]; intros t w H; [exact I|].
  rewrite wp_S in H. rewrite wp_S, observe_bind.
  destruct (observe t) as [r|t'|T e h] eqn:Ht.
  - rewrite <- wp_S. exact H.
  - cbn [observe _observe]. apply IH.
    eapply wp_conseq; [| |exact H]; [intros r w1; apply wp_down | auto].
  - cbn [observe _observe]. destruct H as [HK H]. split; [exact HK|].
    destruct (handle env e w) as [[x|ex] w']; [|exact H].
    apply IH. eapply wp_conseq; [| |exact H]; [intros r w1; apply wp_down | auto].
Qed.

Lemma wpa_exec {R} (t : itree nbE R) Q X w fuel :
  wpa env K t Q X w ->
  match exec env fuel t w with
  | Done r w' => Q r w'
  | Raised e w' => X e w'
  | OutOfFuel => True
  end.
Proof. intros H. apply wp_exec, H. Qed.

Lemma wpa_runs {R} (t : itree nbE R) Q X w o :
  wpa env K t Q X w -> runs env t w o ->
  match o with
  | Done r w' => Q r w'
  | Raised e w' => X e w'
  | OutOfFuel => True
  end.
Proof. intros H [n Hn]. rewrite <- (Hn n) by lia. apply wpa_exec, H. Qed.

Lemma wpa_conseq {R} (t : itree nbE R) (Q Q' : R -> world -> Prop)
    (X X' : exn -> world -> Prop) w :
  (forall r w, Q r w -> Q' r w) -> (forall e w, X e w -> X' e w) ->
  wpa env K t Q X w -> wpa env K t Q' X' w.
Proof. intros HQ HX H fuel. eapply wp_conseq; [exact HQ | exact HX | apply H]. Qed.

Lemma wpa_ret {R} (r : R) (Q : R -> world -> Prop) X w : Q r w -> wpa env K (Ret r) Q X w.
Proof. intros H [|f]; [exact I | exact H]. Qed.

Lemma wpa_bind {R B} (t : itree nbE R) (k : R -> itree nbE B) (Q : B -> world -> Prop) X w :
  wpa env K t (fun r w1 => wpa env K (k r) Q X w1) X w ->
  wpa env K (ITree.bind t k) Q X w.
Proof.
  intros H fuel. apply wp_bind. eapply wp_conseq; [| |apply H]; [|auto].
  intros r w1 Hk. apply Hk.
Qed.

Lemma wpa_trigger {T} (e : nbE T) (Q : T -> world -> Prop) X w :
  K _ e w ->
  match handle env e w with
  | (Ok x, w') => Q x w'
  | (Raise ex, w') => X ex w'
  end ->
  wpa env K (ITree.trigger e) Q X w.
Proof.
  intros HK H [|f]; [exact I|]. rewrite wp_S. cbn [observe _observe ITree.trigger].
  split; [exact HK|]. destruct (handle env e w) as [[x|ex] w']; [|exact H].
  destruct f; [exact I | exact H].
Qed.

Lemma wpa_iter {A R} (body : A -> itree nbE (A + R)) (Inv : A -> world -> Prop)
    (Q : R -> world -> Prop) X :
  (forall i w, Inv i w ->
     wpa env K (body i)
       (fun lr w1 => match lr with inl i' => Inv i' w1 | inr r => Q r w1 end) X w) ->
  forall i w, Inv i w -> wpa env K (ITree.iter body i) Q X w.
Proof.
  intros Hbody i w Hi fuel. revert i w Hi.
  induction fuel as [fuel IH] using lt_wf_ind. intros i w Hi.
  set (k := fun lr : A + R =>
              match lr with inl l => Tau (ITree.iter body l) | inr r => Ret r end).
  rewrite (wp_observe _ _ _ (ITree.iter body i) (ITree.bind (body i) k)) by reflexivity.
  apply wp_bind. eapply wp_conseq; [| |apply (Hbody i w Hi)]; [|auto].
  intros [i'|r] w1 H; unfold k.
  - destruct fuel as [|f]; [exact I|]. rewrite wp_S. cbn [observe _observe].
    apply IH; [lia | exact H].
  - destruct fuel as [|f]; [exact I | exact H].
Qed.

End Logic.

Section Rules.
Context (env : environment) (K : forall T : Type, nbE T -> world -> Prop).

Lemma wpa_load x (Q : pyval -> world -> Prop) X w :
  K _ (LoadName x) w ->
  (forall v, ns w !! x = Some v -> Q v w) ->
  (ns w !! x = None -> X (NameError x) w) ->
  wpa env K (load x) Q X w.
Proof.
  intros HK HQ HX. apply wpa_trigger; [exact HK|]. cbn.
  destruct (ns w !! x) as [v|]; [apply HQ | apply HX]; reflexivity.
Qed.

Lemma wpa_throw {A} e (Q : A -> world -> Prop) (X : exn -> world -> Prop) w :
  K _ (Throw e) w -> X e w -> wpa env K (throw e) Q X w.
Proof.
  intros HK HX. apply wpa_bind. apply wpa_trigger; [exact HK | exact HX].
Qed.

Lemma wpa_lift {A} (r : result A) (Q : A -> world -> Prop) (X : exn -> world -> Prop) w :
  (forall a, r = Ok a -> Q a w) ->
  (forall e, r = Raise e -> K _ (Throw e) w /\ X e w) ->
  wpa env K (lift r) Q X w.
Proof.
  intros HQ HX. destruct r as [a|e]; cbn [lift].
  - apply wpa_ret, HQ. reflexivity.
  - destruct (HX e eq_refl). apply wpa_throw; assumption.
Qed.

Lemma wpa_load_str x (Q : string -> world -> Prop) (X : exn -> world -> Prop) w :
  K _ (LoadName x) w -> K _ (Throw TypeError) w ->
  (forall s, ns w !! x = Some (VStr s) -> Q s w) ->
  (forall e, X e w) ->
  wpa env K (load_str x) Q X w.
Proof.
  intros HK HT HQ HX. apply wpa_bind. apply wpa_load; [exact HK | | intros; apply HX].
  intros v Hv. destruct v; try (apply wpa_throw; [exact HT | apply HX]).
  apply wpa_ret, HQ, Hv.
Qed.

Lemma wpa_expand x (Q : string -> world -> Prop) (X : exn -> world -> Prop) w :
  K _ (PeekName x) w ->
  (forall s, ns w !! x = Some (VStr s) \/ s = "$" +:+ x -> Q s w) ->
  wpa env K (expand x) Q X w.
Proof.
  intros HK HQ. apply wpa_bind. apply wpa_trigger; [exact HK|]. cbn.
  destruct (ns w !! x) as [[]|] eqn:Hx; apply wpa_ret, HQ; auto.
Qed.

Lemma wpa_store x v (Q : unit -> world -> Prop) X w :
  K _ (StoreName x v) w -> Q tt (bind_name x v w) -> wpa env K (store x v) Q X w.
Proof. intros HK HQ. apply wpa_trigger; [exact HK | exact HQ]. Qed.

Lemma wpa_sdk c (Q : answer c -> world -> Prop) (X : exn -> world -> Prop) w :
  K _ (Sdk c) w ->
  (forall a outs, Q a (answered c outs w)) ->
  (forall e, X e (failed w c)) ->
  wpa env K (sdk c) Q X w.
Proof.
  intros HK HQ HX. apply wpa_trigger; [exact HK|]. cbn.
  destruct (sdk_answer env _ c _) as [[a outs]|e]; [apply HQ | apply HX].
Qed.

Lemma wpa_bang c (Q : list string -> world -> Prop) (X : exn -> world -> Prop) w :
  K _ (Bang c) w ->
  (forall out outs, Q out (shelled c out outs w)) ->
  wpa env K (bang c) Q X w.
Proof.
  intros HK HQ. apply wpa_trigger; [exact HK|]. cbn.
  destruct (shell_answer env _ c _) as [out outs]. apply HQ.
Qed.

Lemma wpa_store_magic x (Q : unit -> world -> Prop) (X : exn -> world -> Prop) w :
  K _ (StoreMagic x) w ->
  (forall v, ns w !! x = Some v -> Q tt (stored x v w)) ->
  (ns w !! x = None -> Q tt w) ->
  wpa env K (ITree.trigger (StoreMagic x)) Q X w.
Proof.
  intros HK HQ HN. apply wpa_trigger; [exact HK|]. cbn.
  destruct (ns w !! x) as [v|]; [apply HQ | apply HN]; reflexivity.
Qed.

Lemma wpa_sleep z (Q : unit -> world -> Prop) (X : exn -> world -> Prop) w :
  K _ (Sleep z) w -> Q tt (emit (EvSleep z) w) -> wpa env K (sleep z) Q X w.
Proof. intros HK HQ. apply wpa_trigger; [exact HK | exact HQ]. Qed.

Lemma wpa_print v (Q : unit -> world -> Prop) (X : exn -> world -> Prop) w :
  K _ (Print v) w -> Q tt (emit (EvPrint v) w) -> wpa env K (print v) Q X w.
Proof. intros HK HQ. apply wpa_trigger; [exact HK | exact HQ]. Qed.

Lemma wpa_display v (Q : unit -> world -> Prop) (X : exn -> world -> Prop) w :
  K _ (Display v) w -> Q tt (emit (EvDisplay v) w) -> wpa env K (display v) Q X w.
Proof. intros HK HQ. apply wpa_trigger; [exact HK | exact HQ]. Qed.

Lemma wpa_run_all (Inv : world -> Prop) (X : exn -> world -> Prop) cells :
  Forall (fun c => forall w, Inv w -> wpa env K c (fun _ => Inv) X w) cells ->
  forall w, Inv w -> wpa env K (run_all cells) (fun _ => Inv) X w.
Proof.
  induction 1 as [|c cells Hc _ IH]; intros w Hw; cbn [run_all].
  - apply wpa_ret, Hw.
  - apply wpa_bind. eapply wpa_conseq; [| |apply Hc, Hw]; [|auto].
    intros r w1 H1. apply IH, H1.
Qed.

End Rules.

Ltac wp_norm := unfold mbind, itree_bind; cbv beta.

(* kside: guard side condition; xside: exceptional postcondition *)
Ltac wp_step kside xside :=
  wp_norm;
  lazymatch goal with
  | |- wpa _ _ (Ret _) _ _ _ => apply wpa_ret
  | |- wpa _ _ (ITree.bind _ _) _ _ _ => apply wpa_bind
  | |- wpa _ _ (load_str _) _ _ _ =>
      apply wpa_load_str; [kside | kside | intros ? ? | intros ?; xside]
  | |- wpa _ _ (load _) _ _ _ =>
      apply wpa_load; [kside | intros ? ? | intros ?; xside]
  | |- wpa _ _ (expand _) _ _ _ => apply wpa_expand; [kside | intros ? ?]
  | |- wpa _ _ (store _ _) _ _ _ => apply wpa_store; [kside |]
  | |- wpa _ _ (sdk ?c) _ _ _ => apply (wpa_sdk _ _ c); [kside | intros ? ? | intros ?; xside]
  | |- wpa _ _ (bang _) _ _ _ => apply wpa_bang; [kside | intros ? ?]
  | |- wpa _ _ (sleep _) _ _ _ => apply wpa_sleep; [kside |]
  | |- wpa _ _ (print _) _ _ _ => apply wpa_print; [kside |]
  | |- wpa _ _ (display _) _ _ _ => apply wpa_display; [kside |]
  | |- wpa _ _ (throw _) _ _ _ => apply wpa_throw; [kside | xside]
  | |- wpa _ _ (lift ?r) _ _ _ =>
      apply wpa_lift; [intros ? ? | intros ? ?; split; [kside | xside]]
  | |- wpa _ _ (ITree.trigger (StoreMagic _)) _ _ _ =>
      apply wpa_store_magic; [kside | intros ? ? | intros ?]
  | |- wpa _ _ (match ?v with _ => _ end) _ _ _ => destruct v
  end.

(* equations between closed terms, by evaluation *)
Ltac by_vm :=
  lazymatch goal with
  | |- @eq ?T _ ?r => vm_cast_no_check (@eq_refl T r)
  end.

(* what the loads of a cell found, where the cell itself bound the name *)
Ltac resolve_lookups :=
  repeat match goal with
  | H : _ \/ _ |- _ => destruct H as [H|H]
  | H : ns ?w0 !! _ = _ |- _ =>
      lazymatch w0 with
      | bind_name _ _ _ => idtac
      | emit _ _ => idtac
      | answered _ _ _ => idtac
      | shelled _ _ _ _ => idtac
      | stored _ _ _ => idtac
      end;
      cbn [ns bind_name emit answered shelled stored failed] in H;
      rewrite ?lookup_insert_ne in H by done;
      try rewrite lookup_insert_eq in H
  | H : Some _ = Some _ |- _ => injection H as H
  | H : Some _ = None |- _ => discriminate H
  | H : None = Some _ |- _ => discriminate H
  | H : VStr _ = VStr _ |- _ => injection H as H
  | H : Ok _ = Ok _ |- _ => injection H as H
  | H : ?x = ?y |- _ =>
      is_var y;
      lazymatch x with cwd _ => fail | _ => idtac end;
      subst y
  | H : ?y = ?x |- _ =>
      is_var y;
      lazymatch x with cwd _ => fail | _ => idtac end;
      subst y
  | H1 : ns ?w !! ?x = Some _, H2 : ns ?w !! ?x = Some _ |- _ =>
      rewrite H2 in H1
  end.



(** ** The poll loop of the celebrity notebook *)

Section PollLoop.
Context (env : environment) (w : world) (jid : string) (vr vt vd : pyval)
  (responses : nat -> GetCelebrityRecognitionResponse.t).
Hypothesis Hrek : ns w !! "rekognition" = Some vr.
Hypothesis Hjid : ns w !! "celebrityJobId" = Some (VStr jid).
Hypothesis Htime : ns w !! "time" = Some vt.
Hypothesis Hdisplay : ns w !! "display" = Some vd.
Hypothesis Hanswers : forall k, exists outs,
  sdk_answer env (calls w + k) (Rekognition.get_job jid) [] = Ok (responses k, outs).

(** One poll from a world that differs from [w] by earlier polls. *)
Lemma poll_runs (w1 : world) k :
  ns w1 !! "rekognition" = Some vr -> ns w1 !! "celebrityJobId" = Some (VStr jid) ->
  calls w1 = (calls w + k)%nat ->
  runs env Rekognition.poll w1
    (Done tt {| ns := <["getCelebrityRecognition" := VGetJob (responses k)]> (ns w1);
                cwd := cwd w1; shared := shared w1; calls := S (calls w1);
                trace := trace w1 ++ [EvCall (Rekognition.get_job jid)] |}).
Proof.
  intros H1 H2 Hc. destruct (Hanswers k) as [outs Ha].
  unfold Rekognition.poll.
  eapply runs_bind; [apply runs_load; exact H1|].
  eapply runs_bind; [apply runs_load_str; exact H2|].
  eapply runs_bind.
  { apply (runs_sdk env (Rekognition.get_job jid) (responses k) outs). rewrite Hc. exact Ha. }
  apply runs_store.
Qed.

Lemma first_poll : runs env Rekognition.poll w (Done tt (Rekognition.polled w jid 0 (responses 0))).
Proof.
  pose proof (poll_runs w 0 Hrek Hjid ltac:(lia)) as H.
  unfold Rekognition.polled, Rekognition.poll_trace. cbn [replicate List.concat].
  replace (calls w + 1)%nat with (S (calls w)) by lia. exact H.
Qed.

Lemma polled_step k :
  GetCelebrityRecognitionResponse.JobStatus (responses k) = "IN_PROGRESS" ->
  runs env (Rekognition.wait_step tt) (Rekognition.polled w jid k (responses k))
    (Done (inl tt) (Rekognition.polled w jid (S k) (responses (S k)))).
Proof.
  intros Hs. unfold Rekognition.wait_step.
  eapply runs_bind.
  { apply runs_load_job. cbn. apply lookup_insert_eq. }
  cbn beta. rewrite Hs. cbn [String.eqb Ascii.eqb Bool.eqb].
  eapply runs_bind.
  { apply runs_load. cbn. rewrite lookup_insert_ne by done. exact Htime. }
  eapply runs_bind; [apply runs_sleep|].
  eapply runs_bind; [apply runs_print|].
  eapply runs_bind.
  { apply (poll_runs _ (S k)); cbn.
    - rewrite lookup_insert_ne by done. exact Hrek.
    - rewrite lookup_insert_ne by done. exact Hjid.
    - lia. }
  cbn. unfold Rekognition.polled.
  replace (S (calls w + S k)) with (calls w + S (S k))%nat by lia.
  rewrite insert_insert_eq.
  replace ((((trace w ++ Rekognition.poll_trace jid k) ++ [EvSleep 5]) ++ [EvPrint (VStr ".")]) ++ [EvCall (Rekognition.get_job jid)])
    with (trace w ++ Rekognition.poll_trace jid (S k)).
  { apply runs_ret. }
  unfold Rekognition.poll_trace. rewrite <- !app_assoc. f_equal. cbn [app]. f_equal.
  replace (S k) with (k + 1)%nat by lia. rewrite replicate_add, concat_app.
  reflexivity.
Qed.

Lemma loop_exits d : forall k,
  (forall j, (j < d)%nat -> GetCelebrityRecognitionResponse.JobStatus (responses (k + j)) = "IN_PROGRESS") ->
  GetCelebrityRecognitionResponse.JobStatus (responses (k + d)) <> "IN_PROGRESS" ->
  runs env (ITree.iter Rekognition.wait_step tt) (Rekognition.polled w jid k (responses k))
    (Done tt (Rekognition.polled w jid (k + d) (responses (k + d)))).
Proof.
  induction d as [|d IH]; intros k Hbusy Hdone.
  - replace (k + 0)%nat with k in * by lia.
    apply runs_iter_stop. unfold Rekognition.wait_step.
    eapply runs_bind.
    { apply runs_load_job. cbn. apply lookup_insert_eq. }
    cbn beta. apply String.eqb_neq in Hdone. rewrite Hdone. apply runs_ret.
  - eapply runs_iter_continue.
    + apply polled_step. specialize (Hbusy 0%nat ltac:(lia)).
      replace (k + 0)%nat with k in Hbusy by lia. exact Hbusy.
    + replace (k + S d)%nat with (S k + d)%nat in * by lia. apply IH.
      * intros j Hj. specialize (Hbusy (S j) ltac:(lia)).
        replace (k + S j)%nat with (S k + j)%nat in Hbusy by lia. exact Hbusy.
      * exact Hdone.
Qed.

Lemma loop_spins :
  (forall j, GetCelebrityRecognitionResponse.JobStatus (responses j) = "IN_PROGRESS") ->
  runs env (ITree.iter Rekognition.wait_step tt) (Rekognition.polled w jid 0 (responses 0)) OutOfFuel.
Proof.
  intros Hbusy.
  apply (runs_iter_diverges env Rekognition.wait_step
           (fun _ w1 => exists k, w1 = Rekognition.polled w jid k (responses k))).
  - intros [] w1 [k ->]. exists tt, (Rekognition.polled w jid (S k) (responses (S k))).
    split; [apply polled_step, Hbusy | eauto].
  - exists 0%nat. reflexivity.
Qed.

(** C1: the wait for the video job is a poll loop.  It calls
    [get_celebrity_recognition] with the stored job id, and as long as the
    status returned is ['IN_PROGRESS'] it sleeps 5 seconds, prints a dot
    and calls again: when the first status other than ['IN_PROGRESS'] is
    that of poll [k], the cell returns after exactly [k] sleeps of 5
    seconds, one between each two consecutive polls, and nothing else
    happens but the final display; when every poll reports
    ['IN_PROGRESS'], the cell never returns. *)
Theorem poll_loop :
  (forall k, (forall j, (j < k)%nat -> GetCelebrityRecognitionResponse.JobStatus (responses j) = "IN_PROGRESS") ->
             GetCelebrityRecognitionResponse.JobStatus (responses k) <> "IN_PROGRESS" ->
             runs env Rekognition.cell_wait w (Done tt (Rekognition.after_wait w jid k (responses k))))
  /\ ((forall j, GetCelebrityRecognitionResponse.JobStatus (responses j) = "IN_PROGRESS") -> runs env Rekognition.cell_wait w OutOfFuel).
Proof.
  split.
  - intros k Hbusy Hdone. unfold Rekognition.cell_wait.
    eapply runs_bind; [apply first_poll|].
    eapply runs_bind; [apply (loop_exits k 0%nat); assumption|].
    cbn [Nat.add].
    eapply runs_bind.
    { apply runs_load. cbn. rewrite lookup_insert_ne by done. exact Hdisplay. }
    eapply runs_bind.
    { apply runs_load_job. cbn. apply lookup_insert_eq. }
    unfold Rekognition.after_wait. rewrite app_assoc. apply runs_display.
  - intros Hbusy. unfold Rekognition.cell_wait.
    eapply runs_bind; [apply first_poll|].
    apply runs_bind_diverges. apply loop_spins, Hbusy.
Qed.
End PollLoop.


Lemma poll_loop_witness :
  runs (Demo.env_ok 12) Rekognition.cell_wait Demo.started
    (Done tt (Rekognition.after_wait Demo.started "job-1" 2 (Demo.job "SUCCEEDED"))).
Proof.
  refine (proj1 (poll_loop (Demo.env_ok 12) Demo.started "job-1"
                   (VObj "boto3.client" [("service", VStr "rekognition")])
                   (Rekognition.module "time")
                   (Rekognition.module "IPython.display.display")
                   Demo.statuses _ _ _ _ _) 2%nat _ _).
  - by_vm.
  - by_vm.
  - by_vm.
  - by_vm.
  - intros k. eexists. reflexivity.
  - intros j Hj. destruct j as [|[|j]]; [reflexivity | reflexivity | lia].
  - vm_compute. discriminate.
Defined.

(** ** Failing SDK calls *)

Section Failures.
Context (env : environment).

Lemma handle_fail_at {T} (ev : nbE T) w k e :
  match ev with Sdk _ => calls w <> k | _ => True end ->
  handle (fail_at env k e) ev w = handle env ev w.
Proof.
  destruct ev; intros H; try reflexivity.
  cbn. apply Nat.eqb_neq in H. rewrite H. reflexivity.
Qed.

Lemma failure_propagates_exec {R} k e fuel :
  forall (t : itree nbE R) w wk c,
    before_request env k fuel t w = Some (wk, c) ->
    exec (fail_at env k e) fuel t w = Raised e (failed wk c).
Proof.
  induction fuel as [|f IH]; intros t w wk c H; [discriminate|].
  cbn [before_request] in H. rewrite exec_S.
  destruct (observe t) as [r|t'|X ev h]; [discriminate | apply IH, H |].
  assert (Hgo : match ev with Sdk _ => calls w <> k | _ => True end ->
                (let (r, w') := handle env ev w in
                 match r with
                 | Ok x => before_request env k f (h x) w'
                 | Raise _ => None
                 end) = Some (wk, c) ->
                (let (r, w') := handle (fail_at env k e) ev w in
                 match r with
                 | Ok x => exec (fail_at env k e) f (h x) w'
                 | Raise ex => Raised ex w'
                 end) = Raised e (failed wk c)).
  { intros Hne Hb. rewrite handle_fail_at by exact Hne.
    destruct (handle env ev w) as [[x|ex] w']; [apply IH, Hb | discriminate]. }
  destruct ev; try (apply Hgo; [exact I | exact H]).
  destruct (calls w =? k)%nat eqn:Hk.
  - injection H as <- <-. apply Nat.eqb_eq in Hk. cbn. rewrite Hk, Nat.eqb_refl.
    unfold failed. rewrite Hk. reflexivity.
  - apply Nat.eqb_neq in Hk. apply Hgo; [exact Hk | exact H].
Qed.

Lemma failure_propagates {R} k e fuel (t : itree nbE R) w wk c :
  before_request env k fuel t w = Some (wk, c) ->
  runs (fail_at env k e) t w (Raised e (failed wk c)).
Proof.
  intros H. eapply exec_runs; [apply failure_propagates_exec, H | discriminate].
Qed.

Lemma recognize_fails target key_var w vr bucket key e :
  ns w !! "rekognition" = Some vr ->
  ns w !! "bucketName" = Some (VStr bucket) ->
  ns w !! key_var = Some (VStr key) ->
  sdk_answer env (calls w) (rekognition_recognize_celebrities bucket key)
    (read_all (call_reads (cwd w) (rekognition_recognize_celebrities bucket key))
       (shared w)) = Raise e ->
  runs env (Rekognition.recognize target key_var) w
    (Raised e (failed w (rekognition_recognize_celebrities bucket key))).
Proof.
  intros H1 H2 H3 H4. unfold Rekognition.recognize.
  eapply runs_bind; [apply runs_load; exact H1|].
  eapply runs_bind; [apply runs_load_str; exact H2|].
  eapply runs_bind; [apply runs_load_str; exact H3|].
  apply runs_bind_raise.
  apply (runs_sdk_raise env (rekognition_recognize_celebrities bucket key)). exact H4.
Qed.

End Failures.



(** ** The names of the celebrities of a video *)

#[local] Arguments String.append !s1 s2 : simpl nomatch.

Section CelebrityNamesPure.
Import Rekognition.

Lemma append_assoc_s (a b c : string) : (a +:+ b) +:+ c = a +:+ (b +:+ c).
Proof. induction a as [|x a IH]; [reflexivity|]. simpl. f_equal. exact IH. Qed.

Lemma append_nil_r_s (a : string) : a +:+ "" = a.
Proof. induction a as [|x a IH]; [reflexivity|]. simpl. f_equal. exact IH. Qed.

Lemma dict_contains_keys k d : dict_contains k d = true <-> k ∈ dict_keys d.
Proof.
  unfold dict_contains, dict_keys. rewrite existsb_exists, list_elem_of_fmap.
  split.
  - intros ([k' v] & Hin & Heq). apply String.eqb_eq in Heq. cbn in Heq. subst.
    exists (k, v). split; [reflexivity | apply list_elem_of_In, Hin].
  - intros ([k' v] & -> & Hin). exists (k', v). split; [apply list_elem_of_In, Hin|].
    apply String.eqb_refl.
Qed.

Lemma dict_setitem_new k v d :
  dict_contains k d = false -> dict_keys (dict_setitem k v d) = dict_keys d ++ [k].
Proof.
  intros H. unfold dict_setitem. rewrite H. unfold dict_keys. rewrite fmap_app. reflexivity.
Qed.

Lemma detail_entry_ok a b c :
  exists s, format "At {} ms: {} (Confidence: {})<br>" [a; b; c] = Ok s.
Proof. eexists. reflexivity. Qed.

Lemma detection_step_keys py d sd c :
  exists d' sd', detection_step py (d, sd) c = Ok (d', sd')
    /\ (forall x, x ∈ dict_keys d' <-> x ∈ dict_keys d \/ qualifies x c)
    /\ (NoDup (dict_keys d) -> NoDup (dict_keys d')).
Proof.
  unfold detection_step, qualifies.
  destruct (CelebrityRecognition.Celebrity c) as [detail|] eqn:Hc.
  2:{ exists d, sd. split; [reflexivity|]. split; [|auto].
      intros x. split; [auto|]. intros [H|(? & ? & _)]; [exact H | discriminate]. }
  destruct (95 <? CelebrityDetail.Confidence detail)%float eqn:Hconf.
  2:{ exists d, sd. split; [reflexivity|]. split; [|auto].
      intros x. split; [auto|]. intros [H|(? & [= <-] & _ & ?)]; [exact H | congruence]. }
  destruct (detail_entry_ok (pretty (CelebrityRecognition.Timestamp c))
              (CelebrityDetail.Name detail)
              (py_str_float py (py_round py (CelebrityDetail.Confidence detail) 2)))
    as [s Hs].
  rewrite Hs. cbn [mbind result_bind].
  destruct (dict_contains (CelebrityDetail.Name detail) d) eqn:Hin; cbn [negb].
  - exists d, (sd +:+ s). split; [reflexivity|]. split; [|auto].
    intros x. split; [auto|]. intros [H|(? & [= <-] & <- & _)]; [exact H|].
    apply dict_contains_keys, Hin.
  - eexists _, (sd +:+ s). split; [reflexivity|].
    rewrite dict_setitem_new by exact Hin. split.
    + intros x. rewrite elem_of_app, list_elem_of_singleton. split.
      * intros [H| ->]; [auto|]. right. exists detail. auto.
      * intros [H|(? & [= <-] & <- & _)]; auto.
    + intros Hnd. apply NoDup_app. split; [exact Hnd|]. split; [|apply NoDup_singleton].
      intros x Hx ->%list_elem_of_singleton.
      apply dict_contains_keys in Hx. congruence.
Qed.

Lemma detection_loop_keys py cs : forall d sd,
  exists d' sd', detection_loop py cs (d, sd) = Ok (d', sd')
    /\ (forall x, x ∈ dict_keys d' <-> x ∈ dict_keys d \/ exists c, c ∈ cs /\ qualifies x c)
    /\ (NoDup (dict_keys d) -> NoDup (dict_keys d')).
Proof.
  induction cs as [|c cs IH]; intros d sd.
  - exists d, sd. split; [reflexivity|]. split; [|auto].
    intros x. split; [auto|]. intros [H|(c & Hc & _)]; [exact H|]. inversion Hc.
  - destruct (detection_step_keys py d sd c) as (d1 & sd1 & Hstep & Hk1 & Hn1).
    destruct (IH d1 sd1) as (d2 & sd2 & Hloop & Hk2 & Hn2).
    exists d2, sd2. cbn [detection_loop]. rewrite Hstep. cbn [mbind result_bind].
    split; [exact Hloop|]. split; [|auto].
    intros x. rewrite Hk2, Hk1. split.
    + intros [[H|H]|(c' & Hc' & Hq)]; [auto | right; exists c | right; exists c'];
        split; auto; [left | right; exact Hc'].
    + intros [H|(c' & Hc' & Hq)]; [auto|].
      apply elem_of_cons in Hc' as [->|Hc']; [auto | right; eauto].
Qed.

Lemma overall_loop_text keys : forall s,
  overall_loop keys s
  = Ok (s +:+ String.concat "" ((fun n => "Name: " +:+ n +:+ "<br>") <$> keys)).
Proof.
  induction keys as [|k keys IH]; intros s.
  - cbn. rewrite append_nil_r_s. reflexivity.
  - cbn [overall_loop]. 
    change (format "Name: {}<br>" [k]) with (Ok ("Name: " +:+ k +:+ "<br>")).
    cbn [mbind result_bind]. rewrite IH. f_equal.
    rewrite append_assoc_s. f_equal.
    cbn [fmap list_fmap String.concat].
    destruct keys as [|k' keys]; [cbn; rewrite append_nil_r_s; reflexivity|].
    cbn [fmap list_fmap]. reflexivity.
Qed.

End CelebrityNamesPure.

Section CelebrityNames.
Import Rekognition.
Context (py : python) (env : environment).

(** C8: in the display of the celebrities of the overall video, for every
    response the names listed are pairwise distinct, and a name is listed
    if and only if some detection of the response carries a celebrity of
    that name with a confidence strictly above 95. *)
Theorem celebrity_names_once_iff_confident w r vd vh :
  ns w !! "getCelebrityRecognition" = Some (VGetJob r) ->
  ns w !! "display" = Some vd ->
  ns w !! "HTML" = Some vh ->
  exists names w',
    runs env (cell_celebrity_names py) w (Done tt w')
    /\ trace w' = trace w
         ++ [EvDisplay (VObj "IPython.display.HTML" [("data", VStr (overall_text names))])]
    /\ NoDup names
    /\ forall x, x ∈ names <->
         exists d, d ∈ GetCelebrityRecognitionResponse.Celebrities r /\ qualifies x d.
Proof.
  intros Hr Hd Hh.
  destruct (detection_loop_keys py (GetCelebrityRecognitionResponse.Celebrities r)
              [] strDetail_header) as (d' & sd' & Hloop & Hkeys & Hnodup).
  exists (dict_keys d'). eexists. split; [|split; [|split]].
  - unfold cell_celebrity_names.
    eapply runs_bind; [apply runs_store|].
    eapply runs_bind; [apply runs_store|].
    eapply runs_bind; [apply runs_store|].
    eapply runs_bind.
    { apply runs_load_job. cbn. rewrite !lookup_insert_ne by done. exact Hr. }
    rewrite Hloop.
    eapply runs_bind; [apply runs_ret|].
    eapply runs_bind; [apply runs_store|].
    eapply runs_bind; [apply runs_store|].
    cbn [fst snd]. rewrite overall_loop_text.
    eapply runs_bind; [apply runs_ret|].
    eapply runs_bind; [apply runs_store|].
    eapply runs_bind.
    { apply runs_load. cbn. rewrite !lookup_insert_ne by done. exact Hd. }
    eapply runs_bind.
    { apply runs_load. cbn. rewrite !lookup_insert_ne by done. exact Hh. }
    apply runs_display.
  - reflexivity.
  - apply Hnodup. constructor.
  - intros x. rewrite Hkeys. split.
    + intros [H|H]; [inversion H | exact H].
    + intros H. right. exact H.
Qed.

End CelebrityNames.

Lemma celebrity_names_once_iff_confident_witness :
  exists names w',
    runs (Demo.env_ok 12) (Rekognition.cell_celebrity_names Demo.py) Demo.waited (Done tt w')
    /\ trace w' = trace Demo.waited
         ++ [EvDisplay (VObj "IPython.display.HTML"
                          [("data", VStr (Rekognition.overall_text names))])]
    /\ NoDup names
    /\ forall x, x ∈ names <->
         exists d, d ∈ Demo.detections /\ Rekognition.qualifies x d.
Proof.
  refine (celebrity_names_once_iff_confident Demo.py (Demo.env_ok 12) Demo.waited
            (Demo.job "SUCCEEDED")
            (Rekognition.module "IPython.display.display")
            (Rekognition.module "IPython.display.HTML") _ _ _).
  - by_vm.
  - by_vm.
  - by_vm.
Defined.

(** ** Drawing the boxes *)

Section Draw.
Context (env : environment).

Lemma drawBoundingBoxes_wp sourceImage boxes w :
  wpa env unguarded (Rekognition.drawBoundingBoxes sourceImage boxes)
    (fun _ w' => exists bucket location width height drawn,
       Rekognition.draw_boxes width height boxes 0%nat = Ok drawn
       /\ trace w' = trace w ++
            [EvCall (s3_download_file bucket sourceImage location);
             EvCall (Image_open location);
             EvCall (Image_save location (Rekognition.imageFormat sourceImage) (List.concat drawn));
             EvDisplay (VObj "PIL.Image" [("fp", VStr location)])])
    (fun _ _ => True) w.
Proof.
  unfold Rekognition.drawBoundingBoxes.
  repeat wp_step ltac:(exact I) ltac:(exact I).
  eexists _, _, _, _, _. split; [eassumption|].
  cbn. rewrite <- !app_assoc. reflexivity.
Qed.
End Draw.

Section DrawPure.
Import Rekognition.

Lemma draw_box_colour width height box color ops :
  draw_box width height box color = Ok ops ->
  exists x1 y1 x2 y2,
    ops = [DrawText (x1, y1) box.1 color;
           DrawRectangle (x1, y1, x2, y2) color;
           DrawRectangle (x1 - 1, y1 - 1, x2 + 1, y2 + 1) color;
           DrawRectangle (x1 - 2, y1 - 2, x2 + 2, y2 + 2) color].
Proof.
  unfold draw_box. unfold mbind, result_bind.
  destruct (int_of_float _) as [x1|]; [|discriminate].
  destruct (int_of_float _) as [y1|]; [|discriminate].
  destruct (int_of_float _) as [x2|]; [|discriminate].
  destruct (int_of_float _) as [y2|]; [|discriminate].
  intros [= <-]. exists x1, y1, x2, y2. cbn.
  rewrite !Z.sub_0_r, !Z.add_0_r. reflexivity.
Qed.

Lemma draw_boxes_colours width height boxes : forall col drawn,
  draw_boxes width height boxes col = Ok drawn ->
  List.length drawn = List.length boxes
  /\ forall i box, boxes !! i = Some box ->
       exists color ops,
         colors !! ((col + i) mod 4)%nat = Some color
         /\ drawn !! i = Some ops
         /\ draw_box width height box color = Ok ops.
Proof.
  induction boxes as [|b boxes IH]; intros col drawn H.
  - injection H as <-. split; [reflexivity|]. intros i box Hi. destruct i; discriminate.
  - cbn [draw_boxes] in H. unfold mbind, result_bind in H.
    destruct (colors !! col) as [color|] eqn:Hcol; [|discriminate].
    destruct (draw_box width height b color) as [ops|] eqn:Hops; [|discriminate].
    destruct (draw_boxes width height boxes ((col + 1) mod List.length colors)%nat)
      as [rest|] eqn:Hrest; [|discriminate].
    injection H as <-. destruct (IH _ _ Hrest) as [Hlen Hall].
    split; [cbn; rewrite Hlen; reflexivity|].
    assert (Hlt : (col < 4)%nat) by (apply lookup_lt_Some in Hcol; exact Hcol).
    intros [|i] box Hi.
    + injection Hi as <-. exists color, ops. rewrite Nat.add_0_r, Nat.mod_small by exact Hlt.
      auto.
    + destruct (Hall i box Hi) as (color' & ops' & Hc' & Hd' & Hb').
      exists color', ops'. split; [|auto].
      rewrite <- Hc'. f_equal. change (List.length colors) with 4%nat.
      rewrite Nat.Div0.add_mod_idemp_l. f_equal. lia.
Qed.

End DrawPure.

(** C9: whenever [drawBoundingBoxes] returns, it has saved the annotated
    image in the format ['JPEG'] if the lowercased source path ends with
    ['jpg'] or ['jpeg'] and in the format ['PNG'] otherwise, and the box
    at index [i] of its input is drawn, label and three rectangles, with
    the colour at index [i mod 4] of the four-element colour tuple. *)
Theorem drawBoundingBoxes_format_and_colours env w sourceImage boxes w' :
  runs env (Rekognition.drawBoundingBoxes sourceImage boxes) w (Done tt w') ->
  exists bucket location drawn,
    trace w' = trace w ++
      [EvCall (s3_download_file bucket sourceImage location);
       EvCall (Image_open location);
       EvCall (Image_save location
                 (if endswith (lower sourceImage) "jpg" || endswith (lower sourceImage) "jpeg"
                  then "JPEG" else "PNG")
                 (List.concat drawn));
       EvDisplay (VObj "PIL.Image" [("fp", VStr location)])]
    /\ List.length drawn = List.length boxes
    /\ forall i box, boxes !! i = Some box ->
         exists color x1 y1 x2 y2,
           Rekognition.colors !! (i mod 4)%nat = Some color
           /\ drawn !! i =
                Some [DrawText (x1, y1) box.1 color;
                      DrawRectangle (x1, y1, x2, y2) color;
                      DrawRectangle (x1 - 1, y1 - 1, x2 + 1, y2 + 1) color;
                      DrawRectangle (x1 - 2, y1 - 2, x2 + 2, y2 + 2) color].
Proof.
  intros Hrun.
  pose proof (wpa_runs env unguarded _ _ _ _ _
                (drawBoundingBoxes_wp env sourceImage boxes w) Hrun) as H.
  cbn beta iota in H.
  destruct H as (bucket & location & width & height & drawn & Hdraw & Htrace).
  exists bucket, location, drawn. split; [exact Htrace|].
  destruct (draw_boxes_colours _ _ _ _ _ Hdraw) as [Hlen Hall].
  split; [exact Hlen|]. intros i box Hi.
  destruct (Hall i box Hi) as (color & ops & Hc & Hd & Hb).
  destruct (draw_box_colour _ _ _ _ _ Hb) as (x1 & y1 & x2 & y2 & ->).
  exists color, x1, y1, x2, y2. auto.
Qed.

Lemma drawBoundingBoxes_format_and_colours_witness :
  exists bucket location drawn,
    trace Demo.after_draw = trace Demo.before_draw ++
      [EvCall (s3_download_file bucket "content-moderation/media/GrandTourjc.png" location);
       EvCall (Image_open location);
       EvCall (Image_save location
                 (if endswith (lower "content-moderation/media/GrandTourjc.png") "jpg"
                     || endswith (lower "content-moderation/media/GrandTourjc.png") "jpeg"
                  then "JPEG" else "PNG")
                 (List.concat drawn));
       EvDisplay (VObj "PIL.Image" [("fp", VStr location)])]
    /\ List.length drawn = List.length Demo.boxes
    /\ forall i box, Demo.boxes !! i = Some box ->
         exists color x1 y1 x2 y2,
           Rekognition.colors !! (i mod 4)%nat = Some color
           /\ drawn !! i =
                Some [DrawText (x1, y1) box.1 color;
                      DrawRectangle (x1, y1, x2, y2) color;
                      DrawRectangle (x1 - 1, y1 - 1, x2 + 1, y2 + 1) color;
                      DrawRectangle (x1 - 2, y1 - 2, x2 + 2, y2 + 2) color].
Proof.
  apply (drawBoundingBoxes_format_and_colours (Demo.env_ok 12) Demo.before_draw
           "content-moderation/media/GrandTourjc.png" Demo.boxes Demo.after_draw).
  apply (exec_runs _ _ _ 100%nat); [vm_compute; reflexivity | discriminate].
Defined.

(** ** The pipeline function and its names *)

Ltac ns_simpl :=
  cbn [ns cwd shared calls trace bind_name emit answered shelled stored failed].
Ltac ns_simpl_all :=
  cbn [ns cwd shared calls trace bind_name emit answered shelled stored failed] in *.

Ltac wp_unfold :=
  unfold Pipeline.cell_pip_boto3, Pipeline.cell_pip_kfp, Pipeline.cell_restart,
    Pipeline.cell_account, Pipeline.cell_copy_data, Pipeline.cell_import_kfp,
    Pipeline.load_component, Pipeline.cell_registry, Pipeline.cell_processing_code,
    Pipeline.cell_tar, Pipeline.cell_training_code, Pipeline.cell_def_processing,
    Pipeline.cell_def_training_input, Pipeline.def_function, Pipeline.cell_def_pipeline.


Section PipelineBound.
Context (env : environment).

Lemma pipeline_prefix_wp w0 :
  ns w0 = ∅ ->
  wpa env unguarded (run_all (take 18 Pipeline.cells))
    (fun _ w => bound "kfp" w /\ bound "mnist_classification" w
                /\ bound "sagemaker_process_op" w
                /\ ns w !! "instance_type" = None
                /\ ns w !! "serving_image" = None)
    (fun _ _ => True) w0.
Proof.
  intros Hns. unfold Pipeline.cells. cbn [take run_all]. wp_unfold.
  repeat wp_step ltac:(exact I) ltac:(exact I).
  all: clear -Hns; unfold bound; ns_simpl; rewrite Hns.
  all: repeat split;
    first [ rewrite !lookup_insert_ne by done; apply lookup_empty
          | rewrite ?lookup_insert_ne by done; rewrite lookup_insert_eq; eauto ].
Qed.

Lemma compile_raises w vk vf vp :
  ns w !! "kfp" = Some vk -> ns w !! "mnist_classification" = Some vf ->
  ns w !! "sagemaker_process_op" = Some vp -> ns w !! "instance_type" = None ->
  runs env Pipeline.cell_compile w (Raised (NameError "instance_type") w).
Proof.
  intros Hk Hf Hp Hi. unfold Pipeline.cell_compile, Pipeline.compile.
  eapply runs_bind; [apply runs_load; exact Hk|].
  eapply runs_bind; [apply runs_load; exact Hf|].
  apply runs_bind_raise. unfold Pipeline.mnist_classification.
  eapply runs_bind; [apply runs_load; exact Hp|].
  apply runs_bind_raise. apply runs_load_unbound. exact Hi.
Qed.
End PipelineBound.

(** C2, on the code: the pipeline function references [instance_type]
    (and [serving_image]), which no cell binds.  Whenever the cells before
    it have run, for any behaviour of the platform, compiling the pipeline
    evaluates the function, which raises [NameError] for [instance_type]
    before any step is recorded; nothing is written. *)
Theorem pipeline_compile_raises_NameError env dir stores fuel w1 :
  exec env fuel (run_all (take 18 Pipeline.cells)) (fresh_kernel dir stores) = Done tt w1 ->
  runs env Pipeline.cell_compile w1 (Raised (NameError "instance_type") w1)
  /\ ns w1 !! "serving_image" = None.
Proof.
  intros Hrun.
  pose proof (wpa_exec env unguarded _ _ _ _ fuel
                (pipeline_prefix_wp env (fresh_kernel dir stores) eq_refl)) as H.
  rewrite Hrun in H. destruct H as ([vk Hk] & [vf Hf] & [vp Hp] & Hi & Hs).
  split; [|exact Hs]. eapply compile_raises; eassumption.
Qed.

Lemma pipeline_compile_raises_NameError_witness :
  runs (Demo.env_ok 0) Pipeline.cell_compile Demo.pipeline_ready
    (Raised (NameError "instance_type") Demo.pipeline_ready)
  /\ ns Demo.pipeline_ready !! "serving_image" = None.
Proof.
  apply (pipeline_compile_raises_NameError (Demo.env_ok 0) "/home/jovyan/pipeline" ∅ 2000%nat).
  vm_compute. reflexivity.
Defined.

Example pipeline_notebook_stops_at_compile :
  match exec (Demo.env_ok 0) 2000 Pipeline.notebook
          (fresh_kernel "/home/jovyan/pipeline" ∅) with
  | Raised e _ => Some e
  | _ => None
  end = Some (NameError "instance_type").
Proof. by_vm. Qed.

(** ** The order of the steps of the training notebook *)

Ltac by_index j :=
  lazymatch goal with
  | |- [] !! _ = _ -> _ => let H := fresh in intros H; rewrite lookup_nil in H; discriminate H
  | |- _ => destruct j as [|j]; [|change ((?c :: ?l) !! S j) with (l !! j); by_index j]
  end.

Section Order.
Context (env : environment).

Lemma steps_handle {T} (e : nbE T) w :
  steps (trace (handle env e w).2)
  = steps (trace w) ++ match request_step e with Some s => [s] | None => [] end.
Proof.
  unfold steps.
  destruct e; cbn [handle request_step].
  - destruct (ns w !! x); cbn; rewrite app_nil_r; reflexivity.
  - cbn; rewrite app_nil_r; reflexivity.
  - cbn; rewrite app_nil_r; reflexivity.
  - cbn; rewrite app_nil_r; reflexivity.
  - destruct (sdk_answer env _ c _) as [[a outs]|ex]; cbn [snd trace];
      rewrite omap_app; destruct c; reflexivity.
  - destruct (shell_answer env _ c _) as [out outs]; cbn [snd trace];
      rewrite omap_app; destruct c; reflexivity.
  - destruct (ns w !! x); cbn [snd trace]; rewrite ?omap_app; cbn; rewrite app_nil_r; reflexivity.
  - cbn [snd trace]; rewrite omap_app; cbn; reflexivity.
  - cbn [snd trace]; rewrite omap_app; cbn; reflexivity.
  - cbn [snd trace]; rewrite omap_app; cbn; reflexivity.
Qed.


Lemma expected_next s : expected s ++ [s] `prefix_of` [Submitted; Waited; Downloaded].
Proof.
  destruct s; cbn.
  - exists [Waited; Downloaded]. reflexivity.
  - exists [Downloaded]. reflexivity.
  - exists []. reflexivity.
Qed.

Lemma in_order_final_world {R} (Q : R -> world -> Prop) X fuel :
  forall (t : itree nbE R) w,
    wp env in_order Q X fuel t w ->
    steps (trace w) `prefix_of` [Submitted; Waited; Downloaded] ->
    steps (trace (final_world env fuel t w)) `prefix_of` [Submitted; Waited; Downloaded].
Proof.
  induction fuel as [|f IH]; intros t w H Hw; [exact Hw|].
  rewrite wp_S in H. cbn [final_world].
  destruct (observe t) as [r|t'|T e k]; [exact Hw | apply IH; assumption |].
  destruct H as [HK H].
  assert (Hnext : steps (trace (handle env e w).2)
                  `prefix_of` [Submitted; Waited; Downloaded]).
  { rewrite steps_handle. unfold in_order in HK.
    destruct (request_step e) as [s|]; [|rewrite app_nil_r; exact Hw].
    rewrite HK. apply expected_next. }
  destruct (handle env e w) as [[x|ex] w']; [|exact Hnext].
  apply IH; [exact H | exact Hnext].
Qed.

Lemma wpa_run_phases (K : forall T : Type, nbE T -> world -> Prop)
    (P : nat -> world -> Prop) (X : exn -> world -> Prop) cells :
  forall i,
    (forall j c, cells !! j = Some c ->
       forall w, P (i + j)%nat w -> wpa env K c (fun _ => P (S (i + j))) X w) ->
    forall w, P i w -> wpa env K (run_all cells) (fun _ => P (i + List.length cells)%nat) X w.
Proof.
  induction cells as [|c cells IH]; intros i Hc w Hw; cbn [run_all List.length].
  - apply wpa_ret. rewrite Nat.add_0_r. exact Hw.
  - apply wpa_bind. eapply wpa_conseq; [| |apply (Hc 0%nat c eq_refl)].
    + intros r w1 H1. rewrite Nat.add_0_r in H1.
      replace (i + S (List.length cells))%nat with (S i + List.length cells)%nat by lia.
      apply IH; [|exact H1]. intros j c' Hj w' Hw'.
      replace (S i + j)%nat with (i + S j)%nat in * by lia.
      apply (Hc (S j) c' Hj w' Hw').
    + auto.
    + rewrite Nat.add_0_r. exact Hw.
Qed.

Lemma steps_emit ev w :
  steps (trace (emit ev w))
  = steps (trace w) ++ match step_of ev with Some s => [s] | None => [] end.
Proof. unfold steps. cbn [emit trace]. rewrite omap_app. f_equal. Qed.

Lemma steps_answered c outs w :
  steps (trace (answered c outs w))
  = steps (trace w) ++ match step_of (EvCall c) with Some s => [s] | None => [] end.
Proof. unfold steps. cbn [answered trace]. rewrite omap_app. f_equal. Qed.

Lemma steps_failed c w :
  steps (trace (failed w c))
  = steps (trace w) ++ match step_of (EvCall c) with Some s => [s] | None => [] end.
Proof. unfold steps. cbn [failed trace]. rewrite omap_app. f_equal. Qed.

Lemma steps_shelled c out outs w :
  steps (trace (shelled c out outs w))
  = steps (trace w) ++ match step_of (EvShell c out) with Some s => [s] | None => [] end.
Proof. unfold steps. cbn [shelled trace]. rewrite omap_app. f_equal. Qed.

Lemma steps_stored x v w : steps (trace (stored x v w)) = steps (trace w).
Proof. unfold steps. cbn [stored trace]. rewrite omap_app. cbn. apply app_nil_r. Qed.

Lemma steps_bind_name x v w : steps (trace (bind_name x v w)) = steps (trace w).
Proof. reflexivity. Qed.


Ltac steps_solve :=
  repeat first [ rewrite steps_bind_name | rewrite steps_emit | rewrite steps_answered
               | rewrite steps_shelled | rewrite steps_stored | rewrite steps_failed ];
  cbn [step_of app];
  rewrite ?app_nil_r;
  first [ assumption | reflexivity
        | match goal with H : steps (trace ?w) = _ |- _ => rewrite H; reflexivity end ].

Ltac order_cell :=
  repeat wp_step ltac:(first [exact I | assumption]) ltac:(exact I);
  repeat steps_solve.


Lemma training_cells_in_order j c :
  Training.cells !! j = Some c ->
  forall w, steps (trace w) = phase j ->
    wpa env in_order c (fun _ w' => steps (trace w') = phase (S j)) (fun _ _ => True) w.
Proof.
  unfold Training.cells.
  by_index j; intros [= <-] w Hw; cbn in Hw |- *.
  - unfold Training.cell_pip. order_cell.
  - unfold Training.cell_ls. order_cell.
  - unfold Training.cell_session. order_cell.
  - unfold Training.cell_input. order_cell.
  - unfold Training.cell_metrics. order_cell.
  - unfold Training.cell_hyperparameters. order_cell.
  - unfold Training.cell_ls. order_cell.
  - unfold Training.cell_pygmentize. order_cell.
  - unfold Training.cell_estimator. order_cell.
  - unfold Training.cell_experiment. order_cell.
  - unfold Training.cell_trial. order_cell.
  - unfold Training.cell_experiment_config. order_cell.
  - unfold Training.cell_fit. order_cell.
  - unfold Training.cell_job_name. order_cell.
  - unfold Training.cell_review_job, Training.show_html. cbn [load_strs]. order_cell.
  - unfold Training.cell_review_logs, Training.show_html. cbn [load_strs]. order_cell.
  - unfold Training.cell_review_output, Training.show_html. cbn [load_strs]. order_cell.
  - unfold Training.cell_wait. order_cell.
  - unfold Training.cell_copy_model. order_cell.
  - unfold Training.cell_extract. order_cell.
  - unfold Training.cell_inspect. order_cell.
  - unfold Training.cell_user_id. order_cell.
  - unfold Training.cell_predict. order_cell.
  - unfold Training.cell_lineage. order_cell.
  - unfold Training.cell_lineage_show. order_cell.
  - unfold Training.cell_lineage_show. order_cell.
  - unfold Training.cell_describe. order_cell.
  - unfold Training.cell_store. order_cell.
Qed.


Lemma notebook_in_order dir stores :
  wpa env in_order Training.notebook
    (fun _ w => steps (trace w) = [Submitted; Waited; Downloaded])
    (fun _ _ => True) (fresh_kernel dir stores).
Proof.
  apply (wpa_run_phases in_order (fun i w => steps (trace w) = phase i)
           (fun _ _ => True) Training.cells 0%nat).
  - intros j c. apply training_cells_in_order.
  - reflexivity.
Qed.

End Order.



(** ** What the training notebook does with the identifiers it holds *)

Section Identifiers.
Context (env : environment).

Lemma runs_bang c out outs w :
  shell_answer env (calls w) c (read_all (shell_reads (cwd w) c) (shared w)) = (out, outs) ->
  runs env (bang c) w (Done out (shelled c out outs w)).
Proof. intros H. apply runs_trigger. unfold handle. rewrite H. reflexivity. Qed.

Lemma runs_expand x s w : ns w !! x = Some (VStr s) -> runs env (expand x) w (Done s w).
Proof.
  intros H. eapply runs_bind; [apply runs_trigger; reflexivity|].
  cbn beta. rewrite H. apply runs_ret.
Qed.

Lemma copy_model_uses_names w bucket job :
  ns w !! "bucket" = Some (VStr bucket) ->
  ns w !! "recommender_training_job_name" = Some (VStr job) ->
  exists out outs,
    runs env Training.cell_copy_model w
      (Done tt (shelled
                  (sh_aws_s3_cp
                     ("s3://" +:+ bucket +:+ "/" +:+ job +:+ "/output/model.tar.gz")
                     "./model.tar.gz") out outs w)).
Proof.
  intros Hb Hj.
  set (c := sh_aws_s3_cp ("s3://" +:+ bucket +:+ "/" +:+ job +:+ "/output/model.tar.gz")
              "./model.tar.gz").
  destruct (shell_answer env (calls w) c (read_all (shell_reads (cwd w) c) (shared w)))
    as [out outs] eqn:Ha.
  exists out, outs. unfold Training.cell_copy_model.
  eapply runs_bind; [apply runs_expand, Hb|].
  eapply runs_bind; [apply runs_expand, Hj|].
  eapply runs_bind; [apply runs_bang, Ha | apply runs_ret].
Qed.

Lemma review_job_wp w region job :
  ns w !! "region" = Some (VStr region) ->
  ns w !! "recommender_training_job_name" = Some (VStr job) ->
  wpa env unguarded Training.cell_review_job
    (fun _ w' => exists text,
       format (Training.review_link
                 "https://console.aws.amazon.com/sagemaker/home?region={}#/jobs/{}"
                 "Training Job</a></b>") [region; job] = Ok text
       /\ trace w' = trace w ++ [EvDisplay (VObj "IPython.display.HTML" [("data", VStr text)])])
    (fun _ _ => True) w.
Proof.
  intros Hr Hj. unfold Training.cell_review_job, Training.show_html. cbn [load_strs].
  repeat (wp_step ltac:(exact I) ltac:(exact I); resolve_lookups).
  eexists. split; [eassumption | reflexivity].
Qed.

Lemma trial_wp w experiment :
  ns w !! "recommender_experiment_name" = Some (VStr experiment) ->
  wpa env unguarded Training.cell_trial
    (fun _ w' => exists name created,
       trace w' = trace w ++ [EvCall time_time; EvCall (Trial_create name experiment);
                              EvPrint (VStr created)])
    (fun _ _ => True) w.
Proof.
  intros He. unfold Training.cell_trial.
  repeat (wp_step ltac:(exact I) ltac:(exact I); resolve_lookups).
  ns_simpl. eexists _, _. rewrite <- !app_assoc. reflexivity.
Qed.
End Identifiers.

Lemma job_name_reaches_requests_counterexample :
  Demo.training_requests "job-a" !! 17%nat
  = Some (EvShell
            (sh_aws_s3_cp
               "s3://sagemaker-us-east-1-000000000000/job-a/output/model.tar.gz"
               "./model.tar.gz") [])
  /\ Demo.training_requests "job-b" !! 17%nat
     = Some (EvShell
               (sh_aws_s3_cp
                  "s3://sagemaker-us-east-1-000000000000/job-b/output/model.tar.gz"
                  "./model.tar.gz") []).
Proof. split; by_vm. Qed.

(** C4, as amended: the identifiers the training notebook holds are shown
    and are also passed on.  The stored bucket and training-job name make
    up the source of the model download, the stored experiment name is the
    experiment of the trial that is created, and region and job name are
    formatted into the link that is displayed. *)
Theorem stored_identifiers_are_passed_on env w :
  (forall bucket job,
     ns w !! "bucket" = Some (VStr bucket) ->
     ns w !! "recommender_training_job_name" = Some (VStr job) ->
     exists out outs,
       runs env Training.cell_copy_model w
         (Done tt (shelled
                     (sh_aws_s3_cp
                        ("s3://" +:+ bucket +:+ "/" +:+ job +:+ "/output/model.tar.gz")
                        "./model.tar.gz") out outs w)))
  /\ (forall experiment w',
        ns w !! "recommender_experiment_name" = Some (VStr experiment) ->
        runs env Training.cell_trial w (Done tt w') ->
        exists name created,
          trace w' = trace w ++ [EvCall time_time; EvCall (Trial_create name experiment);
                                 EvPrint (VStr created)])
  /\ (forall region job w',
        ns w !! "region" = Some (VStr region) ->
        ns w !! "recommender_training_job_name" = Some (VStr job) ->
        runs env Training.cell_review_job w (Done tt w') ->
        exists text,
          format (Training.review_link
                    "https://console.aws.amazon.com/sagemaker/home?region={}#/jobs/{}"
                    "Training Job</a></b>") [region; job] = Ok text
          /\ trace w' = trace w
               ++ [EvDisplay (VObj "IPython.display.HTML" [("data", VStr text)])]).
Proof.
  split; [|split].
  - intros bucket job. apply copy_model_uses_names.
  - intros experiment w' He Hrun.
    exact (wpa_runs env unguarded _ _ _ _ _ (trial_wp env w experiment He) Hrun).
  - intros region job w' Hr Hj Hrun.
    exact (wpa_runs env unguarded _ _ _ _ _ (review_job_wp env w region job Hr Hj) Hrun).
Qed.

Lemma stored_identifiers_are_passed_on_witness :
  exists out outs,
    runs (Demo.env_ok 0) Training.cell_copy_model Demo.trained
      (Done tt (shelled
                  (sh_aws_s3_cp
                     ("s3://" +:+ "sagemaker-us-east-1-000000000000" +:+ "/"
                        +:+ "tensorflow-training-2020-11-01-00-00-00-000"
                        +:+ "/output/model.tar.gz")
                     "./model.tar.gz") out outs Demo.trained)).
Proof.
  apply (proj1 (stored_identifiers_are_passed_on (Demo.env_ok 0) Demo.trained)).
  - by_vm.
  - by_vm.
Defined.

(** ** The scripts do not read what the others write *)

Lemma length_append a b :
  String.length (a +:+ b) = (String.length a + String.length b)%nat.
Proof. induction a as [|c a IH]; cbn; [reflexivity | rewrite IH; reflexivity]. Qed.

Lemma substring_append_skip a b n m :
  substring (String.length a + n) m (a +:+ b) = substring n m b.
Proof. induction a as [|c a IH]; cbn; [reflexivity | exact IH]. Qed.

Lemma substring_zero_zero s : substring 0 0 s = "".
Proof. destruct s; reflexivity. Qed.

Lemma substring_all s : substring 0 (String.length s) s = s.
Proof. induction s as [|c s IH]; cbn; [reflexivity | rewrite IH; reflexivity]. Qed.

Lemma substring_split s : forall k, (k <= String.length s)%nat ->
  s = substring 0 k s +:+ substring k (String.length s - k) s.
Proof.
  induction s as [|c s IH]; intros k Hk.
  - cbn in Hk. assert (k = 0%nat) as -> by lia. reflexivity.
  - destruct k as [|k].
    + rewrite substring_zero_zero, Nat.sub_0_r, substring_all. reflexivity.
    + cbn. f_equal. apply IH. cbn in Hk. lia.
Qed.

Lemma endswith_append a b suf :
  (String.length suf <= String.length b)%nat ->
  endswith (a +:+ b) suf = endswith b suf.
Proof.
  intros H. unfold endswith. rewrite length_append.
  replace (String.length a + String.length b - String.length suf)%nat
    with (String.length a + (String.length b - String.length suf))%nat by lia.
  rewrite substring_append_skip. f_equal.
  destruct (Nat.leb_spec (String.length suf) (String.length b)); [|lia].
  apply Nat.leb_le. lia.
Qed.

Lemma endswith_cons c s suf :
  (String.length suf <= String.length s)%nat ->
  endswith (String c s) suf = endswith s suf.
Proof. intros H. apply (endswith_append (String c "") s suf H). Qed.

Lemma endswith_suffix s suf :
  endswith s suf = true -> exists p, s = p +:+ suf.
Proof.
  unfold endswith. remember (String.length suf) as m eqn:Hm.
  intros H. apply andb_true_iff in H as [Hle Heq].
  apply Nat.leb_le in Hle. apply String.eqb_eq in Heq.
  exists (substring 0 (String.length s - m) s). rewrite <- Heq.
  etrans; [apply (substring_split s (String.length s - m)); lia|].
  do 2 f_equal. lia.
Qed.

Lemma suffix_endswith p suf : endswith (p +:+ suf) suf = true.
Proof.
  rewrite endswith_append by lia. unfold endswith.
  rewrite Nat.leb_refl, Nat.sub_diag. cbn [andb].
  apply String.eqb_eq.
  apply substring_all.
Qed.

Lemma append_suffixes : forall p1 p2 s1 s2,
  p1 +:+ s1 = p2 +:+ s2 -> (exists q, s1 = q +:+ s2) \/ (exists q, s2 = q +:+ s1).
Proof.
  induction p1 as [|c p1 IH]; intros p2 s1 s2 H.
  - left. exists p2. exact H.
  - destruct p2 as [|c' p2].
    + right. exists (String c p1). symmetry. exact H.
    + cbn in H. injection H as _ H. apply (IH p2 s1 s2 H).
Qed.

(** Two suffixes of one string: one of them ends with the other. *)
Lemma endswith_both u s1 s2 :
  endswith u s1 = true -> endswith u s2 = true ->
  endswith s1 s2 || endswith s2 s1 = true.
Proof.
  intros H1 H2. apply endswith_suffix in H1 as [p1 H1], H2 as [p2 H2].
  rewrite H1 in H2. apply append_suffixes in H2 as [[q ->]|[q ->]];
    rewrite suffix_endswith; [reflexivity | apply orb_true_r].
Qed.

Lemma append_assoc a b c : (a +:+ b) +:+ c = a +:+ (b +:+ c).
Proof. induction a as [|x a IH]; cbn; [reflexivity | rewrite IH; reflexivity]. Qed.

Lemma path_loc_s3 d x : path_loc d ("s3://" +:+ x) = S3Uri ("s3://" +:+ x).
Proof. unfold path_loc, startswith. destruct x; reflexivity. Qed.

Lemma path_loc_s3_cons d x :
  path_loc d (String "s" (String "3" (String ":" (String "/" (String "/" x)))))
  = S3Uri (String "s" (String "3" (String ":" (String "/" (String "/" x))))).
Proof. apply (path_loc_s3 d x). Qed.

Lemma write_all_lookup_outside (W : region) ls : forall vs m l,
  forallb W ls = true -> W l = false -> write_all ls vs m !! l = m !! l.
Proof.
  unfold write_all. induction ls as [|l0 ls IH]; intros vs m l Hls Hl; [reflexivity|].
  destruct vs as [|v vs]; [reflexivity|].
  cbn in Hls. apply andb_true_iff in Hls as [H0 Hls]. cbn.
  rewrite lookup_insert_ne by (intros ->; congruence).
  apply IH; assumption.
Qed.

Lemma write_all_lookup_ext ls : forall vs m1 m2 l,
  m1 !! l = m2 !! l -> write_all ls vs m1 !! l = write_all ls vs m2 !! l.
Proof.
  unfold write_all. induction ls as [|l0 ls IH]; intros vs m1 m2 l H; [exact H|].
  destruct vs as [|v vs]; [exact H|]. cbn.
  destruct (decide (l0 = l)) as [->|Hne].
  - rewrite !lookup_insert_eq. reflexivity.
  - rewrite !lookup_insert_ne by exact Hne. apply IH, H.
Qed.

Lemma read_all_ext (R : region) ls m1 m2 :
  forallb R ls = true -> (forall l, R l = true -> m1 !! l = m2 !! l) ->
  read_all ls m1 = read_all ls m2.
Proof.
  unfold read_all. intros Hls H. induction ls as [|l ls IH]; [reflexivity|].
  cbn in Hls. apply andb_true_iff in Hls as [Hl Hls]. cbn.
  rewrite (H l Hl), (IH Hls). reflexivity.
Qed.

Section Frames.
Context (env : environment) (R W : region).

(** A request within its footprint is answered alike in two worlds that
    agree on [R], and leaves them agreeing. *)
Lemma handle_agree {T} (e : nbE T) w1 w2 :
  within R W T e w1 -> agree R w1 w2 ->
  (handle env e w1).1 = (handle env e w2).1
  /\ agree R (handle env e w1).2 (handle env e w2).2.
Proof.
  intros HK (Hns & Hcwd & Hcalls & Htr & Hsh).
  destruct w1 as [ns1 cwd1 sh1 calls1 tr1], w2 as [ns2 cwd2 sh2 calls2 tr2].
  cbn in Hns, Hcwd, Hcalls, Htr, Hsh. subst ns2 cwd2 calls2 tr2.
  destruct e; cbn [handle ns cwd shared calls trace within] in *.
  - destruct (ns1 !! x); (split; [reflexivity | repeat split; assumption]).
  - split; [reflexivity | repeat split; assumption].
  - split; [reflexivity | repeat split; assumption].
  - split; [reflexivity | repeat split; assumption].
  - apply andb_true_iff in HK as [HR HW].
    rewrite (read_all_ext R _ sh1 sh2 HR Hsh).
    destruct (sdk_answer env calls1 c _) as [[a outs]|ex]; cbn.
    + split; [reflexivity|]. repeat split. cbn. intros l Hl.
      apply write_all_lookup_ext, Hsh, Hl.
    + split; [reflexivity | repeat split; assumption].
  - apply andb_true_iff in HK as [HR HW].
    rewrite (read_all_ext R _ sh1 sh2 HR Hsh).
    destruct (shell_answer env calls1 c _) as [out outs]; cbn.
    split; [reflexivity|]. repeat split. cbn. intros l Hl.
    apply write_all_lookup_ext, Hsh, Hl.
  - destruct (ns1 !! x) as [v|]; cbn.
    + split; [reflexivity|]. repeat split. cbn. intros l Hl.
      destruct (decide (StoreVar x = l)) as [<-|Hne].
      * rewrite !lookup_insert_eq. reflexivity.
      * rewrite !lookup_insert_ne by exact Hne. apply Hsh, Hl.
    + split; [reflexivity | repeat split; assumption].
  - split; [reflexivity | repeat split; assumption].
  - split; [reflexivity | repeat split; assumption].
  - split; [reflexivity | repeat split; assumption].
Qed.

(** A request within its footprint leaves the stores outside [W] as
    they are. *)
Lemma handle_outside {T} (e : nbE T) w l :
  within R W T e w -> W l = false ->
  shared (handle env e w).2 !! l = shared w !! l.
Proof.
  intros HK Hl. destruct e; cbn [handle within] in *; try reflexivity.
  - destruct (ns w !! x); reflexivity.
  - apply andb_true_iff in HK as [_ HW].
    destruct (sdk_answer env _ c _) as [[a outs]|ex]; cbn; [|reflexivity].
    apply (write_all_lookup_outside W); assumption.
  - apply andb_true_iff in HK as [_ HW].
    destruct (shell_answer env _ c _) as [out outs]; cbn.
    apply (write_all_lookup_outside W); assumption.
  - destruct (ns w !! x); cbn; [|reflexivity].
    apply lookup_insert_ne. intros <-. congruence.
Qed.

Lemma within_final_world_outside {A} (Q : A -> world -> Prop) X fuel :
  forall (t : itree nbE A) w l,
    wp env (within R W) Q X fuel t w -> W l = false ->
    shared (final_world env fuel t w) !! l = shared w !! l.
Proof.
  induction fuel as [|f IH]; intros t w l H Hl; [reflexivity|].
  rewrite wp_S in H. cbn [final_world].
  destruct (observe t) as [r|t'|T e k]; [reflexivity | apply IH; assumption |].
  destruct H as [HK H].
  pose proof (handle_outside e w l HK Hl) as Hstep.
  destruct (handle env e w) as [[x|ex] w']; cbn in Hstep; [|exact Hstep].
  rewrite (IH _ _ _ H Hl). exact Hstep.
Qed.

Lemma within_exec_agree {A} (Q : A -> world -> Prop) X fuel :
  forall (t : itree nbE A) w1 w2,
    wp env (within R W) Q X fuel t w1 -> agree R w1 w2 ->
    shown (exec env fuel t w1) = shown (exec env fuel t w2)
    /\ agree R (final_world env fuel t w1) (final_world env fuel t w2).
Proof.
  induction fuel as [|f IH]; intros t w1 w2 H Hw; [split; [reflexivity | exact Hw]|].
  rewrite wp_S in H. cbn [final_world exec].
  destruct (observe t) as [r|t'|T e k].
  - split; [|exact Hw]. destruct Hw as (Hns & _ & _ & Htr & _). cbn. rewrite Hns, Htr. reflexivity.
  - apply IH; assumption.
  - destruct H as [HK H].
    destruct (handle_agree e w1 w2 HK Hw) as [Hres Hnext].
    destruct (handle env e w1) as [r1 w1'], (handle env e w2) as [r2 w2'].
    cbn in Hres, Hnext. subst r2. destruct r1 as [x|ex].
    + apply IH; assumption.
    + split; [|exact Hnext].
      destruct Hnext as (Hns & _ & _ & Htr & _). cbn. rewrite Hns, Htr. reflexivity.
Qed.

End Frames.

#[local] Arguments endswith : simpl never.

Lemma endswith_s3 x suf :
  (String.length suf <= String.length x)%nat ->
  endswith (String "s" (String "3" (String ":" (String "/" (String "/" x))))) suf
  = endswith x suf.
Proof. intros H. apply (endswith_append "s3://" x suf H). Qed.

Ltac len_side :=
  repeat first [ rewrite length_append | progress cbn [String.length] ]; lia.

(* closed tests and paths are evaluated, those on names of the platform
   are rewritten *)
Ltac eval_closed :=
  repeat match goal with
  | |- context [endswith ?a ?b] =>
      let v := eval vm_compute in (endswith a b) in
      lazymatch v with true => idtac | false => idtac end;
      change (endswith a b) with v
  | |- context [basename ?p] =>
      let v := eval vm_compute in (basename p) in
      lazymatch v with
      | context [basename_go] => fail
      | _ => change (basename p) with v
      end
  | |- context [path_loc ?d ?p] =>
      let v := eval cbv in (path_loc d p) in
      lazymatch v with File _ _ => idtac | S3Uri _ => idtac | AbsFile _ => idtac end;
      change (path_loc d p) with v
  | |- context [String.eqb ?a ?b] =>
      let v := eval vm_compute in (String.eqb a b) in
      lazymatch v with true => idtac | false => idtac end;
      change (String.eqb a b) with v
  | |- context [startswith ?a ?b] =>
      let v := eval vm_compute in (startswith a b) in
      lazymatch v with true => idtac | false => idtac end;
      change (startswith a b) with v
  end.

Ltac region_step :=
  first [ progress unfold cp_target, s3_uri
        | rewrite path_loc_s3
        | rewrite path_loc_s3_cons
        | rewrite String.eqb_refl
        | rewrite append_assoc
        | rewrite endswith_s3 by len_side
        | rewrite endswith_append by len_side
        | rewrite endswith_cons by len_side
        | rewrite orb_true_r
        | progress eval_closed
        | progress cbn [call_reads call_writes shell_reads shell_writes fmap list_fmap
                        forallb reads writes andb orb String.append] ].

Ltac btrue :=
  lazymatch goal with
  | |- ?a && ?b = true => apply andb_true_iff; split; btrue
  | |- ?a || ?b = true =>
      apply orb_true_iff; first [ right; solve [btrue] | left; solve [btrue] ]
  | |- String.eqb ?a ?a = true => apply String.eqb_refl
  | |- endswith _ _ = true =>
      repeat first [ rewrite endswith_s3 by len_side
                   | rewrite endswith_append by len_side
                   | rewrite endswith_cons by len_side ];
      vm_compute; reflexivity
  | |- _ => vm_compute; reflexivity
  end.

Ltac region_solve := repeat region_step; btrue.

Ltac footprint Hcwd :=
  first [ exact I
        | cbn [within cwd bind_name emit answered shelled stored failed];
          rewrite ?Hcwd; region_solve ].

Ltac fact_solve :=
  unfold attr_of in *;
  cbn [ns cwd bind_name emit answered shelled stored failed];
  rewrite ?lookup_insert_ne by done;
  first [ exact I | assumption | rewrite lookup_insert_eq; cbn; reflexivity ].

Ltac phase_solve Hcwd :=
  first [ cbn [ns cwd bind_name emit answered shelled stored failed]; exact Hcwd
        | split; [cbn [ns cwd bind_name emit answered shelled stored failed]; exact Hcwd|];
          cbn [Nat.leb andb]; repeat split; fact_solve ].

(* the text a template formats to, where a path is made of it *)
Ltac resolve_formats :=
  repeat match goal with
  | H : format _ _ = Ok _ |- _ => progress (unfold format in H; cbn in H)
  end;
  resolve_lookups.

Ltac within_cell Hcwd :=
  repeat (wp_step ltac:(footprint Hcwd) ltac:(exact I); resolve_lookups);
  try phase_solve Hcwd.

Ltac within_cell_formats Hcwd :=
  repeat (wp_step ltac:(footprint Hcwd) ltac:(exact I); resolve_formats);
  try phase_solve Hcwd.

Section TrainingFootprint.
Context (env : environment) (dir : string).

Lemma training_cells_within j c :
  Training.cells !! j = Some c ->
  forall w, training_phase dir j w ->
    wpa env (within (reads training_submission dir) (writes training_submission dir)) c
      (fun _ => training_phase dir (S j)) (fun _ _ => True) w.
Proof.
  unfold Training.cells.
  by_index j; intros [= <-] w (Hcwd & Hin & Hest); cbn in Hin, Hest.
  - unfold Training.cell_pip. within_cell Hcwd.
  - unfold Training.cell_ls. within_cell Hcwd.
  - unfold Training.cell_session. within_cell Hcwd.
  - unfold Training.cell_input. within_cell Hcwd.
  - unfold Training.cell_metrics. within_cell Hcwd.
  - unfold Training.cell_hyperparameters. within_cell Hcwd.
  - unfold Training.cell_ls. within_cell Hcwd.
  - unfold Training.cell_pygmentize. within_cell Hcwd.
  - unfold Training.cell_estimator. within_cell Hcwd.
  - unfold Training.cell_experiment. within_cell Hcwd.
  - unfold Training.cell_trial. within_cell Hcwd.
  - unfold Training.cell_experiment_config. within_cell Hcwd.
  - unfold Training.cell_fit.
    do 2 (wp_step ltac:(footprint Hcwd) ltac:(exact I)).
    unfold attr_of in Hest. rewrite H in Hest.
    do 2 (wp_step ltac:(footprint Hcwd) ltac:(exact I)).
    unfold attr_of in Hin. rewrite H0 in Hin.
    do 4 (wp_step ltac:(footprint Hcwd) ltac:(exact I)).
    destruct (getattr v "source_dir") as [r|]; [|discriminate Hest].
    injection Hest as ->. cbn in H2. injection H2 as <-.
    do 2 (wp_step ltac:(footprint Hcwd) ltac:(exact I)).
    destruct (getattr v0 "s3_data") as [r|]; [|discriminate Hin].
    injection Hin as ->. cbn in H2. injection H2 as <-.
    within_cell Hcwd.
  - unfold Training.cell_job_name. within_cell Hcwd.
  - unfold Training.cell_review_job, Training.show_html. cbn [load_strs]. within_cell Hcwd.
  - unfold Training.cell_review_logs, Training.show_html. cbn [load_strs]. within_cell Hcwd.
  - unfold Training.cell_review_output, Training.show_html. cbn [load_strs]. within_cell Hcwd.
  - unfold Training.cell_wait. within_cell Hcwd.
  - unfold Training.cell_copy_model. within_cell Hcwd.
  - unfold Training.cell_extract. within_cell Hcwd.
  - unfold Training.cell_inspect. within_cell Hcwd.
  - unfold Training.cell_user_id. within_cell Hcwd.
  - unfold Training.cell_predict. within_cell Hcwd.
  - unfold Training.cell_lineage. within_cell Hcwd.
  - unfold Training.cell_lineage_show. within_cell Hcwd.
  - unfold Training.cell_lineage_show. within_cell Hcwd.
  - unfold Training.cell_describe. within_cell Hcwd.
  - unfold Training.cell_store. within_cell Hcwd.
Qed.
End TrainingFootprint.

Section PipelineFootprint.
Context (env : environment) (dir : string).

Lemma pipeline_cells_within j c :
  Pipeline.cells !! j = Some c ->
  forall w, plain_phase dir j w ->
    wpa env (within (reads pipeline_definition dir) (writes pipeline_definition dir)) c
      (fun _ => plain_phase dir (S j)) (fun _ _ => True) w.
Proof.
  unfold Pipeline.cells, plain_phase.
  by_index j; intros [= <-] w Hcwd.
  - unfold Pipeline.cell_pip_boto3. within_cell Hcwd.
  - unfold Pipeline.cell_pip_kfp. within_cell Hcwd.
  - unfold Pipeline.cell_restart. within_cell Hcwd.
  - unfold Pipeline.cell_account. within_cell Hcwd.
  - unfold Pipeline.cell_copy_data. within_cell Hcwd.
  - unfold Pipeline.cell_import_kfp. within_cell Hcwd.
  - unfold Pipeline.load_component. within_cell Hcwd.
  - unfold Pipeline.load_component. within_cell Hcwd.
  - unfold Pipeline.load_component. within_cell Hcwd.
  - unfold Pipeline.load_component. within_cell Hcwd.
  - unfold Pipeline.load_component. within_cell Hcwd.
  - unfold Pipeline.cell_registry. within_cell Hcwd.
  - unfold Pipeline.cell_processing_code. within_cell_formats Hcwd.
  - unfold Pipeline.cell_tar. within_cell Hcwd.
  - unfold Pipeline.cell_training_code. within_cell_formats Hcwd.
  - unfold Pipeline.cell_def_processing, Pipeline.def_function. within_cell Hcwd.
  - unfold Pipeline.cell_def_training_input, Pipeline.def_function. within_cell Hcwd.
  - unfold Pipeline.cell_def_pipeline. within_cell Hcwd.
  - unfold Pipeline.cell_compile, Pipeline.compile, Pipeline.mnist_classification. within_cell Hcwd.
  - unfold Pipeline.cell_ls_package. within_cell Hcwd.
  - unfold Pipeline.cell_unzip. within_cell Hcwd.
  - unfold Pipeline.cell_cat. within_cell Hcwd.
  - unfold Pipeline.cell_deploy. within_cell Hcwd.
  - unfold Pipeline.cell_predict. within_cell Hcwd.
Qed.
End PipelineFootprint.

Section FeaturesFootprint.
Context (py : python) (env : environment) (dir : string).

Lemma features_cells_within j c :
  Features.cells py !! j = Some c ->
  forall w, plain_phase dir j w ->
    wpa env (within (reads feature_experimentation dir) (writes feature_experimentation dir)) c
      (fun _ => plain_phase dir (S j)) (fun _ _ => True) w.
Proof.
  unfold Features.cells, plain_phase.
  by_index j; intros [= <-] w Hcwd.
  - unfold Features.cell_imports. within_cell Hcwd.
  - unfold Features.cell_load. within_cell Hcwd.
  - unfold Features.cell_vocabularies. within_cell Hcwd.
  - unfold Features.def_class. within_cell Hcwd.
  - unfold Features.def_class. within_cell Hcwd.
  - unfold Features.def_class. within_cell Hcwd.
  - unfold Features.cell_split. within_cell Hcwd.
  - unfold Features.cell_experiment. within_cell Hcwd.
  - unfold Features.cell_experiment. within_cell Hcwd.
Qed.
End FeaturesFootprint.

Section CelebrityFootprint.
Context (py : python) (env : environment) (dir : string).

Lemma poll_within w :
  celebrity_phase dir 14 w ->
  wpa env (within (reads celebrity_client dir) (writes celebrity_client dir))
    Rekognition.poll (fun _ => celebrity_phase dir 14) (fun _ _ => True) w.
Proof.
  intros (Hcwd & Htemp & Himage & Hvideo & Hcustom).
  cbn in Htemp, Himage, Hvideo, Hcustom.
  unfold Rekognition.poll. within_cell Hcwd.
Qed.

Lemma celebrity_cells_within j c :
  Rekognition.cells py !! j = Some c ->
  forall w, celebrity_phase dir j w ->
    wpa env (within (reads celebrity_client dir) (writes celebrity_client dir)) c
      (fun _ => celebrity_phase dir (S j)) (fun _ _ => True) w.
Proof.
  unfold Rekognition.cells.
  by_index j; intros [= <-] w (Hcwd & Htemp & Himage & Hvideo & Hcustom);
    cbn in Htemp, Himage, Hvideo, Hcustom.
  - unfold Rekognition.cell_imports. within_cell Hcwd.
  - unfold Rekognition.cell_session. within_cell Hcwd.
  - unfold Rekognition.cell_region. within_cell Hcwd.
  - unfold Rekognition.cell_clients. within_cell Hcwd.
  - unfold Rekognition.cell_bucketName. within_cell Hcwd.
  - unfold Rekognition.cell_tempFolder. within_cell Hcwd.
  - unfold Rekognition.cell_imageName. within_cell Hcwd.
  - unfold Rekognition.show_image. within_cell Hcwd.
  - unfold Rekognition.cell_recognize, Rekognition.recognize. within_cell Hcwd.
  - unfold Rekognition.show_value. within_cell Hcwd.
  - unfold Rekognition.cell_def_drawBoundingBoxes. within_cell Hcwd.
  - unfold Rekognition.cell_draw_celebrities, Rekognition.drawBoundingBoxes. within_cell Hcwd.
  - unfold Rekognition.cell_videoName. within_cell Hcwd.
  - unfold Rekognition.cell_start. within_cell Hcwd.
  - unfold Rekognition.cell_wait. wp_norm. apply wpa_bind.
    eapply wpa_conseq with (X := fun _ _ => True);
      [ | intros; exact I
        | apply (poll_within w); repeat split; assumption ].
    clear w Hcwd Htemp Himage Hvideo Hcustom. intros r w Hw. cbv beta.
    apply wpa_bind.
    eapply wpa_conseq with (X := fun _ _ => True);
      [ | intros; exact I
        | apply (wpa_iter env _ Rekognition.wait_step
                   (fun _ => celebrity_phase dir 14) (fun _ => celebrity_phase dir 14));
          [|exact Hw] ].
    + clear r w Hw. intros r w (Hcwd & Htemp & Himage & Hvideo & Hcustom).
      cbn in Htemp, Himage, Hvideo, Hcustom. cbv beta.
      unfold Rekognition.load_job. within_cell Hcwd.
    + clear r w Hw. intros [] w (Hcwd & Htemp & Himage & Hvideo & Hcustom).
      cbn in Htemp, Himage, Hvideo, Hcustom.
      unfold Rekognition.wait_step, Rekognition.load_job, Rekognition.poll.
      within_cell Hcwd.
  - unfold Rekognition.show_value. within_cell Hcwd.
  - unfold Rekognition.cell_celebrity_names, Rekognition.load_job. within_cell Hcwd.
  - unfold Rekognition.cell_video_player. within_cell Hcwd.
  - unfold Rekognition.cell_customCelebrityImageName. within_cell Hcwd.
  - unfold Rekognition.show_image. within_cell Hcwd.
  - unfold Rekognition.cell_recognize_custom, Rekognition.recognize. within_cell Hcwd.
  - unfold Rekognition.show_value. within_cell Hcwd.
  - unfold Rekognition.cell_draw_faces, Rekognition.drawBoundingBoxes. within_cell Hcwd.
Qed.
End CelebrityFootprint.

Section Footprints.
Context (py : python) (env : environment) (dir : string) (stores : gmap loc pyval).

(** Every script stays within its footprint, on any platform. *)
Lemma program_within s :
  wpa env (within (reads s dir) (writes s dir)) (program py s)
    (fun _ _ => True) (fun _ _ => True) (fresh_kernel dir stores).
Proof.
  destruct s; cbn [program].
  - eapply wpa_conseq with (X := fun _ _ => True);
      [ intros; exact I | intros; exact I
      | apply (wpa_run_phases env _ (training_phase dir) _ Training.cells 0%nat);
        [ intros j c; apply training_cells_within | repeat split ] ].
  - eapply wpa_conseq with (X := fun _ _ => True);
      [ intros; exact I | intros; exact I
      | apply (wpa_run_phases env _ (plain_phase dir) _ (Features.cells py) 0%nat);
        [ intros j c; apply features_cells_within | reflexivity ] ].
  - eapply wpa_conseq with (X := fun _ _ => True);
      [ intros; exact I | intros; exact I
      | apply (wpa_run_phases env _ (celebrity_phase dir) _ (Rekognition.cells py) 0%nat);
        [ intros j c; apply celebrity_cells_within | repeat split ] ].
  - eapply wpa_conseq with (X := fun _ _ => True);
      [ intros; exact I | intros; exact I
      | apply (wpa_run_phases env _ (plain_phase dir) _ Pipeline.cells 0%nat);
        [ intros j c; apply pipeline_cells_within | reflexivity ] ].
  - apply wpa_ret. exact I.
Qed.

End Footprints.

Ltac split_regions :=
  repeat match goal with
  | H : _ || _ = true |- _ => apply orb_true_iff in H; destruct H as [H|H]
  | H : String.eqb _ _ = true |- _ => apply String.eqb_eq in H
  end.

(** What one script writes, run in its directory, no other script reads,
    run in another. *)
Lemma writes_reads_disjoint (A B : script) (dA dB : string) l :
  A <> B -> dA <> dB ->
  writes A dA l = true -> reads B dB l = true -> False.
Proof.
  intros HAB Hd Hw Hr.
  destruct A, B; try (exfalso; apply HAB; reflexivity);
    destruct l; cbn [reads writes] in Hw, Hr; try discriminate;
    split_regions; try congruence;
    try (subst; vm_compute in Hw; discriminate Hw);
    try (subst; vm_compute in Hr; discriminate Hr);
    try (pose proof (endswith_both _ _ _ Hw Hr) as Hc; vm_compute in Hc; discriminate Hc).
Qed.



Example training_leaves_stores_behind :
  Demo.after_training !! StoreVar "recommender_training_job_name"
  = Some (VStr "tensorflow-training-2020-11-01-00-00-00-000").
Proof. by_vm. Qed.

(** ** The job manifest and the hyperparameters of the notebook *)

Lemma manifest_hyperparameters_counterexample :
  ~ (forall h, h ∈ Training.hyperparameter_names ->
               Manifest.occurrences h Manifest.bert = 1%nat).
Proof.
  intros H. specialize (H "dataset_variant").
  assert (Hin : "dataset_variant" ∈ Training.hyperparameter_names)
    by (unfold Training.hyperparameter_names; set_solver).
  specialize (H Hin). vm_compute in H. discriminate.
Qed.

(** C6, as amended: the manifest describes a single container job, one
    Pod with one container that runs [python /opt/ml/code/train.py] with
    flags only, never restarted; its environment variables are pairwise
    distinct; and of the five hyperparameters the notebook submits, the
    names [epochs], [learning_rate] and [enable_tensorboard] are given to
    the container, once each and as flags, with values of the manifest's
    own, while [dataset_variant] and [embedding_dimension] are not given
    at all. *)
Theorem manifest_single_container_job :
  Manifest.documents = [Manifest.bert_csi_fsx]
  /\ Manifest.kind Manifest.bert_csi_fsx = "Pod"
  /\ Manifest.containers Manifest.bert_csi_fsx = [Manifest.bert]
  /\ take 2 (Manifest.command Manifest.bert) = ["python"; "/opt/ml/code/train.py"]
  /\ Forall (fun arg => is_Some (Manifest.flag_name arg))
       (drop 2 (Manifest.command Manifest.bert))
  /\ Manifest.restartPolicy Manifest.bert_csi_fsx = "Never"
  /\ NoDup (Manifest.env_names Manifest.bert)
  /\ (forall h, h ∈ Training.hyperparameter_names ->
        Manifest.occurrences h Manifest.bert
        = if decide (h ∈ ["epochs"; "learning_rate"; "enable_tensorboard"])
          then 1%nat else 0%nat)
  /\ Manifest.flag_values "epochs" Manifest.bert = ["1"]
  /\ Manifest.flag_values "learning_rate" Manifest.bert = ["0.00001"]
  /\ Manifest.flag_values "enable_tensorboard" Manifest.bert = ["False"].
Proof.
  repeat split; try reflexivity.
  - cbn [Manifest.command Manifest.bert drop].
    repeat (apply Forall_cons; split; [vm_compute; eexists; reflexivity|]).
    apply Forall_nil. exact I.
  - apply (bool_decide_unpack (NoDup (Manifest.env_names Manifest.bert))).
    vm_compute. exact I.
  - intros h Hh. unfold Training.hyperparameter_names in Hh.
    repeat (apply elem_of_cons in Hh as [->|Hh]; [vm_compute; reflexivity|]).
    inversion Hh.
Qed.

Lemma manifest_single_container_job_witness :
  "epochs" ∈ Training.hyperparameter_names
  /\ Manifest.occurrences "epochs" Manifest.bert
     = if decide ("epochs" ∈ ["epochs"; "learning_rate"; "enable_tensorboard"])
       then 1%nat else 0%nat.
Proof.
  assert (Hin : "epochs" ∈ Training.hyperparameter_names)
    by (unfold Training.hyperparameter_names; set_solver).
  split; [exact Hin|].
  destruct manifest_single_container_job as (_ & _ & _ & _ & _ & _ & _ & H & _).
  exact (H "epochs" Hin).
Defined.

(** ** The metric definitions of the training notebook *)

(** C10: each entry of [metrics_definitions] pairs a metric name with a
    regular expression that has one capture group, and on the sample log
    line of the notebook that group captures the advertised value. *)
Theorem metrics_definitions_capture :
  (fun m : string * string =>
     (m.1, snd <$> Regex.parse m.2, Regex.group1 m.2 Training.sample_log_line))
    <$> Training.metrics_definitions
  = [ ("root_mean_squared_error", Some 1%nat, Some "1.1198");
      ("top_10_categorical_accuracy", Some 1%nat, Some "0.481");
      ("top_50_categorical_accuracy", Some 1%nat, Some "0.607");
      ("top_100_categorical_accuracy", Some 1%nat, Some "0.885") ].
Proof. by_vm. Qed.

(** ** What the scripts ask for *)

Section Asks.
Context (env : environment).

Lemma asks_handle {T} (e : nbE T) w :
  asks (trace (handle env e w).2)
  = asks (trace w) ++ match asking e with Some r => [r] | None => [] end.
Proof.
  unfold asks.
  destruct e; cbn [handle asking].
  - destruct (ns w !! x); cbn; rewrite app_nil_r; reflexivity.
  - cbn; rewrite app_nil_r; reflexivity.
  - cbn; rewrite app_nil_r; reflexivity.
  - cbn; rewrite app_nil_r; reflexivity.
  - destruct (sdk_answer env _ c _) as [[a outs]|ex]; cbn [snd trace];
      rewrite omap_app; reflexivity.
  - destruct (shell_answer env _ c _) as [out outs]; cbn [snd trace];
      rewrite omap_app; reflexivity.
  - destruct (ns w !! x); cbn [snd trace]; rewrite ?omap_app; cbn; rewrite app_nil_r; reflexivity.
  - cbn [snd trace]; rewrite omap_app; cbn; rewrite app_nil_r; reflexivity.
  - cbn [snd trace]; rewrite omap_app; cbn; rewrite app_nil_r; reflexivity.
  - cbn [snd trace]; rewrite omap_app; cbn; rewrite app_nil_r; reflexivity.
Qed.

Lemma only_asks_final_world (G : request -> Prop) {R} (Q : R -> world -> Prop) X fuel :
  forall (t : itree nbE R) w,
    wp env (only_asks G) Q X fuel t w ->
    Forall G (asks (trace w)) ->
    Forall G (asks (trace (final_world env fuel t w))).
Proof.
  induction fuel as [|f IH]; intros t w H Hw; [exact Hw|].
  rewrite wp_S in H. cbn [final_world].
  destruct (observe t) as [r|t'|T e k]; [exact Hw | apply IH; assumption |].
  destruct H as [HK H].
  assert (Hnext : Forall G (asks (trace (handle env e w).2))).
  { rewrite asks_handle. apply Forall_app. split; [exact Hw|].
    unfold only_asks in HK. destruct (asking e); [|constructor].
    constructor; [exact HK | constructor]. }
  destruct (handle env e w) as [[x|ex] w']; [|exact Hnext].
  apply IH; [exact H | exact Hnext].
Qed.
End Asks.

Ltac resolve_unbound :=
  resolve_lookups;
  try match goal with
      | H1 : ns ?w !! ?x = Some _, H2 : ns ?w !! ?x = None |- _ =>
          rewrite H2 in H1; discriminate H1
      end.

(** ** Each script stays within its footprint *)





(** ** The pipeline notebook never gets to deploy *)

Ltac unbound_cell :=
  repeat (wp_step ltac:(first [exact I | reflexivity]) ltac:(exact I); resolve_unbound);
  try (cbn [ns cwd bind_name emit answered shelled stored failed];
       rewrite ?lookup_insert_ne by done; assumption).

Section PipelineNever.
Context (env : environment).

Lemma pipeline_cells_never_deploy j c :
  Pipeline.cells !! j = Some c ->
  forall w, pipeline_phase j w ->
    wpa env (only_asks (fun r => deploys r = false)) c
      (fun _ => pipeline_phase (S j)) (fun _ _ => True) w.
Proof.
  unfold Pipeline.cells, pipeline_phase.
  by_index j; intros [= <-] w Hw; cbn [Nat.leb] in Hw |- *; try (exfalso; exact Hw).
  - unfold Pipeline.cell_pip_boto3. unbound_cell.
  - unfold Pipeline.cell_pip_kfp. unbound_cell.
  - unfold Pipeline.cell_restart. unbound_cell.
  - unfold Pipeline.cell_account. unbound_cell.
  - unfold Pipeline.cell_copy_data. unbound_cell.
  - unfold Pipeline.cell_import_kfp. unbound_cell.
  - unfold Pipeline.load_component. unbound_cell.
  - unfold Pipeline.load_component. unbound_cell.
  - unfold Pipeline.load_component. unbound_cell.
  - unfold Pipeline.load_component. unbound_cell.
  - unfold Pipeline.load_component. unbound_cell.
  - unfold Pipeline.cell_registry. unbound_cell.
  - unfold Pipeline.cell_processing_code. unbound_cell.
  - unfold Pipeline.cell_tar. unbound_cell.
  - unfold Pipeline.cell_training_code. unbound_cell.
  - unfold Pipeline.cell_def_processing, Pipeline.def_function. unbound_cell.
  - unfold Pipeline.cell_def_training_input, Pipeline.def_function. unbound_cell.
  - unfold Pipeline.cell_def_pipeline. unbound_cell.
  - unfold Pipeline.cell_compile, Pipeline.compile, Pipeline.mnist_classification.
    unbound_cell.
Qed.

(** X3: from a fresh kernel and on any platform, no run of the pipeline
    notebook reaches its end, and however far a run gets it has never asked
    to write the pipeline package, to create the experiment or to run the
    pipeline. *)
Theorem pipeline_never_deployed dir stores fuel :
  (forall w, exec env fuel Pipeline.notebook (fresh_kernel dir stores) <> Done tt w)
  /\ Forall (fun r => deploys r = false)
       (asks (trace (final_world env fuel Pipeline.notebook (fresh_kernel dir stores)))).
Proof.
  assert (H : wpa env (only_asks (fun r => deploys r = false)) Pipeline.notebook
                (fun _ => pipeline_phase 24) (fun _ _ => True) (fresh_kernel dir stores)).
  { apply (wpa_run_phases env _ pipeline_phase _ Pipeline.cells 0%nat).
    - intros j c. apply pipeline_cells_never_deploy.
    - reflexivity. }
  split.
  - intros w Hw. pose proof (wpa_exec env _ _ _ _ _ fuel H) as Hq.
    rewrite Hw in Hq. exact Hq.
  - eapply only_asks_final_world; [apply H | constructor].
Qed.
End PipelineNever.

(** ** Runs that follow a script *)

Ltac story_fact :=
  first [ exact I
        | eassumption
        | match goal with |- _ <> _ => discriminate end
        | match goal with
          | H : asks (trace ?w) = _ |- asks (trace _) = _ =>
              cbn [trace bind_name emit answered shelled stored failed];
              unfold asks in H |- *; rewrite ?omap_app, ?H;
              cbn; rewrite ?app_nil_r; reflexivity
          end
        | cbn [ns cwd shared bind_name emit answered shelled stored failed];
          rewrite ?lookup_insert_ne by done;
          first [ eassumption
                | match goal with
                  | H : ?m !! ?x = Some _ |- ?m !! ?x = Some _ => exact H
                  end
                | rewrite lookup_insert_eq; reflexivity ] ].

Ltac story_open Hw :=
  unfold training_story, since, during in Hw |- *;
  cbn [Nat.leb andb training_count nth ta_bucket ta_role ta_time1 ta_experiment
       ta_time2 ta_trial ta_job ta_rows] in Hw |- *;
  destruct Hw as (Hasks & Hw);
  repeat match goal with H : _ /\ _ |- _ => destruct H end.

Lemma wpa_expand_exact env (K : forall T : Type, nbE T -> world -> Prop) x (Q : string -> world -> Prop) (X : exn -> world -> Prop) w :
  K _ (PeekName x) w ->
  Q (match ns w !! x with Some (VStr s) => s | _ => "$" +:+ x end) w ->
  wpa env K (expand x) Q X w.
Proof.
  intros HK HQ. apply wpa_bind. apply wpa_trigger; [exact HK|]. cbn.
  destruct (ns w !! x) as [[]|]; apply wpa_ret, HQ.
Qed.

Ltac expand_step kside :=
  lazymatch goal with
  | |- wpa _ _ (expand _) _ _ _ =>
      apply wpa_expand_exact; [kside|];
      cbn [ns bind_name emit answered shelled stored failed];
      rewrite ?lookup_insert_ne by done;
      first [ rewrite lookup_insert_eq
            | match goal with
              | H : ?m !! ?x = Some _ |- context [?m !! ?x] => rewrite H
              end ];
      cbv beta iota
  end.

(* the values a cell computes from what it loaded *)
Ltac resolve_pure :=
  repeat match goal with
  | H : str_of _ = Ok _ |- _ => cbn in H; injection H as H; subst
  | H : getattr _ _ = Ok _ |- _ => cbn in H; injection H as H; subst
  | H : result_bind _ _ _ _ = Ok _ |- _ =>
      unfold training_estimator in H; cbn in H; injection H as H; subst
  | H : format _ _ = Ok _ |- _ =>
      unfold format in H; cbn in H; rewrite ?append_nil_r_s in H; injection H as H; subst
  end.

Ltac story_run :=
  repeat (first [ wp_norm; expand_step ltac:(exact I)
                | wp_step ltac:(exact I) ltac:(exact I) ];
          resolve_unbound; resolve_pure).

Ltac story_run_plain :=
  repeat (wp_step ltac:(exact I) ltac:(exact I); resolve_lookups).

Ltac story_close :=
  cbn [Nat.leb andb training_count nth ta_bucket ta_role ta_time1 ta_experiment
       ta_time2 ta_trial ta_job ta_rows];
  repeat split; story_fact.

Section Outcome.
Context (env : environment).

Lemma exec_done_final_world fuel : forall (t : itree nbE unit) w,
  is_done (exec env fuel t w) = true ->
  exec env fuel t w = Done tt (final_world env fuel t w).
Proof.
  induction fuel as [|f IH]; intros t w H; [discriminate H|].
  cbn [exec final_world] in *.
  destruct (observe t) as [[]|t'|T e k]; [reflexivity | apply IH, H |].
  destruct (handle env e w) as [[x|ex] w']; [apply IH, H | discriminate H].
Qed.

Lemma exec_raised_final_world {R} fuel : forall (t : itree nbE R) w e,
  raised (exec env fuel t w) = Some e ->
  exec env fuel t w = Raised e (final_world env fuel t w).
Proof.
  induction fuel as [|f IH]; intros t w e0 H; [discriminate H|].
  cbn [exec final_world] in *.
  destruct (observe t) as [r|t'|T e k]; [discriminate H | apply IH, H |].
  destruct (handle env e w) as [[x|ex] w']; [apply IH, H|].
  injection H as ->. reflexivity.
Qed.
End Outcome.

(** *** The training notebook *)

Section Story.
Context (env : environment).

Lemma training_cells_story j c :
  Training.cells !! j = Some c ->
  forall w, (exists a, training_story a j w) ->
    wpa env unguarded c (fun _ w' => exists a, training_story a (S j) w')
      (fun _ _ => True) w.
Proof.
  unfold Training.cells.
  by_index j; intros [= <-] w [[bucket role t1 e t2 t job rows] Hw]; story_open Hw.
  - unfold Training.cell_pip. story_run.
    eexists (Build_training_answers _ _ _ _ _ _ _ _). story_close.
  - unfold Training.cell_ls. story_run.
    eexists (Build_training_answers _ _ _ _ _ _ _ _). story_close.
  - unfold Training.cell_session. story_run.
    eexists (Build_training_answers _ _ _ _ _ _ _ _). story_close.
  - unfold Training.cell_input. story_run.
    eexists (Build_training_answers _ _ _ _ _ _ _ _). story_close.
  - unfold Training.cell_metrics. story_run.
    eexists (Build_training_answers _ _ _ _ _ _ _ _). story_close.
  - unfold Training.cell_hyperparameters. story_run.
    eexists (Build_training_answers _ _ _ _ _ _ _ _). story_close.
  - unfold Training.cell_ls. story_run.
    eexists (Build_training_answers _ _ _ _ _ _ _ _). story_close.
  - unfold Training.cell_pygmentize. story_run.
    eexists (Build_training_answers _ _ _ _ _ _ _ _). story_close.
  - unfold Training.cell_estimator. story_run.
    eexists (Build_training_answers _ _ _ _ _ _ _ _). story_close.
  - unfold Training.cell_experiment. story_run.
    eexists (Build_training_answers _ _ _ _ _ _ _ _). story_close.
  - unfold Training.cell_trial. story_run.
    eexists (Build_training_answers _ _ _ _ _ _ _ _). story_close.
  - unfold Training.cell_experiment_config. story_run.
    eexists (Build_training_answers _ _ _ _ _ _ _ _). story_close.
  - unfold Training.cell_fit. story_run.
    eexists (Build_training_answers _ _ _ _ _ _ _ _). story_close.
  - unfold Training.cell_job_name. story_run.
    eexists (Build_training_answers _ _ _ _ _ _ _ _). story_close.
  - unfold Training.cell_review_job, Training.show_html. cbn [load_strs]. story_run_plain.
    eexists (Build_training_answers _ _ _ _ _ _ _ _). story_close.
  - unfold Training.cell_review_logs, Training.show_html. cbn [load_strs]. story_run_plain.
    eexists (Build_training_answers _ _ _ _ _ _ _ _). story_close.
  - unfold Training.cell_review_output, Training.show_html. cbn [load_strs]. story_run_plain.
    eexists (Build_training_answers _ _ _ _ _ _ _ _). story_close.
  - unfold Training.cell_wait. story_run.
    eexists (Build_training_answers _ _ _ _ _ _ _ _). story_close.
  - unfold Training.cell_copy_model. story_run.
    eexists (Build_training_answers _ _ _ _ _ _ _ _). story_close.
  - unfold Training.cell_extract. story_run.
    eexists (Build_training_answers _ _ _ _ _ _ _ _). story_close.
  - unfold Training.cell_inspect. story_run.
    eexists (Build_training_answers _ _ _ _ _ _ _ _). story_close.
  - unfold Training.cell_user_id. story_run.
    eexists (Build_training_answers _ _ _ _ _ _ _ _). story_close.
  - unfold Training.cell_predict. story_run.
    eexists (Build_training_answers _ _ _ _ _ _ _ _). story_close.
  - unfold Training.cell_lineage. story_run.
    eexists (Build_training_answers _ _ _ _ _ _ _ _). story_close.
  - unfold Training.cell_lineage_show. story_run.
    eexists (Build_training_answers _ _ _ _ _ _ _ _). story_close.
  - unfold Training.cell_lineage_show. story_run.
    eexists (Build_training_answers _ _ _ _ _ _ _ _). story_close.
  - unfold Training.cell_describe.
    destruct rows as [|name rows]; cbn [fmap list_fmap] in *; story_run.
    exists (Build_training_answers bucket role t1 e t2 t job (name :: rows)). story_close.
  - unfold Training.cell_store. story_run.
    eexists (Build_training_answers _ _ _ _ _ _ _ _). story_close.
  Unshelve.
  all: first [exact EmptyString | exact 0 | exact (@nil string)].
Qed.
End Story.

Section TrainingScript.
Context (env : environment).

Lemma training_story_start dir stores :
  exists a, training_story a 0 (fresh_kernel dir stores).
Proof.
  exists (Build_training_answers "" "" 0 "" 0 "" "" []).
  unfold training_story, since, during. cbn. repeat split.
Qed.

Lemma training_notebook_story dir stores :
  wpa env unguarded Training.notebook
    (fun _ w => exists a, training_story a 28 w) (fun _ _ => True)
    (fresh_kernel dir stores).
Proof.
  unfold Training.notebook.
  apply (wpa_run_phases env unguarded (fun j w => exists a, training_story a j w)
           (fun _ _ => True) Training.cells 0%nat).
  - intros j c. apply training_cells_story.
  - apply training_story_start.
Qed.

End TrainingScript.


(** *** A failed training run exports nothing *)

Lemma files_only_path_loc d p : files_only (path_loc d p) = true.
Proof. unfold path_loc. destruct (startswith p "s3://"), (startswith p "/"); reflexivity. Qed.

Lemma forallb_anything (ls : list loc) : forallb anything ls = true.
Proof. induction ls; [reflexivity | exact IHls]. Qed.

Lemma call_writes_files d c : forallb files_only (call_writes d c) = true.
Proof. destruct c; cbn; rewrite ?files_only_path_loc; reflexivity. Qed.

Lemma shell_writes_files d c : forallb files_only (shell_writes d c) = true.
Proof.
  destruct c; cbn; rewrite ?files_only_path_loc; try reflexivity.
  pose proof (files_only_path_loc d (cp_target src dst)) as H.
  destruct (path_loc d (cp_target src dst)); cbn; try reflexivity; discriminate H.
Qed.

Lemma keeps_stores_sdk c w : keeps_stores _ (Sdk c) w.
Proof.
  unfold keeps_stores, within. rewrite forallb_anything, call_writes_files. reflexivity.
Qed.

Lemma keeps_stores_bang c w : keeps_stores _ (Bang c) w.
Proof.
  unfold keeps_stores, within. rewrite forallb_anything, shell_writes_files. reflexivity.
Qed.

Ltac keeps := first [ exact I | apply keeps_stores_sdk | apply keeps_stores_bang ].

Section Stores.
Context (env : environment).

Lemma wp_keeps_stores {R} (Q : R -> world -> Prop) X fuel : forall (t : itree nbE R) w,
  wp env keeps_stores Q X fuel t w ->
  wp env unguarded (fun _ w' => same_stores w w') (fun _ w' => same_stores w w') fuel t w.
Proof.
  induction fuel as [|f IH]; intros t w H; [exact I|].
  rewrite wp_S in H. rewrite wp_S.
  destruct (observe t) as [r|t'|T e k]; [intros x; reflexivity | apply IH, H |].
  destruct H as [HK H]. split; [exact I|].
  assert (Hstep : same_stores w (handle env e w).2).
  { intros x. apply (handle_outside env anything files_only e w (StoreVar x) HK eq_refl). }
  destruct (handle env e w) as [[x|ex] w']; cbn in Hstep; [|exact Hstep].
  eapply wp_conseq; [| |apply IH, H].
  - intros r w'' H'' y. rewrite H''. apply Hstep.
  - intros ex w'' H'' y. rewrite H''. apply Hstep.
Qed.

Lemma training_cells_keep_stores j c :
  (j < 27)%nat -> Training.cells !! j = Some c ->
  forall w, wpa env keeps_stores c (fun _ _ => True) (fun _ _ => True) w.
Proof.
  intros Hj. unfold Training.cells.
  by_index j; intros [= <-] w; try lia.
  all: unfold Training.cell_pip, Training.cell_ls, Training.cell_session,
         Training.cell_input, Training.cell_metrics, Training.cell_hyperparameters,
         Training.cell_pygmentize, Training.cell_estimator, Training.cell_experiment,
         Training.cell_trial, Training.cell_experiment_config, Training.cell_fit,
         Training.cell_job_name, Training.cell_review_job, Training.cell_review_logs,
         Training.cell_review_output, Training.show_html, Training.cell_wait,
         Training.cell_copy_model, Training.cell_extract, Training.cell_inspect,
         Training.cell_user_id, Training.cell_predict, Training.cell_lineage,
         Training.cell_lineage_show, Training.cell_describe;
       cbn [load_strs];
       repeat wp_step ltac:(keeps) ltac:(exact I).
  all: exact I.
Qed.

Lemma training_notebook_keeps_stores dir stores :
  wpa env unguarded Training.notebook
    (fun _ _ => True) (fun _ w' => same_stores (fresh_kernel dir stores) w')
    (fresh_kernel dir stores).
Proof.
  unfold Training.notebook.
  eapply wpa_conseq;
    [| |apply (wpa_run_phases env unguarded
                 (fun j w' => (j <= 27)%nat -> same_stores (fresh_kernel dir stores) w')
                 (fun _ w' => same_stores (fresh_kernel dir stores) w')
                 Training.cells 0%nat)].
  - intros; exact I.
  - intros e w' H. exact H.
  - intros j c Hc w Hw. cbn [Nat.add] in *.
    destruct (Nat.lt_ge_cases j 27) as [Hlt|Hge].
    + intros fuel. eapply wp_conseq;
        [| |apply (wp_keeps_stores (fun _ _ => True) (fun _ _ => True)),
               (training_cells_keep_stores j c Hlt Hc w)].
      * intros r w' H' _ y. rewrite H'. apply Hw. lia.
      * intros ex w' H' y. rewrite H'. apply Hw. lia.
    + assert (j = 27%nat) as ->.
      { apply lookup_lt_Some in Hc. cbn in Hc. lia. }
      injection Hc as <-. unfold Training.cell_store.
      apply wpa_store_magic; [exact I | intros; lia | intros; lia].
  - intros _ x. reflexivity.
Qed.

End Stores.


(** *** The pipeline notebook, up to the compilation *)

Ltac pstory_open Hw :=
  unfold pipeline_story, since, pipeline_bucket, pipeline_region in Hw |- *;
  cbn [Nat.leb andb pipeline_count nth pa_region pa_account] in Hw |- *;
  destruct Hw as (Hasks & Hw);
  repeat match goal with H : _ /\ _ |- _ => destruct H end.

Ltac pstory_close :=
  unfold pipeline_story, since, pipeline_bucket, pipeline_region;
  cbn [Nat.leb andb pipeline_count nth pa_region pa_account];
  repeat split; story_fact.

Section PipelineStory.
Context (env : environment).

Lemma pipeline_cells_story j c :
  take 18 Pipeline.cells !! j = Some c ->
  forall w, (exists a, pipeline_story a j w) ->
    wpa env unguarded c (fun _ w' => exists a, pipeline_story a (S j) w')
      (fun _ _ => True) w.
Proof.
  unfold Pipeline.cells. cbn [take].
  by_index j; intros [= <-] w [[region account] Hw]; pstory_open Hw.
  - unfold Pipeline.cell_pip_boto3. story_run.
    eexists (Build_pipeline_answers _ _). pstory_close.
  - unfold Pipeline.cell_pip_kfp. story_run.
    eexists (Build_pipeline_answers _ _). pstory_close.
  - unfold Pipeline.cell_restart. story_run.
    eexists (Build_pipeline_answers _ _). pstory_close.
  - unfold Pipeline.cell_account. story_run.
    eexists (Build_pipeline_answers _ _). pstory_close.
  - unfold Pipeline.cell_copy_data. story_run.
    eexists (Build_pipeline_answers _ _). pstory_close.
  - unfold Pipeline.cell_import_kfp. story_run.
    eexists (Build_pipeline_answers _ _). pstory_close.
  - unfold Pipeline.load_component. story_run.
    eexists (Build_pipeline_answers _ _). pstory_close.
  - unfold Pipeline.load_component. story_run.
    eexists (Build_pipeline_answers _ _). pstory_close.
  - unfold Pipeline.load_component. story_run.
    eexists (Build_pipeline_answers _ _). pstory_close.
  - unfold Pipeline.load_component. story_run.
    eexists (Build_pipeline_answers _ _). pstory_close.
  - unfold Pipeline.load_component. story_run.
    eexists (Build_pipeline_answers _ _). pstory_close.
  - unfold Pipeline.cell_registry. story_run.
    all: eexists (Build_pipeline_answers _ _); pstory_close.
  - unfold Pipeline.cell_processing_code. story_run.
    eexists (Build_pipeline_answers _ _). pstory_close.
  - unfold Pipeline.cell_tar. story_run.
    eexists (Build_pipeline_answers _ _). pstory_close.
  - unfold Pipeline.cell_training_code. story_run.
    eexists (Build_pipeline_answers _ _). pstory_close.
  - unfold Pipeline.cell_def_processing, Pipeline.def_function. story_run.
    eexists (Build_pipeline_answers _ _). pstory_close.
  - unfold Pipeline.cell_def_training_input, Pipeline.def_function. story_run.
    eexists (Build_pipeline_answers _ _). pstory_close.
  - unfold Pipeline.cell_def_pipeline. story_run.
    eexists (Build_pipeline_answers _ _). pstory_close.
  Unshelve.
  all: first [exact EmptyString | exact (@nil string)].
Qed.
End PipelineStory.

Section PipelineScript.
Context (env : environment).

Lemma pipeline_prefix_story dir stores :
  wpa env unguarded (run_all (take 18 Pipeline.cells))
    (fun _ w => exists a, pipeline_story a 18 w) (fun _ _ => True)
    (fresh_kernel dir stores).
Proof.
  apply (wpa_run_phases env unguarded (fun j w => exists a, pipeline_story a j w)
           (fun _ _ => True) (take 18 Pipeline.cells) 0%nat).
  - intros j c. apply pipeline_cells_story.
  - exists (Build_pipeline_answers [] ""). unfold pipeline_story, since. cbn. repeat split.
Qed.

(** X6: when the cells of the pipeline notebook before the one that
    compiles the pipeline have run, the requests made are those of
    [pipeline_script], in that order and no others.  The bucket is
    [sagemaker-<AWS_REGION>-<AWS_ACCOUNT_ID>], named from the region the
    notebook read from the instance metadata and the account it asked the
    platform for; the sample data, the preprocessing script and the
    training archive are all copied into that bucket; and the pipeline
    function has that bucket and the [TeamRole] of that account as the
    defaults of its parameters. *)
Theorem pipeline_prefix_follows_script dir stores fuel w :
  exec env fuel (run_all (take 18 Pipeline.cells)) (fresh_kernel dir stores) = Done tt w ->
  exists a,
    asks (trace w) = pipeline_script a
    /\ ns w !! "AWS_REGION" = Some (VStr (pipeline_region a))
    /\ ns w !! "AWS_ACCOUNT_ID" = Some (VStr (pa_account a))
    /\ ns w !! "S3_BUCKET" = Some (VStr (pipeline_bucket a))
    /\ ns w !! "mnist_classification"
       = Some (VObj "function"
                 [("name", VStr "mnist_classification");
                  ("role_arn",
                   VStr ("arn:aws:iam::" +:+ pa_account a +:+ ":role/TeamRole"));
                  ("bucket_name", VStr (pipeline_bucket a))]).
Proof.
  intros Hrun.
  pose proof (wpa_exec env unguarded _ _ _ _ fuel (pipeline_prefix_story dir stores)) as H.
  rewrite Hrun in H. destruct H as (a & Hasks & H).
  unfold since in H. cbn [Nat.leb] in H.
  exists a. split; [exact Hasks|]. tauto.
Qed.
End PipelineScript.

Lemma pipeline_prefix_follows_script_witness :
  exists a,
    asks (trace Demo.pipeline_ready) = pipeline_script a
    /\ ns Demo.pipeline_ready !! "AWS_REGION" = Some (VStr (pipeline_region a))
    /\ ns Demo.pipeline_ready !! "AWS_ACCOUNT_ID" = Some (VStr (pa_account a))
    /\ ns Demo.pipeline_ready !! "S3_BUCKET" = Some (VStr (pipeline_bucket a))
    /\ ns Demo.pipeline_ready !! "mnist_classification"
       = Some (VObj "function"
                 [("name", VStr "mnist_classification");
                  ("role_arn",
                   VStr ("arn:aws:iam::" +:+ pa_account a +:+ ":role/TeamRole"));
                  ("bucket_name", VStr (pipeline_bucket a))]).
Proof.
  apply (pipeline_prefix_follows_script (Demo.env_ok 0) "/home/jovyan/pipeline" ∅ 2000%nat).
  apply exec_done_final_world. by_vm.
Defined.

(** *** The feature notebook *)

Ltac fstory_fact :=
  first [ match goal with
          | H : printed (trace ?w) = _ |- printed (trace _) = _ =>
              cbn [trace bind_name emit answered shelled stored failed];
              unfold printed in H |- *; rewrite ?omap_app, ?H;
              cbn; rewrite ?app_nil_r; reflexivity
          end
        | story_fact ].

Ltac fstory_open Hw :=
  unfold features_story, since in Hw |- *;
  cbn [Nat.leb andb features_count features_lines nth fa_train_plain fa_test_plain
       fa_train_timestamps fa_test_timestamps] in Hw |- *;
  destruct Hw as (Hasks & Hprinted & Hw).

Ltac fstory_close :=
  unfold features_story, since;
  cbn [Nat.leb andb features_count features_lines nth fa_train_plain fa_test_plain
       fa_train_timestamps fa_test_timestamps];
  repeat split; fstory_fact.

Section FeaturesStory.
Context (env : environment) (py : python).

Lemma features_cells_story j c :
  Features.cells py !! j = Some c ->
  forall w, (exists a, features_story py a j w) ->
    wpa env unguarded c (fun _ w' => exists a, features_story py a (S j) w')
      (fun _ _ => True) w.
Proof.
  unfold Features.cells.
  by_index j; intros [= <-] w [[t1 s1 t2 s2] Hw]; fstory_open Hw.
  - unfold Features.cell_imports. story_run.
    eexists (Build_features_answers _ _ _ _). fstory_close.
  - unfold Features.cell_load. story_run.
    eexists (Build_features_answers _ _ _ _). fstory_close.
  - unfold Features.cell_vocabularies. story_run.
    eexists (Build_features_answers _ _ _ _). fstory_close.
  - unfold Features.def_class. story_run.
    eexists (Build_features_answers _ _ _ _). fstory_close.
  - unfold Features.def_class. story_run.
    eexists (Build_features_answers _ _ _ _). fstory_close.
  - unfold Features.def_class. story_run.
    eexists (Build_features_answers _ _ _ _). fstory_close.
  - unfold Features.cell_split. story_run.
    eexists (Build_features_answers _ _ _ _). fstory_close.
  - unfold Features.cell_experiment. story_run.
    eexists (Build_features_answers _ _ _ _). fstory_close.
  - unfold Features.cell_experiment. story_run.
    eexists (Build_features_answers t1 s1 _ _). fstory_close.
  Unshelve.
  all: exact 0%float.
Qed.

Lemma features_notebook_story dir stores :
  wpa env unguarded (Features.notebook py)
    (fun _ w => exists a, features_story py a 9 w) (fun _ _ => True)
    (fresh_kernel dir stores).
Proof.
  unfold Features.notebook.
  apply (wpa_run_phases env unguarded (fun j w => exists a, features_story py a j w)
           (fun _ _ => True) (Features.cells py) 0%nat).
  - intros j c. apply features_cells_story.
  - exists (Build_features_answers 0 0 0 0). unfold features_story, since. cbn.
    repeat split.
Qed.

(** X7: a run of the feature notebook that reaches its end has loaded the
    ratings and the movies, asked for the vocabularies, and run two
    experiments that differ in [use_timestamps] only, first without and
    then with: each fits for three epochs with [Adagrad(0.1)], then
    evaluates on the training split and then on the test split.  It has
    printed four lines, a train and a test accuracy for each experiment
    with two decimals, the last two being the values that
    [train_accuracy] and [test_accuracy] hold at the end. *)
Theorem features_run_follows_script dir stores fuel w :
  exec env fuel (Features.notebook py) (fresh_kernel dir stores) = Done tt w ->
  exists a,
    asks (trace w) = features_script
    /\ printed (trace w) = features_report py a
    /\ ns w !! "train_accuracy" = Some (VFloat (fa_train_timestamps a))
    /\ ns w !! "test_accuracy" = Some (VFloat (fa_test_timestamps a)).
Proof.
  intros Hrun.
  pose proof (wpa_exec env unguarded _ _ _ _ fuel (features_notebook_story dir stores)) as H.
  rewrite Hrun in H. destruct H as (a & Hasks & Hprinted & H).
  unfold since in H. cbn [Nat.leb] in H.
  exists a. split; [exact Hasks|]. split; [exact Hprinted | exact H].
Qed.
End FeaturesStory.

Lemma features_run_follows_script_witness :
  let w := final_world (Demo.env_ok 0) 400 (Features.notebook Demo.py)
             (fresh_kernel "/root/workshop/02_usecases/sagemaker_recommendations/wip" ∅) in
  exists a,
    asks (trace w) = features_script
    /\ printed (trace w) = features_report Demo.py a
    /\ ns w !! "train_accuracy" = Some (VFloat (fa_train_timestamps a))
    /\ ns w !! "test_accuracy" = Some (VFloat (fa_test_timestamps a)).
Proof.
  apply (features_run_follows_script (Demo.env_ok 0) Demo.py
           "/root/workshop/02_usecases/sagemaker_recommendations/wip" ∅ 400%nat).
  apply exec_done_final_world. by_vm.
Defined.

(** *** The celebrity notebook *)

Ltac cstory_open Hw :=
  unfold celebrity_story, since, during, ca_job in Hw |- *;
  cbn [Nat.leb andb celebrity_head_count celebrity_tail_count nth Nat.sub
       ca_bucket ca_image ca_image_size ca_image_drawn ca_job ca_start ca_polls ca_custom
       ca_custom_size ca_custom_drawn] in Hw |- *;
  destruct Hw as (Hasks & Hw);
  repeat match goal with H : _ /\ _ |- _ => destruct H end.

Ltac cstory_asks :=
  match goal with
  | H : asks (trace ?w) = _ |- asks (trace _) = _ =>
      cbn [trace bind_name emit answered shelled stored failed];
      unfold asks in H |- *; rewrite ?omap_app, ?H;
      unfold celebrity_head, celebrity_tail, celebrity_polls, drawing_requests, ca_job,
        celebrity_image, celebrity_video, celebrity_custom_image;
      cbn [ca_bucket ca_image ca_image_size ca_image_drawn ca_job ca_start ca_polls ca_custom
           ca_custom_size ca_custom_drawn take app omap list_omap asked];
      rewrite ?app_nil_r, <- ?app_assoc;
      cbn [app];
      reflexivity
  end.

Ltac cstory_fact :=
  first [ exact I
        | eassumption
        | cstory_asks
        | cbn [ns cwd shared bind_name emit answered shelled stored failed];
          rewrite ?lookup_insert_ne by done;
          first [ eassumption
                | match goal with
                  | H : ?m !! ?x = Some _ |- ?m !! ?x = Some _ => exact H
                  end
                | rewrite lookup_insert_eq; reflexivity ] ].

Ltac cstory_close :=
  unfold celebrity_story, since, during, ca_job;
  cbn [Nat.leb andb celebrity_head_count celebrity_tail_count nth Nat.sub
       ca_bucket ca_image ca_image_size ca_image_drawn ca_job ca_start ca_polls ca_custom
       ca_custom_size ca_custom_drawn];
  repeat split; try cstory_fact.

Ltac cstory_answers :=
  eexists (Build_celebrity_answers _ _ _ _ _ _ _ _ _).

Section CelebrityStory.
Context (env : environment) (py : python).

Lemma celebrity_cells_story j c :
  Rekognition.cells py !! j = Some c ->
  forall w, (exists a, celebrity_story a j w) ->
    wpa env unguarded c (fun _ w' => exists a, celebrity_story a (S j) w')
      (fun _ _ => True) w.
Proof.
  unfold Rekognition.cells.
  by_index j;
    intros [= <-] w [[bucket image size drawn start polls custom size' drawn'] Hw];
    cstory_open Hw.
  - unfold Rekognition.cell_imports. story_run. cstory_answers. cstory_close.
  - unfold Rekognition.cell_session. story_run. cstory_answers. cstory_close.
  - unfold Rekognition.cell_region. story_run. cstory_answers. cstory_close.
  - unfold Rekognition.cell_clients. story_run. cstory_answers. cstory_close.
  - unfold Rekognition.cell_bucketName. story_run. cstory_answers. cstory_close.
  - unfold Rekognition.cell_tempFolder. story_run. cstory_answers. cstory_close.
  - unfold Rekognition.cell_imageName. story_run. cstory_answers. cstory_close.
  - unfold Rekognition.show_image. story_run. cstory_answers. cstory_close.
  - unfold Rekognition.cell_recognize, Rekognition.recognize. story_run.
    cstory_answers. cstory_close.
  - unfold Rekognition.show_value. story_run. cstory_answers. cstory_close.
  - unfold Rekognition.cell_def_drawBoundingBoxes. story_run. cstory_answers. cstory_close.
  - unfold Rekognition.cell_draw_celebrities, Rekognition.drawBoundingBoxes. story_run.
    match goal with
    | H : Rekognition.draw_boxes ?z ?z0 _ _ = Ok ?d |- _ =>
        eexists (Build_celebrity_answers _ image (z, z0) d _ _ _ _ _)
    end.
    cstory_close.
  - unfold Rekognition.cell_videoName. story_run. cstory_answers. cstory_close.
  - unfold Rekognition.cell_start. story_run. cstory_answers. cstory_close.
  - unfold Rekognition.cell_wait. wp_norm. apply wpa_bind.
    unfold Rekognition.poll. story_run.
    apply (wpa_iter env unguarded Rekognition.wait_step
             (fun _ w1 =>
                exists k, celebrity_story
                            (Build_celebrity_answers bucket image size drawn start k
                               custom size' drawn') 15 w1)).
    + clear dependent w. intros [] w [k Hw]. cstory_open Hw.
      unfold Rekognition.wait_step, Rekognition.poll, Rekognition.load_job. story_run.
      * exists (S k). cstory_close.
        cbn [trace bind_name emit answered]. unfold asks in Hasks |- *.
        rewrite !omap_app, Hasks. unfold celebrity_polls, Rekognition.get_job, ca_job.
        cbn [ca_polls ca_start take omap list_omap asked].
        rewrite ?app_nil_r, <- ?app_assoc. rewrite (replicate_S_end (S k)).
        reflexivity.
      * cstory_answers. cstory_close.
    + exists 0%nat. cstory_close.
  - unfold Rekognition.show_value. story_run. cstory_answers. cstory_close.
  - unfold Rekognition.cell_celebrity_names, Rekognition.load_job. story_run.
    cstory_answers. cstory_close.
  - unfold Rekognition.cell_video_player. story_run.
    all: cstory_answers; cstory_close.
  - unfold Rekognition.cell_customCelebrityImageName. story_run.
    cstory_answers. cstory_close.
  - unfold Rekognition.show_image. story_run. cstory_answers. cstory_close.
  - unfold Rekognition.cell_recognize_custom, Rekognition.recognize. story_run.
    cstory_answers. cstory_close.
  - unfold Rekognition.show_value. story_run. cstory_answers. cstory_close.
  - unfold Rekognition.cell_draw_faces, Rekognition.drawBoundingBoxes. story_run.
    match goal with
    | H : Rekognition.draw_boxes ?z ?z0 _ _ = Ok ?d |- _ =>
        eexists (Build_celebrity_answers _ _ _ _ _ _ custom (z, z0) d)
    end.
    cstory_close.
  Unshelve.
  all: first [ exact EmptyString | exact 0%nat | exact (0, 0) | exact (@nil (list draw_op))
             | exact image | exact custom | exact (StartCelebrityRecognitionResponse.Build_t EmptyString)
             | exact (RecognizeCelebritiesResponse.Build_t [] []) ].
Qed.
End CelebrityStory.

Section CelebrityScript.
Context (env : environment) (py : python).

Lemma celebrity_notebook_story dir stores :
  wpa env unguarded (Rekognition.notebook py)
    (fun _ w => exists a, celebrity_story a 23 w) (fun _ _ => True)
    (fresh_kernel dir stores).
Proof.
  unfold Rekognition.notebook.
  apply (wpa_run_phases env unguarded (fun j w => exists a, celebrity_story a j w)
           (fun _ _ => True) (Rekognition.cells py) 0%nat).
  - intros j c. apply celebrity_cells_story.
  - exists (Build_celebrity_answers "" (RecognizeCelebritiesResponse.Build_t [] [])
              (0, 0) [] (StartCelebrityRecognitionResponse.Build_t "") 0%nat
              (RecognizeCelebritiesResponse.Build_t [] []) (0, 0) []).
    unfold celebrity_story, since, during. cbn. repeat split.
Qed.

End CelebrityScript.


(** ** Cells that stop *)

Ltac absurd_exception :=
  exfalso;
  match goal with
  | H : _ = Raise _ |- _ => unfold format in H; cbn in H; discriminate H
  | H : ?m !! ?x = None |- _ =>
      cbn [ns bind_name emit answered shelled stored failed] in H;
      rewrite ?lookup_insert_ne in H by done;
      match type of H with
      | ?m' !! x = None =>
          match goal with H2 : m' !! x = Some _ |- _ => rewrite H2 in H; discriminate H end
      end
  end.

Section Ends.
Context (env : environment).

Lemma ends_ret {R} (r : R) (Q : R -> world -> Prop) X w : Q r w -> ends env (Ret r) Q X w.
Proof. intros H. exists (Done r w). split; [apply runs_ret | exact H]. Qed.

Lemma ends_bind {R B} (t : itree nbE R) (k : R -> itree nbE B) (Q : B -> world -> Prop) X w :
  ends env t (fun r w' => ends env (k r) Q X w') X w -> ends env (ITree.bind t k) Q X w.
Proof.
  intros ([r w1|e w1|] & Ht & Hpost); [| |destruct Hpost].
  - destruct Hpost as (o & Hk & Ho). exists o. split; [|exact Ho].
    eapply runs_bind; eassumption.
  - exists (Raised e w1). split; [|exact Hpost]. apply runs_bind_raise, Ht.
Qed.

Lemma ends_trigger {T} (e : nbE T) (Q : T -> world -> Prop) X w :
  match handle env e w with
  | (Ok x, w') => Q x w'
  | (Raise ex, w') => X ex w'
  end ->
  ends env (ITree.trigger e) Q X w.
Proof.
  destruct (handle env e w) as [[x|ex] w'] eqn:He; intros H.
  - exists (Done x w'). split; [apply runs_trigger, He | exact H].
  - exists (Raised ex w'). split; [apply runs_trigger_raise, He | exact H].
Qed.

Lemma ends_load x (Q : pyval -> world -> Prop) X w :
  (forall v, ns w !! x = Some v -> Q v w) ->
  (ns w !! x = None -> X (NameError x) w) ->
  ends env (load x) Q X w.
Proof.
  intros HQ HX. apply ends_trigger. cbn.
  destruct (ns w !! x) as [v|]; [apply HQ | apply HX]; reflexivity.
Qed.

Lemma ends_throw {A} e (Q : A -> world -> Prop) (X : exn -> world -> Prop) w :
  X e w -> ends env (throw e) Q X w.
Proof. intros H. exists (Raised e w). split; [apply runs_throw | exact H]. Qed.

Lemma ends_lift {A} (r : result A) (Q : A -> world -> Prop) (X : exn -> world -> Prop) w :
  (forall a, r = Ok a -> Q a w) ->
  (forall e, r = Raise e -> X e w) ->
  ends env (lift r) Q X w.
Proof.
  intros HQ HX. destruct r as [a|e]; [apply ends_ret, HQ | apply ends_throw, HX]; reflexivity.
Qed.

Lemma ends_load_str x s (Q : string -> world -> Prop) (X : exn -> world -> Prop) w :
  ns w !! x = Some (VStr s) -> Q s w -> ends env (load_str x) Q X w.
Proof.
  intros Hx HQ. exists (Done s w). split; [apply runs_load_str, Hx | exact HQ].
Qed.

Lemma ends_store x v (Q : unit -> world -> Prop) X w :
  Q tt (bind_name x v w) -> ends env (store x v) Q X w.
Proof. intros H. apply ends_trigger. exact H. Qed.

Lemma ends_sdk c (Q : answer c -> world -> Prop) (X : exn -> world -> Prop) w :
  (forall a outs, Q a (answered c outs w)) ->
  (forall e, platform_failed env e (failed w c) -> X e (failed w c)) ->
  ends env (sdk c) Q X w.
Proof.
  intros HQ HX. apply ends_trigger. cbn.
  destruct (sdk_answer env _ c _) as [[a outs]|e] eqn:Ha; [apply HQ|].
  apply HX. exists w, c. split; [reflexivity | exact Ha].
Qed.

Lemma ends_runs {R} (t : itree nbE R) Q X w :
  ends env t Q X w ->
  forall fuel, exec env fuel t w <> OutOfFuel ->
    match exec env fuel t w with
    | Done r w' => Q r w'
    | Raised e w' => X e w'
    | OutOfFuel => False
    end.
Proof.
  intros (o & Ho & Hpost) fuel Hf. rewrite (runs_exec env t w fuel o Ho Hf). exact Hpost.
Qed.

Lemma ends_print v (Q : unit -> world -> Prop) (X : exn -> world -> Prop) w :
  Q tt (emit (EvPrint v) w) -> ends env (print v) Q X w.
Proof. intros H. apply ends_trigger. exact H. Qed.

Lemma ends_display v (Q : unit -> world -> Prop) (X : exn -> world -> Prop) w :
  Q tt (emit (EvDisplay v) w) -> ends env (display v) Q X w.
Proof. intros H. apply ends_trigger. exact H. Qed.

End Ends.

Ltac ends_step xside :=
  wp_norm;
  lazymatch goal with
  | |- ends _ (Ret _) _ _ _ => apply ends_ret
  | |- ends _ (ITree.bind _ _) _ _ _ => apply ends_bind
  | |- ends _ (load_str _) _ _ _ =>
      eapply ends_load_str;
      [ cbn [ns bind_name emit answered shelled stored failed];
        rewrite ?lookup_insert_ne by done;
        first [ rewrite lookup_insert_eq; reflexivity | eassumption ]
      | ]
  | |- ends _ (load _) _ _ _ => apply ends_load; [intros ? ? | intros ?; xside]
  | |- ends _ (store _ _) _ _ _ => apply ends_store
  | |- ends _ (print _) _ _ _ => apply ends_print
  | |- ends _ (display _) _ _ _ => apply ends_display
  | |- ends _ (sdk ?c) _ _ _ => apply (ends_sdk _ c); [intros ? ? | intros ? ?]
  | |- ends _ (throw _) _ _ _ => apply ends_throw; xside
  | |- ends _ (lift ?r) _ _ _ => apply ends_lift; [intros ? ? | intros ? ?; xside]
  | |- ends _ (match ?v with _ => _ end) _ _ _ => destruct v
  end.

(** *** Compiling the pipeline with [instance_type] bound *)

Section Serving.
Context (env : environment) (w : world) (vi : pyval) (code : string).
Hypothesis Hkfp : bound "kfp" w.
Hypothesis Hfn : bound "mnist_classification" w.
Hypothesis Hpo : bound "sagemaker_process_op" w.
Hypothesis Hto : bound "sagemaker_train_op" w.
Hypothesis Hmo : bound "sagemaker_model_op" w.
Hypothesis Hpi : bound "processing_input" w.
Hypothesis Hpout : bound "processing_output" w.
Hypothesis Hti : bound "training_input" w.
Hypothesis Hcode : ns w !! "processing_code_s3_uri" = Some (VStr code).
Hypothesis Hi : ns w !! "instance_type" = Some vi.
Hypothesis Hs : ns w !! "serving_image" = None.

Lemma compile_with_instance_type_ends :
  ends env Pipeline.cell_compile (fun _ _ => False)
    (fun e w' =>
       platform_failed env e w'
       \/ (e = NameError "serving_image"
           /\ exists vp vt kw1 kw2 process step,
                asks (trace w')
                = asks (trace w)
                    ++ [Called (component_op vp kw1); Called (component_op vt kw2);
                        Called (ContainerOp_after step process)]
                /\ ns w !! "sagemaker_process_op" = Some vp
                /\ ns w !! "sagemaker_train_op" = Some vt
                /\ assoc "instance_type" kw1 = Some vi
                /\ assoc "instance_type" kw2 = Some vi))
    w.
Proof.
  destruct Hkfp as [vk Hk], Hfn as [vf Hf], Hpo as [vp Hp], Hto as [vt Ht],
    Hmo as [vm Hm], Hpi as [vpi Hpi'], Hpout as [vpo Hpo'], Hti as [vti Hti'].
  unfold Pipeline.cell_compile, Pipeline.compile, Pipeline.mnist_classification.
  repeat (ends_step ltac:(first [ absurd_exception | idtac ]);
          try (left; assumption);
          resolve_unbound; resolve_pure).
  all: try (exfalso; assumption).
  right. split; [reflexivity|].
  eexists _, _, _, _, _, _.
  split.
  { cbn [trace answered]. unfold asks. rewrite !omap_app. cbn [omap list_omap asked app].
    rewrite <- !app_assoc. cbn [app]. reflexivity. }
  repeat split; try eassumption; reflexivity.
Qed.

(** X9: with [instance_type] bound, compiling the pipeline still fails.
    The pipeline function builds the processing step and the training
    step, both with that instance type, and records that the training
    step runs after the processing step; the model step then needs
    [serving_image], which no cell binds: unless the platform has failed
    one of the three requests before, the cell ends in a [NameError] for
    [serving_image], and never returns a compiled pipeline. *)
Theorem compile_needs_serving_image :
  exists e w',
    runs env Pipeline.cell_compile w (Raised e w')
    /\ (platform_failed env e w'
        \/ (e = NameError "serving_image"
            /\ exists vp vt kw1 kw2 process step,
                 asks (trace w')
                 = asks (trace w)
                     ++ [Called (component_op vp kw1); Called (component_op vt kw2);
                         Called (ContainerOp_after step process)]
                 /\ ns w !! "sagemaker_process_op" = Some vp
                 /\ ns w !! "sagemaker_train_op" = Some vt
                 /\ assoc "instance_type" kw1 = Some vi
                 /\ assoc "instance_type" kw2 = Some vi)).
Proof.
  destruct compile_with_instance_type_ends as ([r w'|e w'|] & Hruns & Hpost);
    [destruct Hpost | | destruct Hpost].
  exists e, w'. split; [exact Hruns | exact Hpost].
Qed.
End Serving.

Lemma compile_needs_serving_image_witness :
  let w := bind_name "instance_type" (VStr "ml.m5.2xlarge") Demo.pipeline_ready in
  exists e w',
    runs (Demo.env_ok 0) Pipeline.cell_compile w (Raised e w')
    /\ (platform_failed (Demo.env_ok 0) e w'
        \/ (e = NameError "serving_image"
            /\ exists vp vt kw1 kw2 process step,
                 asks (trace w')
                 = asks (trace w)
                     ++ [Called (component_op vp kw1); Called (component_op vt kw2);
                         Called (ContainerOp_after step process)]
                 /\ ns w !! "sagemaker_process_op" = Some vp
                 /\ ns w !! "sagemaker_train_op" = Some vt
                 /\ assoc "instance_type" kw1 = Some (VStr "ml.m5.2xlarge")
                 /\ assoc "instance_type" kw2 = Some (VStr "ml.m5.2xlarge"))).
Proof.
  refine (compile_needs_serving_image (Demo.env_ok 0)
            (bind_name "instance_type" (VStr "ml.m5.2xlarge") Demo.pipeline_ready)
            (VStr "ml.m5.2xlarge")
            "s3://sagemaker-us-east-1-000000000000/processing_code/kmeans_preprocessing.py"
            _ _ _ _ _ _ _ _ _ _ _).
  1-8: vm_compute; eexists; reflexivity.
  - by_vm.
  - by_vm.
  - by_vm.
Defined.

(** *** The video player *)

Section VideoPlayer.
Context (env : environment) (w : world) (region bucket video detail : string).
Hypothesis Hregion : ns w !! "awsRegion" = Some (VStr region).
Hypothesis Hbucket : ns w !! "bucketName" = Some (VStr bucket).
Hypothesis Hvideo : ns w !! "videoName" = Some (VStr video).
Hypothesis Hdetail : ns w !! "strDetail" = Some (VStr detail).
Hypothesis Hdisplay : bound "display" w.
Hypothesis Hhtml : bound "HTML" w.

Lemma video_player_ends :
  ends env Rekognition.cell_video_player
    (fun _ w' =>
       ns w' !! "s3VideoUrl" = Some (VStr (video_url region bucket video))
       /\ trace w'
          = trace w ++ [EvDisplay (VObj "IPython.display.HTML"
                          [("data", VStr (video_player (video_url region bucket video)
                                            detail))])])
    (fun _ _ => False) w.
Proof.
  destruct Hdisplay as [vd Hd], Hhtml as [vh Hh].
  unfold Rekognition.cell_video_player, video_player, video_url.
  destruct (String.eqb region "us-east-1") eqn:E;
    repeat (ends_step ltac:(first [ absurd_exception | idtac ]);
            resolve_unbound; resolve_pure; rewrite ?E; cbn [negb]).
  all: split;
    [ cbn [ns bind_name emit]; rewrite ?lookup_insert_ne by done;
      rewrite lookup_insert_eq
    | cbn [trace bind_name emit] ];
    cbn; rewrite ?append_assoc, ?append_nil_r_s; cbn; reflexivity.
Qed.
End VideoPlayer.

Section VideoPlayerRuns.
Context (env : environment) (w : world) (region bucket video detail : string).

(** X10: the cell that shows the video player asks nothing of the platform.
    It plays the video from [https://s3.amazonaws.com/<bucket>/<video>]
    when the region is [us-east-1] and from
    [https://s3-<region>.amazonaws.com/<bucket>/<video>] otherwise, keeps
    that address in [s3VideoUrl], and its one event is the display of a
    table with the player on the left and the per-timestamp report of the
    celebrities on the right. *)
Theorem video_player_url :
  ns w !! "awsRegion" = Some (VStr region) ->
  ns w !! "bucketName" = Some (VStr bucket) ->
  ns w !! "videoName" = Some (VStr video) ->
  ns w !! "strDetail" = Some (VStr detail) ->
  bound "display" w -> bound "HTML" w ->
  exists w',
    runs env Rekognition.cell_video_player w (Done tt w')
    /\ ns w' !! "s3VideoUrl" = Some (VStr (video_url region bucket video))
    /\ trace w'
       = trace w ++ [EvDisplay (VObj "IPython.display.HTML"
                       [("data", VStr (video_player (video_url region bucket video)
                                         detail))])].
Proof.
  intros Hregion Hbucket Hvideo Hdetail Hdisplay Hhtml.
  destruct (video_player_ends env w region bucket video detail
              Hregion Hbucket Hvideo Hdetail Hdisplay Hhtml)
    as ([[] w'|e w'|] & Hruns & Hpost); [|destruct Hpost|destruct Hpost].
  exists w'. split; [exact Hruns | exact Hpost].
Qed.
End VideoPlayerRuns.

Lemma video_player_url_witness :
  let w :=
    bind_name "awsRegion" (VStr "eu-west-1")
      (bind_name "bucketName" (VStr "media-bucket")
         (bind_name "videoName" (VStr "content-moderation/media/GrandTour720.mp4")
            (bind_name "strDetail" (VStr "<b>0 ms</b>")
               (bind_name "display" (Rekognition.module "IPython.display.display")
                  (bind_name "HTML" (Rekognition.module "IPython.display.HTML")
                     (fresh_kernel "/home/ec2-user/SageMaker/rekognition" ∅)))))) in
  exists w',
    runs (Demo.env_ok 12) Rekognition.cell_video_player w (Done tt w')
    /\ ns w' !! "s3VideoUrl"
       = Some (VStr "https://s3-eu-west-1.amazonaws.com/media-bucket/content-moderation/media/GrandTour720.mp4")
    /\ trace w'
       = trace w ++ [EvDisplay (VObj "IPython.display.HTML"
                       [("data", VStr (video_player
                                         (video_url "eu-west-1" "media-bucket"
                                            "content-moderation/media/GrandTour720.mp4")
                                         "<b>0 ms</b>"))])].
Proof.
  refine (video_player_url (Demo.env_ok 12) _ "eu-west-1" "media-bucket"
            "content-moderation/media/GrandTour720.mp4" "<b>0 ms</b>" _ _ _ _ _ _).
  1-4: reflexivity.
  1-2: eexists; reflexivity.
Defined.

(** *** The colours of the boxes *)

Section DrawBounds.
Import Rekognition.

Lemma draw_box_raises width height box color e :
  draw_box width height box color = Raise e -> e = OverflowError \/ e = ValueError.
Proof.
  assert (Hint : forall x e', int_of_float x = Raise e' ->
                              e' = OverflowError \/ e' = ValueError).
  { intros x e'. unfold int_of_float. destruct (Prim2SF x); intros [= <-]; auto. }
  unfold draw_box, mbind, result_bind.
  repeat match goal with
         | |- match int_of_float ?x with _ => _ end = _ -> _ =>
             let H := fresh "H" in
             destruct (int_of_float x) eqn:H; [|intros [= <-]; eapply Hint, H]
         end.
  discriminate.
Qed.

End DrawBounds.


(** *** The report of the celebrities of a video *)

Section Detections.
Import Rekognition.

Lemma first_seen_snoc l x :
  first_seen (l ++ [x]) = if decide (x ∈ l) then first_seen l else first_seen l ++ [x].
Proof.
  unfold first_seen. rewrite reverse_snoc. cbn [remove_dups].
  destruct (decide_rel elem_of x (reverse l)) as [Hin|Hnin];
    destruct (decide (x ∈ l)) as [Hin'|Hnin']; try reflexivity.
  - exfalso. apply Hnin'. apply elem_of_reverse, Hin.
  - exfalso. apply Hnin. apply elem_of_reverse, Hin'.
  - rewrite reverse_cons. reflexivity.
Qed.

Lemma elem_of_first_seen l x : x ∈ first_seen l <-> x ∈ l.
Proof. unfold first_seen. rewrite elem_of_reverse, elem_of_remove_dups, elem_of_reverse. tauto. Qed.

Lemma detail_entry a b c :
  format "At {} ms: {} (Confidence: {})<br>" [a; b; c]
  = Ok ("At " +:+ a +:+ " ms: " +:+ b +:+ " (Confidence: " +:+ c +:+ ")<br>").
Proof. reflexivity. Qed.

Lemma detail_text_cons py c cs :
  detail_text py (c :: cs)
  = match detail_line py c with
    | Some l => l +:+ detail_text py cs
    | None => detail_text py cs
    end.
Proof. unfold detail_text. cbn [omap list_omap]. destruct (detail_line py c); reflexivity. Qed.

Lemma confident_names_cons c cs :
  confident_names (c :: cs)
  = match confident c with
    | Some detail => CelebrityDetail.Name detail :: confident_names cs
    | None => confident_names cs
    end.
Proof. unfold confident_names. cbn [omap list_omap]. destruct (confident c); reflexivity. Qed.

Lemma detection_step_confident py d sd c :
  detection_step py (d, sd) c
  = match confident c, detail_line py c with
    | Some detail, Some l =>
        let name := CelebrityDetail.Name detail in
        Ok (if dict_contains name d then d else dict_setitem name (VStr name) d, sd +:+ l)
    | _, _ => Ok (d, sd)
    end.
Proof.
  unfold detection_step, detail_line, confident.
  destruct (CelebrityRecognition.Celebrity c) as [detail|]; [|reflexivity].
  destruct (95 <? CelebrityDetail.Confidence detail)%float; [|reflexivity].
  rewrite detail_entry. cbn [mbind result_bind option_bind].
  destruct (dict_contains (CelebrityDetail.Name detail) d); reflexivity.
Qed.

Lemma detection_loop_report py cs : forall seen d sd,
  dict_keys d = first_seen seen ->
  exists d',
    detection_loop py cs (d, sd) = Ok (d', sd +:+ detail_text py cs)
    /\ dict_keys d' = first_seen (seen ++ confident_names cs).
Proof.
  induction cs as [|c cs IH]; intros seen d sd Hd.
  - exists d. unfold detail_text, confident_names. cbn.
    rewrite append_nil_r_s, app_nil_r. auto.
  - cbn [detection_loop]. rewrite detection_step_confident, detail_text_cons,
      confident_names_cons.
    assert (Hline : detail_line py c = None <-> confident c = None).
    { unfold detail_line. destruct (confident c); cbn; split; congruence. }
    destruct (confident c) as [detail|] eqn:Hconf.
    2:{ rewrite (proj2 Hline eq_refl). cbn [mbind result_bind]. apply IH, Hd. }
    destruct (detail_line py c) as [line|] eqn:Hl;
      [|destruct Hline as [Hline _]; discriminate (Hline eq_refl)].
    cbn [mbind result_bind]. cbv zeta.
    set (name := CelebrityDetail.Name detail).
    assert (Hkeys : dict_contains name d = true <-> name ∈ seen).
    { rewrite dict_contains_keys, Hd. apply elem_of_first_seen. }
    destruct (dict_contains name d) eqn:Hin.
    + destruct (IH (seen ++ [name]) d (sd +:+ line)) as (d' & Hloop & Hk).
      { rewrite first_seen_snoc, Hd. rewrite decide_True by (apply Hkeys; reflexivity).
        reflexivity. }
      exists d'. rewrite Hloop. rewrite append_assoc_s, <- app_assoc in *. auto.
    + destruct (IH (seen ++ [name]) (dict_setitem name (VStr name) d) (sd +:+ line))
        as (d' & Hloop & Hk).
      { rewrite first_seen_snoc, dict_setitem_new, Hd by exact Hin.
        rewrite decide_False; [reflexivity|]. intros H. apply Hkeys in H. discriminate H. }
      exists d'. rewrite Hloop. rewrite append_assoc_s, <- app_assoc in *. auto.
Qed.

(** X12: the loop over the detections of the video builds the report per
    timestamp and the names of the overall video.  The report has one line
    for each detection that carries a celebrity with a confidence above
    95, in the order of the response and with repetitions; the names are
    those of the same detections, each once, in the order in which they
    first occur. *)
Theorem detection_loop_lines_and_names py cs :
  exists theCelebs,
    detection_loop py cs ([], strDetail_header)
    = Ok (theCelebs, strDetail_header +:+ detail_text py cs)
    /\ dict_keys theCelebs = first_seen (confident_names cs).
Proof. apply (detection_loop_report py cs [] [] strDetail_header). reflexivity. Qed.
End Detections.
